(** * Kunpeng-AED: the streaming pipeline, embedded and verified

    A shallow embedding of the real-time core of the repository:
    - [app/stream.py]: the [AudioStream] class (rolling buffer, bounded frame
      queue, microphone and WAV workers, start/stop),
    - [app/infer_tflite.py]: [YAMNetInference.predict] and [get_top_k],
    - [app/server.py]: [processing_loop], the module globals and the
      server lifecycle,
    - [app/feature.py]: the process pool of [FeatureExtractor],
    - [app/bench_cpu.py]: [CPUBenchmark.run].

    Python objects are records, their methods are computations in a small
    state-and-exception monad that also records, in order, the calls made on
    collaborators (the logger, the queue, the clock, threads, the socket). *)

From Stdlib Require Import ZArith QArith Lia Bool String DecimalString.
From stdpp Require Import base list gmap sorting.

Open Scope Z_scope.

(** ** Python values shared by all modules *)

(** Exception classes that the code raises, catches or can receive from a
    collaborator. [SystemExit] and [KeyboardInterrupt] derive from
    [BaseException] only, so that [except Exception] does not catch them. *)
Inductive exn_class :=
| ValueError | IndexError | AttributeError | RuntimeError
| QueueFull | QueueEmpty | PortAudioError
| SystemExit | KeyboardInterrupt.

Record exn := mk_exn { exn_cls : exn_class; exn_msg : string }.

Definition isinstance_Exception (e : exn) : bool :=
  match exn_cls e with
  | SystemExit | KeyboardInterrupt => false
  | _ => true
  end.

Definition is_QueueFull (e : exn) : bool :=
  match exn_cls e with QueueFull => true | _ => false end.

Definition is_QueueEmpty (e : exn) : bool :=
  match exn_cls e with QueueEmpty => true | _ => false end.

Inductive result (A : Type) :=
| Ok (a : A)
| Raise (e : exn).
Arguments Ok {A} a.
Arguments Raise {A} e.

Definition is_Ok {A} (r : result A) : bool :=
  match r with Ok _ => true | Raise _ => false end.

(** ** Python slicing and the numpy operations the code uses *)

Module Py.
Section Slices.
Context {A : Type}.

(** A slice bound [i] of a sequence of length [len], as Python normalises
    it: a negative bound counts from the end, and both are clamped. *)
Definition slice_bound (len : nat) (i : Z) : nat :=
  if i <? 0 then Z.to_nat (Z.max 0 (Z.of_nat len + i))
  else Z.to_nat (Z.min i (Z.of_nat len)).

(** [l[start:]] *)
Definition slice_from (l : list A) (start : Z) : list A :=
  drop (slice_bound (length l) start) l.

(** [l[:stop]] *)
Definition slice_to (l : list A) (stop : Z) : list A :=
  take (slice_bound (length l) stop) l.

(** [l[start:stop]] *)
Definition slice (l : list A) (start stop : Z) : list A :=
  let b := slice_bound (length l) start in
  let e := slice_bound (length l) stop in
  take (e - b) (drop b l).

(** [np.roll(a, shift)] on a one-dimensional array: element [i] moves to
    position [(i + shift) mod n]; an empty array is returned as it is. *)
Definition np_roll (a : list A) (shift : Z) : list A :=
  match a with
  | [] => []
  | _ =>
      let n := length a in
      let s := Z.to_nat (shift mod Z.of_nat n) in
      drop (n - s) a ++ take (n - s) a
  end.

(** [a[start:] = vals] on a one-dimensional array: [vals] must have the
    length of the target slice, or length one (it is then broadcast);
    anything else is numpy's [ValueError]. *)
Definition setitem_from (a : list A) (start : Z) (vals : list A)
  : result (list A) :=
  let b := slice_bound (length a) start in
  let t := (length a - b)%nat in
  if (length vals =? t)%nat then Ok (take b a ++ vals)
  else match vals with
       | [v] => Ok (take b a ++ replicate t v)
       | _ => Raise (mk_exn ValueError "could not broadcast input array")
       end.

(** [np.pad(a, (0, after))] with the default constant mode: [after]
    copies of [zero] on the right; a negative width is a [ValueError]. *)
Definition np_pad_right (zero : A) (a : list A) (after : Z)
  : result (list A) :=
  if after <? 0 then
    Raise (mk_exn ValueError "index can't contain negative values")
  else Ok (a ++ replicate (Z.to_nat after) zero).

(** [np.zeros(n)] *)
Definition np_zeros (zero : A) (n : Z) : result (list A) :=
  if n <? 0 then Raise (mk_exn ValueError "negative dimensions are not allowed")
  else Ok (replicate (Z.to_nat n) zero).

(** [len(l)] *)
Definition len (l : list A) : Z := Z.of_nat (length l).
End Slices.
End Py.

(** ** Effects: the calls a method makes on its collaborators *)

Inductive level := INFO | WARNING | ERROR.

(** The target of a [threading.Thread]. *)
Inductive worker := WavWorker | MicWorker | ProcessingLoop.

Section Effects.
Context {sample : Type}.

Inductive effect :=
| Log (lv : level) (text : string)            (* logger.info/warning/error *)
| LogExn (lv : level) (text : string) (e : exn)   (* ... with [{e}] in the text *)
| Put (frame : list sample) (accepted : bool) (* frame_queue.put_nowait(frame) *)
| Get (got : option (list sample))            (* frame_queue.get(timeout=...) *)
| Sleep (ms : Z)                              (* time.sleep, sd.sleep *)
| Join (t : worker) (timeout_ms : Z)          (* Thread.join(timeout=...) *)
| Spawn (t : worker)                          (* Thread(target=...).start() *)
| OpenInput (blocksize : Z)                   (* sd.InputStream(...).__enter__ *)
| CloseInput.                                 (* sd.InputStream.__exit__ *)
End Effects.
Arguments effect : clear implicits.

(** ** The state, exception and trace monad *)

Section Monad.
Context {E St : Type}.

Definition M (A : Type) : Type := St -> result A * St * list E.

Definition ret {A} (a : A) : M A := fun s => (Ok a, s, []).

Definition bind {A B} (m : M A) (k : A -> M B) : M B :=
  fun s =>
    match m s with
    | (Ok a, s1, t1) =>
        match k a s1 with
        | (r, s2, t2) => (r, s2, t1 ++ t2)
        end
    | (Raise e, s1, t1) => (Raise e, s1, t1)
    end.

Definition raise {A} (e : exn) : M A := fun s => (Raise e, s, []).

Definition lift {A} (r : result A) : M A := fun s => (r, s, []).

Definition emit (e : E) : M unit := fun s => (Ok tt, s, [e]).

Definition get_state : M St := fun s => (Ok s, s, []).

Definition put_state (s' : St) : M unit := fun _ => (Ok tt, s', []).

Definition modify (f : St -> St) : M unit := fun s => (Ok tt, f s, []).

(** [try: m  except <class>: handler]: an exception that matches
    [catches] is handled, any other one propagates. *)
Definition try_except {A} (m : M A) (catches : exn -> bool)
    (handler : exn -> M A) : M A :=
  fun s =>
    match m s with
    | (Raise e, s1, t1) =>
        if catches e then
          match handler e s1 with
          | (r, s2, t2) => (r, s2, t1 ++ t2)
          end
        else (Raise e, s1, t1)
    | ok => ok
    end.
End Monad.
Arguments M : clear implicits.

(** Unfolds the monad's operations and computes. *)
Ltac run_monad :=
  repeat (progress (unfold bind, ret, raise, lift, emit, get_state,
                      put_state, modify, try_except; simpl)).

Ltac run_monad_in H :=
  repeat (progress (unfold bind, ret, raise, lift, emit, get_state,
                      put_state, modify, try_except in H; simpl in H)).

Notation "'do' x <- m ; k" := (bind m (fun x => k))
  (at level 10, x name, m at level 99, k at level 200).
Notation "'run' m ; k" := (bind m (fun _ => k))
  (at level 10, m at level 99, k at level 200).

(** ** [queue.Queue] *)

Module Queue.
Section Queue.
Context {A : Type}.

Record t := mk { maxsize : Z; items : list A }.

(** [queue.Queue(maxsize)] *)
Definition create (maxsize : Z) : t := mk maxsize [].

Definition qsize (q : t) : Z := Z.of_nat (length (items q)).

(** [put_nowait]: raises [queue.Full] when [maxsize > 0] and the queue
    already holds [maxsize] items. *)
Definition put_nowait (q : t) (x : A) : result unit * t :=
  if (0 <? maxsize q) && (maxsize q <=? qsize q) then
    (Raise (mk_exn QueueFull EmptyString), q)
  else (Ok tt, mk (maxsize q) (items q ++ [x])).

(** [get(timeout=...)] with the queue empty until the timeout elapses
    raises [queue.Empty]; otherwise the oldest item is removed and
    returned. A producer that puts during the wait is the interleaving
    in which its [put_nowait] comes first. *)
Definition get (q : t) : result A * t :=
  match items q with
  | [] => (Raise (mk_exn QueueEmpty EmptyString), q)
  | x :: rest => (Ok x, mk (maxsize q) rest)
  end.
End Queue.
Arguments t : clear implicits.
End Queue.

(** ** [app/stream.py]: class [AudioStream] *)

Module Stream.
Section AudioStream.
Context {sample : Type} (zero : sample).

(** The attributes that [__init__] binds on the instance (lines 42-53).
    The constructor arguments [window_duration] and [hop_duration] are
    used to compute [window_size] and [hop_size] and are not stored. *)
Record AudioStream := mkAudioStream {
  sample_rate : Z;
  channels : Z;
  window_size : Z;
  hop_size : Z;
  device : option Z;
  wav_file : option string;
  buffer : list sample;
  frame_queue : Queue.t (list sample);
  is_running : bool;
  _thread : option worker
}.

Definition set_buffer (b : list sample) (self : AudioStream) :=
  mkAudioStream (sample_rate self) (channels self) (window_size self)
    (hop_size self) (device self) (wav_file self) b (frame_queue self)
    (is_running self) (_thread self).

Definition set_frame_queue (q : Queue.t (list sample)) (self : AudioStream) :=
  mkAudioStream (sample_rate self) (channels self) (window_size self)
    (hop_size self) (device self) (wav_file self) (buffer self) q
    (is_running self) (_thread self).

Definition set_is_running (b : bool) (self : AudioStream) :=
  mkAudioStream (sample_rate self) (channels self) (window_size self)
    (hop_size self) (device self) (wav_file self) (buffer self)
    (frame_queue self) b (_thread self).

Definition set_thread (t : option worker) (self : AudioStream) :=
  mkAudioStream (sample_rate self) (channels self) (window_size self)
    (hop_size self) (device self) (wav_file self) (buffer self)
    (frame_queue self) (is_running self) t.

(** A method of [AudioStream]: a computation over the instance. *)
Definition Method (A : Type) : Type := M (effect sample) AudioStream A.

(** [__init__], lines 42-53, given the two sizes
    [int(window_duration * sample_rate)] and
    [int(hop_duration * sample_rate)] as already computed. *)
Definition init (sample_rate channels window_size hop_size : Z)
    (device : option Z) (wav_file : option string) : result AudioStream :=
  match Py.np_zeros zero window_size with
  | Ok buf =>
      Ok (mkAudioStream sample_rate channels window_size hop_size device
            wav_file buf (Queue.create 10) false None)
  | Raise e => Raise e
  end.

(** [self.frame_queue.put_nowait(x)] *)
Definition frame_queue_put_nowait (x : list sample) : Method unit :=
  fun self =>
    match Queue.put_nowait (frame_queue self) x with
    | (Ok u, q) => (Ok u, set_frame_queue q self, [Put x true])
    | (Raise e, q) => (Raise e, set_frame_queue q self, [Put x false])
    end.

(** [self.frame_queue.get(timeout=timeout)] *)
Definition frame_queue_get : Method (list sample) :=
  fun self =>
    match Queue.get (frame_queue self) with
    | (Ok x, q) => (Ok x, set_frame_queue q self, [Get (Some x)])
    | (Raise e, q) => (Raise e, set_frame_queue q self, [Get None])
    end.

(** [start], lines 60-73. *)
Definition start : Method unit :=
  do self <- get_state;
  if is_running self then
    emit (Log WARNING "Stream already running")
  else
    run modify (set_is_running true);
    let target :=
      match wav_file self with Some _ => WavWorker | None => MicWorker end in
    run modify (set_thread (Some target));
    run emit (Spawn target);
    emit (Log INFO "Audio stream started").

(** [stop], lines 75-80. [Thread.join(timeout=2.0)] returns [None]
    whether or not the thread has finished. *)
Definition stop : Method unit :=
  run modify (set_is_running false);
  do self <- get_state;
  run match _thread self with
      | Some t => emit (Join t 2000)
      | None => ret tt
      end;
  emit (Log INFO "Audio stream stopped").

(** [get_frame], lines 82-95. *)
Definition get_frame : Method (option (list sample)) :=
  try_except
    (do x <- frame_queue_get; ret (Some x))
    is_QueueEmpty
    (fun _ => ret None).

(** [_update_buffer], lines 149-159. [np.roll] builds a new array, the
    slice assignment writes into it, and the queue receives a copy. *)
Definition _update_buffer (new_data : list sample) : Method unit :=
  do self <- get_state;
  run modify (set_buffer (Py.np_roll (buffer self) (- hop_size self)));
  do self <- get_state;
  do buf <- lift (Py.setitem_from (buffer self) (- hop_size self)
                    (Py.slice_to new_data (hop_size self)));
  run modify (set_buffer buf);
  try_except
    (frame_queue_put_nowait buf)
    is_QueueFull
    (fun _ => emit (Log WARNING "Frame queue full, dropping frame")).

(** How a worker loop left off: it returned, or the schedule given to
    the model ended while the loop was still going. *)
Inductive loop_exit := Finished | StillLooping.

(** An array as [sf.read] returns it: one-dimensional for a mono file,
    frames by channels otherwise. The capture callback's [indata] is
    always of the second shape. *)
Inductive ndarray :=
| Array1 (data : list sample)
| Array2 (rows : list (list sample)).

(** [a[:, 0]] *)
Fixpoint first_column (rows : list (list sample)) : result (list sample) :=
  match rows with
  | [] => Ok []
  | [] :: _ => Raise (mk_exn IndexError "index 0 is out of bounds for axis 1")
  | (x :: _) :: rest =>
      match first_column rest with
      | Ok col => Ok (x :: col)
      | Raise e => Raise e
      end
  end.

(** Lines 129-130: [if audio_data.ndim > 1: audio_data = audio_data[:, 0]] *)
Definition to_mono (a : ndarray) : result (list sample) :=
  match a with
  | Array1 d => Ok d
  | Array2 rows => first_column rows
  end.

(** Lines 136-138: the chunk at [idx], padded when it is short. *)
Definition wav_chunk (audio_data : list sample) (idx hop_size : Z)
  : result (list sample) :=
  let chunk := Py.slice audio_data idx (idx + hop_size) in
  if Py.len chunk <? hop_size then
    Py.np_pad_right zero chunk (hop_size - Py.len chunk)
  else Ok chunk.

(** [self.hop_duration], line 142. [__init__] binds no attribute of
    that name (see [AudioStream]): the lookup raises. The value would
    be a duration, here in milliseconds. *)
Definition self_hop_duration : Method Z :=
  raise (mk_exn AttributeError
           "'AudioStream' object has no attribute 'hop_duration'").

(** Lines 136-140: the chunk at [idx] goes into the buffer. *)
Definition wav_append (audio_data : list sample) (idx : Z) : Method unit :=
  do self <- get_state;
  do chunk <- lift (wav_chunk audio_data idx (hop_size self));
  _update_buffer chunk.

(** Lines 136-142: one iteration of the replay loop; returns the next
    [idx]. *)
Definition wav_iteration (audio_data : list sample) (idx : Z) : Method Z :=
  run wav_append audio_data idx;
  do self <- get_state;
  let idx' := idx + hop_size self in
  do d <- self_hop_duration;
  run emit (Sleep d);
  ret idx'.

(** Lines 134-142: [while self.is_running and idx < len(audio_data)],
    for at most [fuel] iterations. *)
Fixpoint wav_loop (fuel : nat) (audio_data : list sample) (idx : Z)
  : Method loop_exit :=
  match fuel with
  | O => ret StillLooping
  | S fuel' =>
      do self <- get_state;
      if is_running self && (idx <? Py.len audio_data) then
        do idx' <- wav_iteration audio_data idx;
        wav_loop fuel' audio_data idx'
      else ret Finished
  end.

(** [_wav_worker], lines 122-147. [read] is what
    [sf.read(str(self.wav_file), dtype='float32')] gives. *)
Definition _wav_worker (fuel : nat) (read : result (ndarray * Z))
  : Method loop_exit :=
  try_except
    (do r <- lift read;
     do self <- get_state;
     run (if negb (snd r =? sample_rate self) then
            emit (Log WARNING "WAV sample rate differs")
          else ret tt);
     do audio_data <- lift (to_mono (fst r));
     run emit (Log INFO "WAV file loaded");
     do ex <- wav_loop fuel audio_data 0;
     match ex with
     | Finished => run emit (Log INFO "WAV playback finished"); ret Finished
     | StillLooping => ret StillLooping
     end)
    isinstance_Exception
    (fun e =>
       run emit (LogExn ERROR "WAV playback error" e);
       run modify (set_is_running false);
       ret Finished).

(** The capture callback, lines 99-104. [status] is the truth value of
    the flags that the capture subsystem passes. *)
Definition callback (indata : list (list sample)) (status : bool)
  : Method unit :=
  run (if status then emit (Log WARNING "Audio callback status")
       else ret tt);
  do audio <- lift (first_column indata);
  _update_buffer audio.

(** What happens during one [sd.sleep(100)] of the worker: the capture
    thread calls back, another thread may call [stop], and the sleep
    returns or raises. *)
Record poll := mk_poll {
  poll_callbacks : list (list (list sample) * bool);
  poll_stop : bool;
  poll_sleep : result unit
}.

(** Callbacks run on the capture subsystem's thread: an exception they
    raise does not reach the worker. *)
Fixpoint deliver (cbs : list (list (list sample) * bool)) : Method unit :=
  match cbs with
  | [] => ret tt
  | (indata, status) :: rest =>
      run try_except (callback indata status) (fun _ => true)
            (fun _ => ret tt);
      deliver rest
  end.

(** Lines 116-117: [while self.is_running: sd.sleep(100)]. *)
Fixpoint mic_loop (polls : list poll) : Method loop_exit :=
  match polls with
  | [] => ret StillLooping
  | p :: rest =>
      do self <- get_state;
      if is_running self then
        run emit (Sleep 100);
        run deliver (poll_callbacks p);
        run (if poll_stop p then modify (set_is_running false) else ret tt);
        run lift (poll_sleep p);
        mic_loop rest
      else ret Finished
  end.

(** [with sd.InputStream(...): body]: the stream is closed when the
    body returns or raises, and an exception of the body is raised
    again after that unless closing raises itself. *)
Definition with_input_stream (body : Method loop_exit)
    (close : result unit) : Method loop_exit :=
  fun self =>
    match body self with
    | (Ok StillLooping, s1, t1) => (Ok StillLooping, s1, t1)
    | (Ok Finished, s1, t1) =>
        match close with
        | Ok _ => (Ok Finished, s1, t1 ++ [CloseInput])
        | Raise e => (Raise e, s1, t1 ++ [CloseInput])
        end
    | (Raise e, s1, t1) =>
        match close with
        | Ok _ => (Raise e, s1, t1 ++ [CloseInput])
        | Raise e' => (Raise e', s1, t1 ++ [CloseInput])
        end
    end.

(** Lines 107-117, the body of the [try]. [open] is the outcome of
    constructing and entering [sd.InputStream], [close] that of
    leaving it. *)
Definition mic_capture (open : result unit) (polls : list poll)
    (close : result unit) : Method loop_exit :=
  do self <- get_state;
  run emit (OpenInput (hop_size self));
  run lift open;
  with_input_stream
    (run emit (Log INFO "Microphone opened"); mic_loop polls)
    close.

(** [_mic_worker], lines 97-120. *)
Definition _mic_worker (open : result unit) (polls : list poll)
    (close : result unit) : Method loop_exit :=
  try_except
    (mic_capture open polls close)
    isinstance_Exception
    (fun e =>
       run emit (LogExn ERROR "Microphone error" e);
       run modify (set_is_running false);
       ret Finished).

(** A producer appending a sequence of chunks, one call of
    [_update_buffer] each. *)
Fixpoint append_all (chunks : list (list sample)) : Method unit :=
  match chunks with
  | [] => ret tt
  | c :: rest => run _update_buffer c; append_all rest
  end.

(** One call of [_update_buffer] on the producer's thread; an
    exception there is the producer's and does not reach the consumer. *)
Definition produce_one (c : list sample) : Method unit :=
  try_except (_update_buffer c) (fun _ => true) (fun _ => ret tt).

Fixpoint produce (chunks : list (list sample)) : Method unit :=
  match chunks with
  | [] => ret tt
  | c :: rest => run produce_one c; produce rest
  end.

(** An interleaving of the two threads on the shared queue: the
    producer's calls of [_update_buffer] and the consumer's calls of
    [get_frame], each atomic under the queue's lock. *)
Inductive op := Produce (chunk : list sample) | Consume.

Fixpoint interleave (ops : list op) : Method unit :=
  match ops with
  | [] => ret tt
  | Produce c :: rest => run produce_one c; interleave rest
  | Consume :: rest => run get_frame; interleave rest
  end.

(** The openings of the capture device in a trace (their block sizes). *)
Definition opens_of (t : list (effect sample)) : list Z :=
  omap (fun e => match e with OpenInput b => Some b | _ => None end) t.

(** The frames the queue accepted in a trace, in order. *)
Definition accepted_of (t : list (effect sample)) : list (list sample) :=
  omap (fun e => match e with Put f true => Some f | _ => None end) t.

(** The frames offered to the queue in a trace, in order. *)
Definition frames_of (t : list (effect sample)) : list (list sample) :=
  omap (fun e => match e with Put f _ => Some f | _ => None end) t.

(** The frames the consumer received in a trace, in order. *)
Definition delivered_of (t : list (effect sample)) : list (list sample) :=
  omap (fun e => match e with Get (Some f) => Some f | _ => None end) t.

End AudioStream.
Arguments AudioStream : clear implicits.
Arguments Method : clear implicits.
Arguments ndarray : clear implicits.
Arguments poll : clear implicits.
Arguments op : clear implicits.
End Stream.

(** ** [app/infer_tflite.py]: class [YAMNetInference] *)

Module Infer.
Section YAMNet.
Context {value : Type} (zero : value).

(** A two-dimensional array with its shape: [shape0] rows of [shape1]
    columns each. *)
Record matrix := mk_matrix {
  shape0 : nat;
  shape1 : nat;
  rows : list (list value)
}.

Inductive effect :=
| Logged (lv : level) (text : string)
| Invoked (input_data : list matrix).  (* set_tensor; invoke; get_tensor *)

Record YAMNetInference := mkYAMNetInference {
  model_path : string;
  num_threads : Z;
  use_npu : bool;
  class_names : list string
}.

Definition Method (A : Type) : Type := M effect YAMNetInference A.

(** Line 68: [[f"class_{i}" for i in range(521)]] *)
Definition default_class_names : list string :=
  map (fun i => ("class_" ++ NilZero.string_of_uint (Nat.to_uint i))%string)
      (seq 0 521).

(** [__init__], lines 40-68, once the interpreter is built.
    [class_names or [...]]: [None] and the empty list both give the
    default names. *)
Definition init (model_path : string) (num_threads : Z) (use_npu : bool)
    (class_names : option (list string)) : YAMNetInference :=
  mkYAMNetInference model_path num_threads use_npu
    match class_names with
    | None | Some [] => default_class_names
    | Some names => names
    end.

(** The rows of an array agree with its shape. *)
Definition wf_matrix (m : matrix) : Prop :=
  length (rows m) = shape0 m
  /\ Forall (fun r => length r = shape1 m) (rows m).

(** The element at row [i], column [j]. *)
Definition element (m : matrix) (i j : nat) : value :=
  nth j (nth i (rows m) []) zero.

(** [np.pad(features, ((0, 0), (0, after)))] *)
Definition pad_columns (m : matrix) (after : nat) : matrix :=
  mk_matrix (shape0 m) (shape1 m + after)
    (map (fun r => r ++ replicate after zero) (rows m)).

(** [features[:, :n]] *)
Definition crop_columns (m : matrix) (n : nat) : matrix :=
  mk_matrix (shape0 m) (Nat.min n (shape1 m)) (map (take n) (rows m)).

(** [features.T] *)
Definition transpose (m : matrix) : matrix :=
  mk_matrix (shape1 m) (shape0 m)
    (map (fun j => map (fun r => nth j r zero) (rows m)) (seq 0 (shape1 m))).

(** [l[i]] for a non-negative index. *)
Definition getitem {A} (l : list A) (i : nat) : result A :=
  match l !! i with
  | Some x => Ok x
  | None => Raise (mk_exn IndexError "index out of range")
  end.

(** Lines 90-97: the time axis brought to 96 columns, the transposition
    and the batch dimension. *)
Definition input_data_of (features : matrix) : list matrix :=
  let features :=
    if (shape1 features <? 96)%nat then
      pad_columns features (96 - shape1 features)
    else if (96 <? shape1 features)%nat then crop_columns features 96
    else features in
  [transpose features].

(** [predict], lines 75-108. [interpreter] stands for the three calls
    [set_tensor], [invoke], [get_tensor] on the TFLite interpreter and
    gives the output tensor or the exception one of them raises;
    [t_start] and [t_end] are the two readings of [time.perf_counter]. *)
Definition predict (interpreter : list matrix -> result (list (list value)))
    (t_start t_end : Q) (features : matrix) : Method (list value * Q) :=
  run (if negb (shape0 features =? 64)%nat then
         emit (Logged WARNING "Expected 64 Mel bands")
       else ret tt);
  let input_data := input_data_of features in
  run emit (Invoked input_data);
  do output <- lift (interpreter input_data);
  do predictions <- lift (getitem output 0);
  ret (predictions, ((t_end - t_start) * 1000)%Q).

(** Lines 126-129: the list comprehension over [top_indices]. *)
Fixpoint pairs (names : list string) (predictions : list value)
    (top_indices : list nat) : result (list (string * value)) :=
  match top_indices with
  | [] => Ok []
  | idx :: rest =>
      match getitem names idx, getitem predictions idx with
      | Ok name, Ok p =>
          match pairs names predictions rest with
          | Ok l => Ok ((name, p) :: l)
          | Raise e => Raise e
          end
      | Raise e, _ => Raise e
      | _, Raise e => Raise e
      end
  end.

Section TopK.
(** [np.argsort]: the indices that sort the vector in ascending
    order. numpy leaves the order of equal elements to the sorting
    algorithm, so the routine is a parameter here. *)
Variable argsort : list value -> list nat.

(** [get_top_k], lines 110-129:
    [np.argsort(predictions)[-k:][::-1]]. *)
Definition get_top_k (predictions : list value) (k : Z)
  : Method (list (string * value)) :=
  do self <- get_state;
  let top_indices := rev (Py.slice_from (argsort predictions) (- k)) in
  lift (pairs (class_names self) predictions top_indices).
End TopK.

Section Argsort.
(** The comparison of two scores, [a < b]. *)
Variable ltb : value -> value -> bool.

(** An argsort by insertion, used by the examples: each element moves
    left past the elements that are strictly greater. Among equal
    scores numpy's own order depends on its sorting routine and need
    not be this one; the theorems about [get_top_k] take the routine
    as a parameter. *)
Fixpoint insert_index (v : list value) (i : nat) (sorted : list nat)
  : list nat :=
  match sorted with
  | [] => [i]
  | j :: rest =>
      if ltb (nth i v zero) (nth j v zero) then i :: j :: rest
      else j :: insert_index v i rest
  end.

Definition insertion_argsort (v : list value) : list nat :=
  fold_left (fun sorted i => insert_index v i sorted)
            (seq 0 (length v)) [].

(** No score at a position of [idxs] is greater than one at a later
    position. *)
Fixpoint ascending (v : list value) (idxs : list nat) : bool :=
  match idxs with
  | [] => true
  | i :: rest =>
      forallb (fun j => negb (ltb (nth j v zero) (nth i v zero))) rest
      && ascending v rest
  end.

(** The contract of [np.argsort] on a vector without NaN: a
    rearrangement of all the indices that puts the scores in
    ascending order. *)
Definition is_argsort (v : list value) (idxs : list nat) : bool :=
  bool_decide (idxs ≡ₚ seq 0 (length v)) && ascending v idxs.
End Argsort.

End YAMNet.
Arguments matrix : clear implicits.
Arguments effect : clear implicits.
Arguments Method : clear implicits.
End Infer.

(** ** [app/server.py]: [processing_loop] *)

Module Server.
Section ProcessingLoop.
Context {sample value : Type} (vzero : value).

(** The dictionary built at lines 108-117. *)
Record ResultRecord := mkResultRecord {
  timestamp : Q;
  frame_id : Z;
  top_class : string;
  confidence : value;
  top_k : list (string * value);
  latency_ms : Q;
  cpu_percent : Q;
  threads : Z
}.

Inductive event :=
| StreamCall (e : effect sample)        (* inside [audio_stream] *)
| EngineCall (e : Infer.effect value)       (* inside [inference_engine] *)
| Logged (lv : level) (text : string)
| LoggedExn (lv : level) (text : string) (e : exn)   (* exc_info=True *)
| Slept (ms : Z)                            (* time.sleep *)
| SocketEmit (event : string) (r : ResultRecord) (sent : bool).

(** The module globals the loop reads, and its local [frame_count]. *)
Record State := mkState {
  is_running : bool;
  audio_stream : Stream.AudioStream sample;
  inference_engine : Infer.YAMNetInference;
  frame_count : Z
}.

Definition set_is_running (b : bool) (st : State) :=
  mkState b (audio_stream st) (inference_engine st) (frame_count st).
Definition set_audio_stream (a : Stream.AudioStream sample) (st : State) :=
  mkState (is_running st) a (inference_engine st) (frame_count st).
Definition set_inference_engine (e : Infer.YAMNetInference) (st : State) :=
  mkState (is_running st) (audio_stream st) e (frame_count st).
Definition set_frame_count (n : Z) (st : State) :=
  mkState (is_running st) (audio_stream st) (inference_engine st) n.

Definition Method (A : Type) : Type := M event State A.

(** A method call on the global [audio_stream]. *)
Definition in_stream {A} (m : Stream.Method sample A) : Method A :=
  fun st =>
    match m (audio_stream st) with
    | (r, a, t) => (r, set_audio_stream a st, map StreamCall t)
    end.

(** A method call on the global [inference_engine]. *)
Definition in_engine {A} (m : Infer.Method value A) : Method A :=
  fun st =>
    match m (inference_engine st) with
    | (r, e, t) => (r, set_inference_engine e st, map EngineCall t)
    end.

(** What the rest of the system does around one test of the loop
    condition, and what the collaborators answer in the iteration that
    follows. *)
Record tick := mk_tick {
  tick_stop : bool;                       (* [stop_server] has run *)
  tick_arrivals : list (list sample);     (* chunks the producer appends *)
  tick_extract : list sample -> result (Infer.matrix value);
  tick_interpreter :
    list (Infer.matrix value) -> result (list (list value));
  tick_t_start : Q;
  tick_t_end : Q;
  tick_cpu_percent : result Q;
  tick_time : Q;
  tick_emit : result unit
}.

(** [socketio.emit('inference_result', result, namespace='/')] *)
Definition socketio_emit (tk : tick) (r : ResultRecord) : Method unit :=
  fun st =>
    match tick_emit tk with
    | Ok u => (Ok u, st, [SocketEmit "inference_result" r true])
    | Raise e => (Raise e, st, [SocketEmit "inference_result" r false])
    end.

Variable argsort : list value -> list nat.

(** Lines 90-129: the body of the [try]. *)
Definition iteration_body (tk : tick) : Method unit :=
  do audio_frame <- in_stream Stream.get_frame;
  match audio_frame with
  | None => ret tt
  | Some audio_frame =>
      do features <- lift (tick_extract tk audio_frame);
      do pl <- in_engine (Infer.predict vzero (tick_interpreter tk)
                            (tick_t_start tk) (tick_t_end tk) features);
      do top <- in_engine (Infer.get_top_k argsort (fst pl) 5);
      do cpu <- lift (tick_cpu_percent tk);
      do st <- get_state;
      do first <- lift (Infer.getitem top 0);
      let result :=
        mkResultRecord (tick_time tk) (frame_count st) (fst first)
          (snd first) top (snd pl) cpu
          (Infer.num_threads (inference_engine st)) in
      run socketio_emit tk result;
      run modify (set_frame_count (frame_count st + 1));
      if (frame_count st + 1) mod 50 =? 0 then
        emit (Logged INFO "Processed frames")
      else ret tt
  end.

(** Lines 89-133: one iteration, with its [except Exception]. *)
Definition iteration (tk : tick) : Method unit :=
  try_except (iteration_body tk) isinstance_Exception
    (fun e =>
       run emit (LoggedExn ERROR "Processing error" e);
       emit (Slept 100)).

(** Lines 88-133: [while is_running:], one tick per test of the
    condition. *)
Fixpoint loop (ticks : list tick) : Method Stream.loop_exit :=
  match ticks with
  | [] => ret Stream.StillLooping
  | tk :: rest =>
      run (if tick_stop tk then modify (set_is_running false) else ret tt);
      run in_stream (Stream.produce (tick_arrivals tk));
      do st <- get_state;
      if is_running st then
        run iteration tk;
        loop rest
      else ret Stream.Finished
  end.

(** [processing_loop], lines 79-135. *)
Definition processing_loop (ticks : list tick) : Method Stream.loop_exit :=
  run modify (set_frame_count 0);
  run emit (Logged INFO "Processing loop started");
  do ex <- loop ticks;
  match ex with
  | Stream.Finished =>
      run emit (Logged INFO "Processing loop stopped");
      ret Stream.Finished
  | Stream.StillLooping => ret Stream.StillLooping
  end.

(** The [frame_id] of the records that [socketio.emit] sent, in order. *)
Definition sent_frame_ids (t : list event) : list Z :=
  omap (fun ev => match ev with
                  | SocketEmit _ r true => Some (frame_id r)
                  | _ => None
                  end) t.






End ProcessingLoop.
Arguments ResultRecord : clear implicits.
Arguments event : clear implicits.
Arguments State : clear implicits.
Arguments Method : clear implicits.
Arguments tick : clear implicits.
End Server.

(** ** [app/feature.py]: the pool of [FeatureExtractor] *)

Module Feature.

(** The attributes of a [FeatureExtractor] that its lifecycle depends
    on; [pool] tells whether [__init__] created a process pool. *)
Record FeatureExtractor := mkFeatureExtractor {
  sample_rate : Z;
  n_fft : Z;
  hop_length : Z;
  n_mels : Z;
  num_workers : Z;
  pool : bool
}.

Inductive effect :=
| Logged (lv : level) (text : string)
| PoolClose                               (* self.pool.close() *)
| PoolJoin.                               (* self.pool.join() *)

(** [__init__], lines 41-64: a pool only when [num_workers > 1]. *)
Definition init (sample_rate n_fft hop_length n_mels num_workers : Z)
  : FeatureExtractor :=
  mkFeatureExtractor sample_rate n_fft hop_length n_mels num_workers
    (1 <? num_workers).

(** [close], lines 118-123. *)
Definition close : M effect FeatureExtractor unit :=
  do self <- get_state;
  if pool self then
    run emit PoolClose;
    run emit PoolJoin;
    emit (Logged INFO "Feature extractor pool closed")
  else ret tt.
End Feature.

(** ** [app/server.py]: the module globals and the server lifecycle *)

Module ServerGlobals.
Section ServerGlobals.
Context {sample : Type} (zero : sample).

(** Lines 32-36. *)
Record Globals := mkGlobals {
  audio_stream : option (Stream.AudioStream sample);
  feature_extractor : option Feature.FeatureExtractor;
  inference_engine : option Infer.YAMNetInference;
  processing_thread : option worker;
  is_running : bool
}.

(** The module as it is imported. *)
Definition initial : Globals := mkGlobals None None None None false.

Definition set_audio_stream (a : option (Stream.AudioStream sample))
    (g : Globals) :=
  mkGlobals a (feature_extractor g) (inference_engine g)
    (processing_thread g) (is_running g).
Definition set_feature_extractor (f : option Feature.FeatureExtractor)
    (g : Globals) :=
  mkGlobals (audio_stream g) f (inference_engine g) (processing_thread g)
    (is_running g).
Definition set_inference_engine (e : option Infer.YAMNetInference)
    (g : Globals) :=
  mkGlobals (audio_stream g) (feature_extractor g) e (processing_thread g)
    (is_running g).
Definition set_processing_thread (t : option worker) (g : Globals) :=
  mkGlobals (audio_stream g) (feature_extractor g) (inference_engine g) t
    (is_running g).
Definition set_is_running (b : bool) (g : Globals) :=
  mkGlobals (audio_stream g) (feature_extractor g) (inference_engine g)
    (processing_thread g) b.

(** The dictionary of lines 150-154. *)
Record Status := mkStatus {
  status : string;
  model : string;
  threads : Z
}.

Inductive action :=
| StreamCall (e : effect sample)          (* inside [audio_stream] *)
| ExtractorCall (e : Feature.effect)      (* inside [feature_extractor] *)
| Logged (lv : level) (text : string)
| ThreadStart (t : worker)                (* Thread(target=...).start() *)
| ThreadJoin (t : worker) (timeout_ms : Z)
| SocketEmit (event : string) (s : Status)
| SocketRun (host : string) (port : Z).   (* socketio.run(app, ...) *)

Definition Method (A : Type) : Type := M action Globals A.

(** Calling a method on a global that is [None]. *)
Definition none_has_no_attribute (name : string) : exn :=
  mk_exn AttributeError
    ("'NoneType' object has no attribute '" ++ name ++ "'").

(** [audio_stream.<method>()] *)
Definition on_audio_stream {A} (name : string)
    (m : Stream.Method sample A) : Method A :=
  fun g =>
    match audio_stream g with
    | None => (Raise (none_has_no_attribute name), g, [])
    | Some a =>
        match m a with
        | (r, a', t) => (r, set_audio_stream (Some a') g, map StreamCall t)
        end
    end.

(** [feature_extractor.close()] on an extractor that is not [None]. *)
Definition close_feature_extractor (f : Feature.FeatureExtractor)
  : Method unit :=
  fun g =>
    match Feature.close f with
    | (r, f', t) =>
        (r, set_feature_extractor (Some f') g, map ExtractorCall t)
    end.

(** [init_system], lines 39-76. The sizes of the stream are
    [int(0.96 * 16000)] and [int(0.48 * 16000)]; [load] is the outcome
    of building the TFLite interpreter in [YAMNetInference.__init__]. *)
Definition init_system (load : result unit) (model_path : string)
    (num_threads : Z) (device : option Z) (wav_file : option string)
  : Method unit :=
  run emit (Logged INFO "Initializing Kunpeng-AED system...");
  do a <- lift (Stream.init zero 16000 1 15360 7680 device wav_file);
  run modify (set_audio_stream (Some a));
  run modify (set_feature_extractor
                (Some (Feature.init 16000 2048 160 64 2)));
  run lift load;
  run modify (set_inference_engine
                (Some (Infer.init model_path num_threads false None)));
  emit (Logged INFO "System initialized successfully").

(** [start_server], lines 164-178. [serve] is the outcome of the
    blocking [socketio.run]. *)
Definition start_server (serve : result unit) (host : string) (port : Z)
  : Method unit :=
  run modify (set_is_running true);
  run on_audio_stream "start" Stream.start;
  run modify (set_processing_thread (Some ProcessingLoop));
  run emit (ThreadStart ProcessingLoop);
  run emit (Logged INFO "Starting server");
  run emit (SocketRun host port);
  lift serve.

(** [stop_server], lines 181-198. *)
Definition stop_server : Method unit :=
  run emit (Logged INFO "Stopping Kunpeng-AED server...");
  run modify (set_is_running false);
  do g <- get_state;
  run match audio_stream g with
      | Some _ => on_audio_stream "stop" Stream.stop
      | None => ret tt
      end;
  run match feature_extractor g with
      | Some f => close_feature_extractor f
      | None => ret tt
      end;
  run match processing_thread g with
      | Some t => emit (ThreadJoin t 3000)
      | None => ret tt
      end;
  emit (Logged INFO "Server stopped").

(** [handle_connect], lines 144-155. The module never imports
    [request], so the log line always says "unknown". *)
Definition handle_connect : Method unit :=
  run emit (Logged INFO "Client connected: unknown");
  do g <- get_state;
  emit (SocketEmit "system_status"
          (mkStatus
             (if is_running g then "running" else "stopped")
             match inference_engine g with
             | Some e => Infer.model_path e
             | None => "N/A"
             end
             match inference_engine g with
             | Some e => Infer.num_threads e
             | None => 0
             end)).

(** [signal_handler], lines 201-205: [sys.exit(0)] raises [SystemExit]. *)
Definition signal_handler : Method unit :=
  run emit (Logged INFO "Received signal, shutting down...");
  run stop_server;
  raise (mk_exn SystemExit "0").

(** The status that a trace last sent to a client. *)
Definition last_status (t : list action) : option Status :=
  last (omap (fun a => match a with
                       | SocketEmit _ s => Some s
                       | _ => None
                       end) t).

End ServerGlobals.
Arguments Globals : clear implicits.
Arguments action : clear implicits.
Arguments Method : clear implicits.
End ServerGlobals.

(** ** [app/bench_cpu.py]: [CPUBenchmark.run] *)

Module Bench.
Section Bench.
Context {value stats : Type} (zero : value).

(** Lines 93-105: the eight statistics of one thread count, from the
    latencies, the CPU readings, [num_iterations] and the elapsed time.
    They are numpy reductions and a division on floats, which can
    raise; the benchmark's control flow does not look into them. *)
Variable statistics : list Q -> list Q -> Z -> Q -> result stats.

Record CPUBenchmark := mkCPUBenchmark {
  model_path : string;
  num_iterations : Z;
  warmup_iterations : Z;
  dummy_input : Infer.matrix value        (* np.random.randn(64, 100) *)
}.

Inductive event :=
| Logged (lv : level) (text : string)
| EngineCall (num_threads : Z) (e : Infer.effect value)
| Row (num_threads : Z) (s : stats).      (* a row of the summary table *)

(** The state is the local dictionary [results]. *)
Definition Method (A : Type) : Type := M event (gmap Z stats) A.

(** What the interpreter and the clock answer in one call of [predict]. *)
Record call := mk_call {
  call_interpreter :
    list (Infer.matrix value) -> result (list (list value));
  call_t_start : Q;
  call_t_end : Q
}.

(** What the environment answers while one thread count is measured. *)
Record round := mk_round {
  round_load : result unit;               (* YAMNetInference(...) *)
  round_warmup : nat -> call;
  round_start_time : Q;                   (* time.time() *)
  round_cpu_percent : nat -> result Q;    (* process.cpu_percent() *)
  round_timed : nat -> call;
  round_end_time : Q                      (* time.time() *)
}.

(** [engine.predict(self.dummy_input)] on the engine of this round. *)
Definition engine_predict (engine : Infer.YAMNetInference) (c : call)
    (features : Infer.matrix value) : Method (list value * Q) :=
  fun results =>
    let out :=
      Infer.predict zero (call_interpreter c) (call_t_start c)
        (call_t_end c) features engine in
    (out.1.1, results, map (EngineCall (Infer.num_threads engine)) out.2).

(** Lines 64-65, over [range(self.warmup_iterations)]. *)
Fixpoint warmup (engine : Infer.YAMNetInference) (rd : round)
    (self : CPUBenchmark) (range : list nat) : Method unit :=
  match range with
  | [] => ret tt
  | i :: rest =>
      run engine_predict engine (round_warmup rd i) (dummy_input self);
      warmup engine rd self rest
  end.

(** Lines 75-85, over [range(self.num_iterations)]. *)
Fixpoint measure (engine : Infer.YAMNetInference) (rd : round)
    (self : CPUBenchmark) (range : list nat) (latencies cpu_usage : list Q)
  : Method (list Q * list Q) :=
  match range with
  | [] => ret (latencies, cpu_usage)
  | i :: rest =>
      do cpu_percent <- lift (round_cpu_percent rd i);
      do pl <- engine_predict engine (round_timed rd i) (dummy_input self);
      let latencies := latencies ++ [pl.2] in
      let cpu_usage := cpu_usage ++ [cpu_percent] in
      run (if (Z.of_nat i + 1) mod 20 =? 0 then
             emit (Logged INFO "Progress")
           else ret tt);
      measure engine rd self rest latencies cpu_usage
  end.

Fixpoint log_all (texts : list string) : Method unit :=
  match texts with
  | [] => ret tt
  | text :: rest => run emit (Logged INFO text); log_all rest
  end.

(** [_print_results], lines 111-121. *)
Definition _print_results (num_threads : Z) (s : stats) : Method unit :=
  log_all ["Results for thread(s)"; "Mean latency"; "P95 latency";
           "P99 latency"; "Min latency"; "Max latency"; "QPS";
           "Mean CPU"; "Max CPU"]%string.

(** The order of [sorted(results.items())]: the keys of a dictionary
    are distinct, so the pairs are ordered by key. *)
Definition key_le (a b : Z * stats) : Prop := a.1 <= b.1.

#[global] Instance key_le_dec : RelDecision key_le.
Proof. intros a b. unfold key_le. apply Z.le_dec. Defined.

Fixpoint log_rows (items : list (Z * stats)) : Method unit :=
  match items with
  | [] => ret tt
  | (num_threads, s) :: rest => run emit (Row num_threads s); log_rows rest
  end.

(** [_print_summary], lines 123-143. *)
Definition _print_summary (results : gmap Z stats) : Method unit :=
  run log_all ["================"; "BENCHMARK SUMMARY"; "================";
               "Threads | Mean (ms) | P95 (ms) | QPS | CPU %";
               "----------------"]%string;
  run log_rows (merge_sort key_le (map_to_list results));
  emit (Logged INFO "================").

(** The body of the loop of [run], lines 56-107, for one thread count. *)
Definition one_round (self : CPUBenchmark) (rd : round) (num_threads : Z)
  : Method unit :=
  run log_all ["================"; "Benchmarking with thread(s)";
               "================"]%string;
  run lift (round_load rd);
  let engine := Infer.init (model_path self) num_threads false None in
  run emit (Logged INFO "Warmup");
  run warmup engine rd self (seq 0 (Z.to_nat (warmup_iterations self)));
  run emit (Logged INFO "Running benchmark");
  do lc <- measure engine rd self
             (seq 0 (Z.to_nat (num_iterations self))) [] [];
  let total_time := (round_end_time rd - round_start_time rd)%Q in
  do s <- lift (statistics lc.1 lc.2 (num_iterations self) total_time);
  run modify (insert num_threads s);
  _print_results num_threads s.

(** The loop of [run] from the [j]-th thread count on. *)
Fixpoint rounds (self : CPUBenchmark) (env : nat -> round) (j : nat)
    (thread_counts : list Z) : Method unit :=
  match thread_counts with
  | [] => ret tt
  | num_threads :: rest =>
      run one_round self (env j) num_threads;
      rounds self env (S j) rest
  end.

(** [run], lines 44-109: what it returns, or the exception that leaves
    it, and the trace. [env j] is the environment while the [j]-th
    thread count is measured. *)
Definition CPUBenchmark_run (self : CPUBenchmark) (env : nat -> round)
    (thread_counts : list Z) : result (gmap Z stats) * list event :=
  let out :=
    (run rounds self env 0 thread_counts;
     do results <- get_state;
     run _print_summary results;
     ret results) (∅ : gmap Z stats) in
  (out.1.1, out.2).

(** The calls of the interpreter in a trace: the thread count of the
    engine and the tensor it was given. *)
Definition invoked_of (t : list event)
  : list (Z * list (Infer.matrix value)) :=
  omap (fun e => match e with
                 | EngineCall n (Infer.Invoked input_data) =>
                     Some (n, input_data)
                 | _ => None
                 end) t.

(** The thread counts of the rows of the summary table, in order. *)
Definition rows_of (t : list event) : list Z :=
  omap (fun e => match e with Row n _ => Some n | _ => None end) t.

(** The progress lines of a trace. *)
Definition progress_of (t : list event) : list unit :=
  omap (fun e => match e with
                 | Logged _ text =>
                     if String.eqb text "Progress" then Some tt else None
                 | _ => None
                 end) t.

(** A trace of plain log lines other than the progress line. *)
Definition plain (t : list event) : Prop :=
  invoked_of t = [] /\ rows_of t = [] /\ progress_of t = [].

(** The number of indices of a range at which the progress line is
    logged. *)
Definition progress_count (range : list nat) : nat :=
  length (filter (fun i => (Z.of_nat i + 1) mod 20 = 0) range).
End Bench.
Arguments CPUBenchmark : clear implicits.
Arguments event : clear implicits.
Arguments Method : clear implicits.
Arguments call : clear implicits.
Arguments round : clear implicits.
End Bench.

(** ** Observations on traces *)

Module Trace.
Section Trace.
Context {sample : Type}.

(** The durations of the sleeps in a trace, in order. *)
Definition sleeps_of (t : list (effect sample)) : list Z :=
  omap (fun e => match e with Sleep ms => Some ms | _ => None end) t.

(** The exceptions logged in a trace, in order. *)
Definition logged_exns_of (t : list (effect sample)) : list exn :=
  omap (fun e => match e with LogExn _ _ x => Some x | _ => None end) t.

(** The threads started in a trace, in order. *)
Definition spawns_of (t : list (effect sample)) : list worker :=
  omap (fun e => match e with Spawn w => Some w | _ => None end) t.

(** The closings of the capture device in a trace. *)
Definition closes_of (t : list (effect sample)) : list unit :=
  omap (fun e => match e with CloseInput => Some tt | _ => None end) t.

(** A trace of log lines and queue offers only: what [_update_buffer]
    and the capture callback can record. *)
Definition quiet (t : list (effect sample)) : Prop :=
  Forall (fun e => match e with
                   | Log _ _ | Put _ _ => True
                   | _ => False
                   end) t.
End Trace.
End Trace.

(** ** Concrete inputs *)

Module Example.
(** A stream of integer samples with a window of 4 and a hop of 2, as
    [__init__] builds it. *)
Definition stream : Stream.AudioStream Z :=
  Stream.mkAudioStream 16000 1 4 2 None (Some "clip.wav"%string)
    [0; 0; 0; 0] (Queue.create 10) false None.

Definition chunks : list (list Z) := [[1; 2]; [3; 4]; [5; 6]].

(** The same stream after ten appends and no [get_frame]: the queue is
    full. *)
Definition full_stream : Stream.AudioStream Z :=
  Eval vm_compute in
    (Stream.append_all (replicate 10 [7; 8]) stream).1.2.

(** The stream after [start()], about to replay a five-sample asset:
    three chunks at a hop of 2. *)
Definition started : Stream.AudioStream Z :=
  Eval vm_compute in (Stream.start stream).1.2.

Definition asset : list Z := [1; 2; 3; 4; 5].

(** Scores as rationals, compared with [<]. *)
Definition Qltb (a b : Q) : bool := negb (Qle_bool b a).

Definition argsort : list Q -> list nat := Infer.insertion_argsort 0%Q Qltb.

Definition engine : Infer.YAMNetInference :=
  Infer.init "models/yamnet_int8.tflite" 4 false None.

Definition scores : list Q := [(1 # 10)%Q; (7 # 10)%Q; (2 # 10)%Q].

Definition tied_scores : list Q := [(1 # 2)%Q; (1 # 2)%Q].

(** One Mel band, two time frames. *)
Definition features : Infer.matrix Q :=
  Infer.mk_matrix 1 2 [[(3 # 1)%Q; (4 # 1)%Q]].

Definition interpreter (input_data : list (Infer.matrix Q))
  : result (list (list Q)) := Ok [scores].

Definition device_error : exn :=
  mk_exn PortAudioError "Error opening InputStream".

(** A stream on the default microphone, after [start()]. *)
Definition live : Stream.AudioStream Z :=
  Eval vm_compute in
    (Stream.start
       (Stream.mkAudioStream 16000 1 4 2 None None [0; 0; 0; 0]
          (Queue.create 10) false None)).1.2.

Definition server : Server.State Z := Server.mkState true live engine 0.

(** A tick in which the producer appends one chunk and the feature
    extractor raises or not. *)
Definition flaky_tick (fails : bool) : Server.tick Z Q :=
  Server.mk_tick false [[1; 2]]
    (fun _ => if fails then Raise (mk_exn RuntimeError "mock failure")
              else Ok features)
    interpreter 0 0 (Ok 0%Q) 0 (Ok tt).

(** The extractor raises on every third call. *)
Definition flaky_schedule : list (Server.tick Z Q) :=
  [flaky_tick false; flaky_tick false; flaky_tick true;
   flaky_tick false; flaky_tick false; flaky_tick true].

Definition idle_tick : Server.tick Z Q :=
  Server.mk_tick false [] (fun _ => Ok features) interpreter 0 0 (Ok 0%Q) 0
    (Ok tt).

(** The live stream with one frame queued. *)
Definition live_queued : Stream.AudioStream Z :=
  Eval vm_compute in (Stream.append_all [[1; 2]] live).1.2.

Definition queued_server : Server.State Z :=
  Server.mkState true live_queued engine 0.

Definition stopped_server : Server.State Z :=
  Server.mkState false live_queued engine 0.

(** A tick in which the engine answers with an empty score vector. *)
Definition empty_scores_tick : Server.tick Z Q :=
  Server.mk_tick false [] (fun _ => Ok features) (fun _ => Ok [[]]) 0 0
    (Ok 0%Q) 0 (Ok tt).

(** An engine that knows one class only. *)
Definition one_class_engine : Infer.YAMNetInference :=
  Infer.init "models/yamnet_int8.tflite" 4 false (Some ["Speech"%string]).

(** A poll in which the device delivers one block of two mono samples. *)
Definition quiet_poll : Stream.poll Z :=
  Stream.mk_poll [([[1]; [2]], false)] false (Ok tt).

(** A poll during which [stop()] is called. *)
Definition stop_poll : Stream.poll Z := Stream.mk_poll [] true (Ok tt).

(** A benchmark of 20 iterations after one warm-up, and an environment
    in which every call succeeds; the statistics kept are the number of
    latencies measured. *)
Definition benchmark : Bench.CPUBenchmark Q :=
  Bench.mkCPUBenchmark "models/yamnet_int8.tflite" 20 1 features.

Definition count_statistics (latencies cpu_usage : list Q)
    (num_iterations : Z) (total_time : Q) : result Z :=
  Ok (Py.len latencies).

Definition bench_call : Bench.call Q := Bench.mk_call interpreter 0 1.

Definition bench_round : Bench.round Q :=
  Bench.mk_round (Ok tt) (fun _ => bench_call) 0 (fun _ => Ok 0%Q)
    (fun _ => bench_call) 1.

Definition bench_env (j : nat) : Bench.round Q := bench_round.

(** The model cannot be loaded for the second thread count. *)
Definition load_error : exn := mk_exn ValueError "Could not open model".

Definition failing_env (j : nat) : Bench.round Q :=
  if (j =? 1)%nat then
    Bench.mk_round (Raise load_error) (fun _ => bench_call) 0
      (fun _ => Ok 0%Q) (fun _ => bench_call) 1
  else bench_round.
End Example.

(** * Properties *)

(** ** Slicing and rolling *)

Section PyFacts.
Context {A : Type}.
Implicit Types a l : list A.

Lemma slice_bound_neg (n : nat) (h : Z) :
  0 < h <= Z.of_nat n -> Py.slice_bound n (- h) = (n - Z.to_nat h)%nat.
Proof.
  intros Hh. unfold Py.slice_bound.
  destruct (Z.ltb_spec (- h) 0); lia.
Qed.

Lemma slice_bound_nonneg (n : nat) (i : Z) :
  0 <= i -> Py.slice_bound n i = Nat.min (Z.to_nat i) n.
Proof.
  intros Hi. unfold Py.slice_bound.
  destruct (Z.ltb_spec i 0); lia.
Qed.

Lemma np_roll_left a (h : Z) :
  0 <= h <= Py.len a ->
  Py.np_roll a (- h) = drop (Z.to_nat h) a ++ take (Z.to_nat h) a.
Proof.
  unfold Py.len, Py.np_roll. intros Hh.
  destruct a as [|x a']; [by rewrite drop_nil, take_nil|].
  set (l := x :: a') in *. set (n := length l) in *.
  assert (0 < Z.of_nat n) by (subst n l; simpl; lia).
  destruct (Z.eq_dec h 0) as [->|Hne].
  - change (- 0) with 0. rewrite Z.mod_0_l by lia.
    change (Z.to_nat 0) with 0%nat.
    rewrite Nat.sub_0_r. subst n.
    by rewrite drop_all, firstn_all, drop_0, take_0, app_nil_r.
  - destruct (Z.eq_dec h (Z.of_nat n)) as [->|Hne'].
    + replace (- Z.of_nat n) with ((-1) * Z.of_nat n) by lia.
      rewrite Z.mod_mul by lia. change (Z.to_nat 0) with 0%nat.
      rewrite Nat.sub_0_r, Nat2Z.id. done.
    + replace (- h) with ((Z.of_nat n - h) + (-1) * Z.of_nat n) by lia.
      rewrite Z.mod_add by lia. rewrite Z.mod_small by lia.
      replace (n - Z.to_nat (Z.of_nat n - h))%nat with (Z.to_nat h) by lia.
      done.
Qed.

Lemma slice_to_all l (h : Z) : Py.len l = h -> Py.slice_to l h = l.
Proof.
  unfold Py.len, Py.slice_to. intros <-.
  rewrite slice_bound_nonneg by lia.
  rewrite Nat2Z.id, Nat.min_id. apply firstn_all.
Qed.

(** The slice assignment of [_update_buffer] on the rolled buffer. *)
Lemma setitem_tail a c (h : Z) :
  0 < h <= Py.len a -> Py.len c = h ->
  Py.setitem_from (drop (Z.to_nat h) a ++ take (Z.to_nat h) a) (- h) c
  = Ok (drop (Z.to_nat h) a ++ c).
Proof.
  unfold Py.len. intros Hh Hc. unfold Py.setitem_from.
  assert (Hlen : length (drop (Z.to_nat h) a ++ take (Z.to_nat h) a)
                 = length a).
  { rewrite length_app, length_drop, length_take. lia. }
  rewrite Hlen, slice_bound_neg by lia.
  replace (length a - (length a - Z.to_nat h))%nat with (length c) by lia.
  rewrite Nat.eqb_refl. f_equal. f_equal.
  rewrite take_app_length'; [done|]. rewrite length_drop. lia.
Qed.

(** With a hop of zero the target slice is the whole buffer, and the
    empty chunk cannot be broadcast into it. *)
Lemma setitem_zero_hop a :
  a <> [] -> is_Ok (Py.setitem_from a (- 0) (@nil A)) = false.
Proof.
  intros Ha. unfold Py.setitem_from. simpl (- 0).
  rewrite slice_bound_nonneg by lia. simpl.
  destruct a; [done|]. reflexivity.
Qed.
End PyFacts.

(** ** The rolling buffer and the frame queue *)

Section StreamFacts.
Context {sample : Type} (zero : sample).
Import Stream.
Implicit Types (self : AudioStream sample) (c : list sample).

(** [_update_buffer], step by step. *)
Lemma update_buffer_eq self c :
  _update_buffer c self =
    let rolled := Py.np_roll (buffer self) (- hop_size self) in
    match Py.setitem_from rolled (- hop_size self)
            (Py.slice_to c (hop_size self)) with
    | Raise e => (Raise e, set_buffer rolled self, [])
    | Ok buf =>
        let s1 := set_buffer buf (set_buffer rolled self) in
        match Queue.put_nowait (frame_queue self) buf with
        | (Ok _, q) => (Ok tt, set_frame_queue q s1, [Put buf true])
        | (Raise _, q) =>
            (Ok tt, set_frame_queue q s1,
             [Put buf false;
              Log WARNING "Frame queue full, dropping frame"])
        end
    end.
Proof.
  unfold _update_buffer, bind, get_state, modify, lift, try_except. simpl.
  destruct (Py.setitem_from _ _ _) as [buf|e]; [|done].
  unfold frame_queue_put_nowait, Queue.put_nowait. simpl.
  destruct (_ && _); reflexivity.
Qed.

Lemma update_buffer_run self c :
  0 < hop_size self <= Py.len (buffer self)
  \/ (hop_size self = 0 /\ buffer self = []) ->
  Py.len c = hop_size self ->
  let buf := drop (Z.to_nat (hop_size self)) (buffer self) ++ c in
  _update_buffer c self =
    match Queue.put_nowait (frame_queue self) buf with
    | (Ok _, q) =>
        (Ok tt, set_frame_queue q (set_buffer buf self), [Put buf true])
    | (Raise _, q) =>
        (Ok tt, set_frame_queue q (set_buffer buf self),
         [Put buf false; Log WARNING "Frame queue full, dropping frame"])
    end.
Proof.
  intros Hh Hc buf.
  unfold _update_buffer, bind, get_state, modify, lift, try_except. simpl.
  assert (Hset : Py.setitem_from (Py.np_roll (buffer self) (- hop_size self))
                   (- hop_size self) (Py.slice_to c (hop_size self))
                 = Ok buf).
  { destruct Hh as [Hh|[Hh Hb]].
    - rewrite np_roll_left by lia. rewrite slice_to_all by done.
      by rewrite setitem_tail.
    - subst buf. rewrite Hh, Hb in *. destruct c; [reflexivity|].
      unfold Py.len in Hc. simpl in Hc. lia. }
  rewrite Hset.
  unfold frame_queue_put_nowait, Queue.put_nowait. simpl.
  destruct (_ && _); reflexivity.
Qed.

(** A hop of zero on a non-empty buffer: the slice assignment raises
    and no frame is offered. *)
Lemma update_buffer_zero_hop self c :
  hop_size self = 0 -> buffer self <> [] -> Py.len c = 0 ->
  exists e s', _update_buffer c self = (Raise e, s', []).
Proof.
  intros Hh Hb Hc. destruct c; [|unfold Py.len in Hc; simpl in Hc; lia].
  unfold _update_buffer, bind, get_state, modify, lift. simpl.
  rewrite Hh.
  pose proof (setitem_zero_hop (Py.np_roll (buffer self) (- 0))) as Hz.
  rewrite np_roll_left in * by (unfold Py.len; lia).
  change (Z.to_nat 0) with 0%nat in *. rewrite drop_0, take_0, app_nil_r in *.
  change (Py.slice_to [] 0) with (@nil sample).
  destruct (Py.setitem_from (buffer self) (- 0) []) eqn:E.
  - by specialize (Hz Hb).
  - eauto.
Qed.

Lemma frames_of_app (t1 t2 : list (effect sample)) :
  frames_of (t1 ++ t2) = frames_of t1 ++ frames_of t2.
Proof. apply omap_app. Qed.

(** Each call of [_update_buffer] that returns offers one frame: the
    buffer without its oldest [hop_size] samples, followed by the chunk. *)
Lemma update_buffer_frame self c :
  0 < hop_size self <= Py.len (buffer self)
  \/ (hop_size self = 0 /\ buffer self = []) ->
  Py.len c = hop_size self ->
  let buf := drop (Z.to_nat (hop_size self)) (buffer self) ++ c in
  exists q t,
    _update_buffer c self
    = (Ok tt, set_frame_queue q (set_buffer buf self), t)
    /\ frames_of t = [buf].
Proof.
  intros Hh Hc buf. rewrite update_buffer_run by done. fold buf.
  destruct (Queue.put_nowait _ _) as [[u|e] q]; eauto.
Qed.

Lemma append_all_frames chunks : forall self,
  hop_size self <= Py.len (buffer self) ->
  Forall (fun c => Py.len c = hop_size self) chunks ->
  let frames := frames_of (append_all chunks self).2 in
  (forall i f, frames !! i = Some f ->
     exists c prev,
       chunks !! i = Some c /\ (buffer self :: frames) !! i = Some prev
       /\ Py.len prev = Py.len (buffer self)
       /\ f = drop (Z.to_nat (hop_size self)) prev ++ c)
  /\ (0 < hop_size self ->
      (append_all chunks self).1.1 = Ok tt
      /\ length frames = length chunks).
Proof.
  induction chunks as [|c rest IH]; intros self Hle Hall.
  { simpl. split; [intros i f Hi; by rewrite lookup_nil in Hi | done]. }
  apply Forall_cons in Hall as [Hc Hrest].
  assert (0 <= hop_size self) by (unfold Py.len in Hc; lia).
  destruct (Z.eq_dec (hop_size self) 0) as [Hz|Hnz].
  - destruct (buffer self) as [|x b] eqn:Hb.
    + destruct (update_buffer_frame self c) as (q & t & Hrun & Hfr);
        [by right | done |].
      rewrite Hz, Hb in Hrun. simpl in Hrun.
      rewrite Hb, drop_nil in Hfr. simpl in Hfr.
      set (s1 := set_frame_queue _ _) in Hrun.
      destruct (IH s1) as [IH1 _];
        [subst s1; simpl; unfold Py.len; lia | done |].
      split; [|lia]. simpl. unfold bind. rewrite Hrun.
      destruct (append_all rest s1) as [[r s2] t2] eqn:E2. simpl in *.
      rewrite frames_of_app, Hfr. simpl.
      intros [|i] f Hi; simpl in *.
      * injection Hi as <-. exists c, []. by rewrite Hz.
      * destruct (IH1 i f Hi) as (c' & prev & ? & ? & Hp & ?).
        exists c', prev. repeat split; try done.
        rewrite Hp. unfold Py.len in *. simpl. lia.
    + destruct (update_buffer_zero_hop self c) as (e & s' & Hrun);
        [done | by rewrite Hb | by rewrite Hc|].
      split; [|lia]. simpl. unfold bind. rewrite Hrun. simpl.
      intros i f Hi. by rewrite lookup_nil in Hi.
  - destruct (update_buffer_frame self c) as (q & t & Hrun & Hfr);
      [left; lia | done |].
    set (buf := drop _ _ ++ c) in *.
    set (s1 := set_frame_queue _ _) in Hrun.
    assert (Hlen : Py.len buf = Py.len (buffer self)).
    { unfold Py.len in *. subst buf. rewrite length_app, length_drop. lia. }
    destruct (IH s1) as [IH1 IH2]; [simpl; lia | done |].
    simpl. unfold bind. rewrite Hrun.
    destruct (append_all rest s1) as [[r s2] t2] eqn:E2. simpl in *.
    rewrite frames_of_app, Hfr. simpl. split.
    + intros [|i] f Hi; simpl in *.
      * injection Hi as <-. by exists c, (buffer self).
      * destruct (IH1 i f Hi) as (c' & prev & ? & ? & Hp & ?).
        exists c', prev. repeat split; try done.
        by rewrite Hp.
    + intros _. destruct IH2 as [-> ->]; [lia|done].
Qed.

(** C1. Chunks of length [hop_size] appended through [_update_buffer]
    to the buffer of [window_size] zeros that [__init__] builds, with
    [hop_size <= window_size]: every frame offered to the queue has
    length [window_size], its trailing [hop_size] samples are the chunk
    just appended, and its leading [window_size - hop_size] samples are
    the previous buffer contents (the zeros, then the previous frame)
    without their oldest [hop_size] samples. With a positive hop every
    call returns and offers one frame. *)
Theorem update_buffer_window (sr ch W h : Z) dev wav
    (self : AudioStream sample) (chunks : list (list sample)) :
  h <= W ->
  Forall (fun c => Py.len c = h) chunks ->
  init zero sr ch W h dev wav = Ok self ->
  let out := append_all chunks self in
  let frames := frames_of out.2 in
  (forall i f, frames !! i = Some f ->
     Py.len f = W
     /\ exists c prev,
         chunks !! i = Some c
         /\ (replicate (Z.to_nat W) zero :: frames) !! i = Some prev
         /\ drop (Z.to_nat (W - h)) f = c
         /\ take (Z.to_nat (W - h)) f = drop (Z.to_nat h) prev)
  /\ (0 < h -> out.1.1 = Ok tt /\ length frames = length chunks).
Proof.
  intros Hle Hall Hinit out frames. unfold init, Py.np_zeros in Hinit.
  destruct (Z.ltb_spec W 0) as [|HW]; [done|].
  injection Hinit as <-. subst out frames.
  set (self := mkAudioStream _ _ _ _ _ _ _ _ _ _).
  assert (HlenW : Py.len (buffer self) = W).
  { unfold Py.len. simpl. rewrite length_replicate. lia. }
  destruct (append_all_frames chunks self) as [Hfr Htot];
    [rewrite HlenW; exact Hle | done |].
  split; [|exact Htot].
  intros i f Hi.
  destruct (Hfr i f Hi) as (c & prev & Hc & Hprev & Hp & ->).
  rewrite HlenW in Hp. change (hop_size self) with h.
  assert (Hclen : Py.len c = h).
  { eapply Forall_lookup_1 in Hall; eauto. }
  assert (Hdlen : length (drop (Z.to_nat h) prev) = Z.to_nat (W - h)).
  { rewrite length_drop. unfold Py.len in *. lia. }
  split.
  - unfold Py.len in *. rewrite length_app, Hdlen. lia.
  - exists c, prev. repeat split; [done | exact Hprev | |].
    + by rewrite drop_app_length'.
    + by rewrite take_app_length'.
Qed.

(** *** The frame queue *)

Lemma get_frame_run self :
  get_frame self =
    match Queue.items (frame_queue self) with
    | [] => (Ok None, self, [Get None])
    | x :: rest =>
        (Ok (Some x),
         set_frame_queue (Queue.mk (Queue.maxsize (frame_queue self)) rest)
           self,
         [Get (Some x)])
    end.
Proof.
  destruct self as [? ? ? ? ? ? ? [m its] ? ?].
  unfold get_frame, try_except, bind, frame_queue_get, Queue.get. simpl.
  destruct its; reflexivity.
Qed.

Lemma accepted_of_app (t1 t2 : list (effect sample)) :
  accepted_of (t1 ++ t2) = accepted_of t1 ++ accepted_of t2.
Proof. apply omap_app. Qed.

Lemma delivered_of_app (t1 t2 : list (effect sample)) :
  delivered_of (t1 ++ t2) = delivered_of t1 ++ delivered_of t2.
Proof. apply omap_app. Qed.

Lemma accepted_sublist (t : list (effect sample)) :
  accepted_of t `sublist_of` frames_of t.
Proof.
  induction t as [|e t IH]; [constructor|].
  destruct e as [| |f [|]| | | | | |]; simpl; try done.
  - by constructor.
  - by constructor.
Qed.

(** What one step of either thread does to the queue. *)
Lemma produce_one_queue self c :
  let out := produce_one c self in
  out.1.1 = Ok tt
  /\ Queue.items (frame_queue out.1.2)
     = Queue.items (frame_queue self) ++ accepted_of out.2
  /\ delivered_of out.2 = [].
Proof.
  unfold produce_one, _update_buffer, try_except, bind, get_state, modify,
    lift. simpl.
  destruct (Py.setitem_from _ _ _) as [buf|e]; simpl.
  - unfold frame_queue_put_nowait, Queue.put_nowait. simpl.
    destruct (_ && _); simpl; by rewrite ?app_nil_r.
  - by rewrite app_nil_r.
Qed.

Lemma get_frame_queue self :
  let out := get_frame self in
  (exists r, out.1.1 = Ok r)
  /\ Queue.items (frame_queue self)
     = delivered_of out.2 ++ Queue.items (frame_queue out.1.2)
  /\ accepted_of out.2 = [] /\ frames_of out.2 = [].
Proof.
  rewrite get_frame_run.
  destruct (Queue.items (frame_queue self)) eqn:E; simpl; eauto.
Qed.

Lemma interleave_accounting ops : forall self,
  let out := interleave ops self in
  Queue.items (frame_queue self) ++ accepted_of out.2
  = delivered_of out.2 ++ Queue.items (frame_queue out.1.2).
Proof.
  induction ops as [|[c|] ops IH]; intros self; simpl.
  - by rewrite app_nil_r.
  - unfold bind.
    destruct (produce_one_queue self c) as (Hr & Hq & Hd).
    destruct (produce_one c self) as [[r s1] t1]. simpl in *. subst r.
    specialize (IH s1).
    destruct (interleave ops s1) as [[r2 s2] t2]. simpl in *.
    rewrite accepted_of_app, delivered_of_app, Hd. simpl.
    rewrite app_assoc, <- Hq. done.
  - unfold bind.
    destruct (get_frame_queue self) as ([r Hr] & Hq & Ha & _).
    destruct (get_frame self) as [[r1 s1] t1]. simpl in *. subst r1.
    specialize (IH s1).
    destruct (interleave ops s1) as [[r2 s2] t2]. simpl in *.
    rewrite accepted_of_app, delivered_of_app, Ha. simpl.
    rewrite <- app_assoc, <- IH, Hq. by rewrite app_assoc.
Qed.

(** C4. In every interleaving of the producer's [_update_buffer] calls
    and the consumer's [get_frame] calls, the frames that were queued at
    the start followed by the frames the queue accepted are exactly the
    frames delivered followed by the frames still queued: delivery is in
    order, without repetition and at most once. The accepted frames, and
    so the delivered ones, are a subsequence of the frames offered; and
    [get_frame] on an empty queue returns [None], never raising. *)
Theorem frame_queue_fifo (ops : list (op sample))
    (self : AudioStream sample) :
  let out := interleave ops self in
  Queue.items (frame_queue self) ++ accepted_of out.2
  = delivered_of out.2 ++ Queue.items (frame_queue out.1.2)
  /\ accepted_of out.2 `sublist_of` frames_of out.2
  /\ delivered_of out.2
     `sublist_of` Queue.items (frame_queue self) ++ frames_of out.2
  /\ get_frame self =
       match Queue.items (frame_queue self) with
       | [] => (Ok None, self, [Get None])
       | x :: rest =>
           (Ok (Some x),
            set_frame_queue
              (Queue.mk (Queue.maxsize (frame_queue self)) rest) self,
            [Get (Some x)])
       end.
Proof.
  intros out. pose proof (interleave_accounting ops self) as Hacc.
  fold out in Hacc. simpl in Hacc.
  repeat split.
  - exact Hacc.
  - apply accepted_sublist.
  - transitivity (Queue.items (frame_queue self) ++ accepted_of out.2).
    + rewrite Hacc. by apply sublist_inserts_r.
    + apply sublist_app; [done | apply accepted_sublist].
  - apply get_frame_run.
Qed.

(** A consumer alone receives the queued frames, oldest first. *)
Lemma drain_delivers n : forall self,
  delivered_of (interleave (replicate n Consume) self).2
  = take n (Queue.items (frame_queue self)).
Proof.
  induction n as [|n IH]; intros self; simpl; [done|].
  unfold bind. rewrite get_frame_run.
  destruct (Queue.items (frame_queue self)) as [|x rest] eqn:E.
  - specialize (IH self). rewrite E in IH.
    destruct (interleave _ self) as [[r s2] t2]. simpl in *.
    by rewrite IH, take_nil.
  - set (s1 := set_frame_queue _ self). specialize (IH s1).
    destruct (interleave _ s1) as [[r s2] t2]. simpl in *.
    by rewrite IH.
Qed.

Lemma put_nowait_full (q : Queue.t (list sample)) x :
  0 < Queue.maxsize q -> Queue.qsize q = Queue.maxsize q ->
  Queue.put_nowait q x = (Raise (mk_exn QueueFull EmptyString), q).
Proof.
  intros Hpos Hfull. unfold Queue.put_nowait.
  destruct (Z.ltb_spec 0 (Queue.maxsize q)); [|lia].
  destruct (Z.leb_spec (Queue.maxsize q) (Queue.qsize q)); [done|lia].
Qed.

Lemma append_all_full chunks : forall self,
  0 < hop_size self <= Py.len (buffer self) ->
  Forall (fun c => Py.len c = hop_size self) chunks ->
  0 < Queue.maxsize (frame_queue self) ->
  Queue.qsize (frame_queue self) = Queue.maxsize (frame_queue self) ->
  let out := append_all chunks self in
  out.1.1 = Ok tt
  /\ frame_queue out.1.2 = frame_queue self
  /\ out.2 = flat_map (fun f => [Put f false;
                 Log WARNING "Frame queue full, dropping frame"])
              (frames_of out.2)
  /\ length (frames_of out.2) = length chunks.
Proof.
  induction chunks as [|c rest IH]; intros self Hh Hall Hpos Hfull; [done|].
  apply Forall_cons in Hall as [Hc Hrest].
  simpl. unfold bind.
  rewrite update_buffer_run by (by try left).
  rewrite put_nowait_full by done.
  set (buf := drop _ _ ++ c). set (s1 := set_frame_queue _ _).
  assert (Hlen : Py.len buf = Py.len (buffer self)).
  { unfold Py.len in *. subst buf. rewrite length_app, length_drop. lia. }
  destruct (IH s1) as (Hr & Hq & Ht & Hn); [simpl; lia | done..|].
  destruct (append_all rest s1) as [[r s2] t2]. simpl in *.
  repeat split; [done | done | by f_equal; f_equal | by f_equal].
Qed.

(** C3. Frames offered through [_update_buffer] to a queue that already
    holds [maxsize] frames (10 as built by [__init__]), with no
    [get_frame] in between: every call returns, each offered frame is
    refused and reported by the warning, the queue keeps exactly the
    frames it held, in their order, and a consumer that then drains the
    queue receives those frames and no other. *)
Theorem full_queue_drops_newest (self : AudioStream sample)
    (chunks : list (list sample)) :
  0 < hop_size self <= Py.len (buffer self) ->
  Forall (fun c => Py.len c = hop_size self) chunks ->
  0 < Queue.maxsize (frame_queue self) ->
  Queue.qsize (frame_queue self) = Queue.maxsize (frame_queue self) ->
  let out := append_all chunks self in
  out.1.1 = Ok tt
  /\ frame_queue out.1.2 = frame_queue self
  /\ out.2 = flat_map (fun f => [Put f false;
                 Log WARNING "Frame queue full, dropping frame"])
              (frames_of out.2)
  /\ length (frames_of out.2) = length chunks
  /\ forall n,
       delivered_of (interleave (replicate n Consume) out.1.2).2
       = take n (Queue.items (frame_queue self)).
Proof.
  intros Hh Hall Hpos Hfull out.
  destruct (append_all_full chunks self Hh Hall Hpos Hfull)
    as (Hr & Hq & Ht & Hn).
  fold out in Hr, Hq, Ht, Hn.
  repeat split; try done.
  intros n. by rewrite drain_delivers, Hq.
Qed.

(** *** The lifecycle *)

(** C8. [start] on a stream that is running only logs a warning: the
    instance, its thread included, is unchanged and no thread is
    spawned. [stop] always returns, leaves [is_running] false and every
    other attribute as it was, waits for the worker thread, if there is
    one, with a timeout of 2 seconds whose outcome it does not look at,
    and a second [stop] leaves the instance exactly as the first did. *)
Theorem start_stop_idempotent (self : AudioStream sample) :
  (is_running self = true ->
   start self = (Ok tt, self, [Log WARNING "Stream already running"]))
  /\ stop self =
       (Ok tt, set_is_running false self,
        match _thread self with
        | Some t => [Join t 2000; Log INFO "Audio stream stopped"]
        | None => [Log INFO "Audio stream stopped"]
        end)
  /\ (stop (stop self).1.2).1.2 = (stop self).1.2.
Proof.
  assert (Hstop : forall s : AudioStream sample,
            stop s = (Ok tt, set_is_running false s,
                      match _thread s with
                      | Some t => [Join t 2000; Log INFO "Audio stream stopped"]
                      | None => [Log INFO "Audio stream stopped"]
                      end)).
  { intros s. unfold stop, bind, modify, get_state, emit, ret. simpl.
    destruct (_thread s); reflexivity. }
  repeat split.
  - intros Hrun. unfold start, bind, get_state. simpl. by rewrite Hrun.
  - apply Hstop.
  - by rewrite !Hstop.
Qed.

(** *** The replay worker *)

Lemma length_slice (l : list sample) (i h : Z) :
  0 <= i -> 0 <= h ->
  length (Py.slice l i (i + h))
  = Nat.min (Z.to_nat h) (length l - Z.to_nat i).
Proof.
  intros Hi Hh. unfold Py.slice.
  rewrite !slice_bound_nonneg by lia.
  rewrite length_take, length_drop. lia.
Qed.

(** Every chunk the replay loop builds has length [hop_size]. *)
Lemma wav_chunk_length (audio : list sample) (idx h : Z) :
  0 <= idx -> 0 <= h ->
  exists chunk, wav_chunk zero audio idx h = Ok chunk /\ Py.len chunk = h.
Proof.
  intros Hi Hh. unfold wav_chunk, Py.np_pad_right, Py.len.
  pose proof (length_slice audio idx h Hi Hh) as Hlen.
  set (chunk := Py.slice audio idx (idx + h)) in *.
  destruct (Z.ltb_spec (Z.of_nat (length chunk)) h).
  - destruct (Z.ltb_spec (h - Z.of_nat (length chunk)) 0); [lia|].
    eexists; split; [done|].
    rewrite length_app, length_replicate. lia.
  - exists chunk. split; [done|lia].
Qed.

(** C6. When the samples left at [idx] are [k > 0] short of a hop, the
    chunk that the replay loop builds is those samples followed by [k]
    zeros, of length exactly [hop_size], and this is what
    [_update_buffer] receives: the call returns, the padded chunk
    becomes the tail of the buffer, and nothing but the offer of the
    frame (and the queue-full warning, if the queue is full) is
    recorded. The replay loop, when it stands at that position, offers
    this padded frame and no other. *)
Theorem final_chunk_zero_padded (self : AudioStream sample)
    (audio : list sample) (idx k : Z) :
  0 < k ->
  0 <= idx < Py.len audio ->
  Py.len audio - idx = hop_size self - k ->
  hop_size self <= Py.len (buffer self) ->
  let padded := drop (Z.to_nat idx) audio ++ replicate (Z.to_nat k) zero in
  let frame := drop (Z.to_nat (hop_size self)) (buffer self) ++ padded in
  wav_chunk zero audio idx (hop_size self) = Ok padded
  /\ Py.len padded = hop_size self
  /\ wav_append zero audio idx self =
       match Queue.put_nowait (frame_queue self) frame with
       | (Ok _, q) =>
           (Ok tt, set_frame_queue q (set_buffer frame self),
            [Put frame true])
       | (Raise _, q) =>
           (Ok tt, set_frame_queue q (set_buffer frame self),
            [Put frame false;
             Log WARNING "Frame queue full, dropping frame"])
       end
  /\ (is_running self = true ->
      forall fuel,
        frames_of (wav_loop zero (S fuel) audio idx self).2 = [frame]).
Proof.
  intros Hk Hidx Hshort Hle padded frame.
  assert (Hchunk : wav_chunk zero audio idx (hop_size self) = Ok padded).
  { unfold wav_chunk, Py.np_pad_right, Py.len in *.
    assert (Hs : Py.slice audio idx (idx + hop_size self)
                 = drop (Z.to_nat idx) audio).
    { unfold Py.slice. rewrite !slice_bound_nonneg by lia.
      replace (Z.to_nat idx `min` length audio)%nat with (Z.to_nat idx)
        by lia.
      apply take_ge. rewrite length_drop. lia. }
    rewrite Hs, length_drop.
    destruct (Z.ltb_spec (Z.of_nat (length audio - Z.to_nat idx))
                (hop_size self)); [|lia].
    destruct (Z.ltb_spec (hop_size self
                - Z.of_nat (length audio - Z.to_nat idx)) 0); [lia|].
    subst padded. do 3 f_equal. lia. }
  assert (Hlen : Py.len padded = hop_size self).
  { unfold Py.len in *. subst padded.
    rewrite length_app, length_drop, length_replicate. lia. }
  assert (Happ : wav_append zero audio idx self =
            match Queue.put_nowait (frame_queue self) frame with
            | (Ok _, q) =>
                (Ok tt, set_frame_queue q (set_buffer frame self),
                 [Put frame true])
            | (Raise _, q) =>
                (Ok tt, set_frame_queue q (set_buffer frame self),
                 [Put frame false;
                  Log WARNING "Frame queue full, dropping frame"])
            end).
  { unfold wav_append, bind, get_state, lift. simpl. rewrite Hchunk.
    rewrite update_buffer_run by (done || (left; unfold Py.len in *; lia)).
    fold frame. destruct (Queue.put_nowait _ _) as [[u|e] q];
      by rewrite ?app_nil_r. }
  repeat split; [done..|].
  intros Hrun fuel. simpl. unfold bind at 1, get_state.
  rewrite Hrun. destruct (Z.ltb_spec idx (Py.len audio)); [|lia]. simpl.
  unfold bind at 1, wav_iteration. unfold bind at 1. rewrite Happ.
  destruct (Queue.put_nowait _ _) as [[u|e] q]; reflexivity.
Qed.

(** Whatever the asset, the replay worker ends in its first iteration:
    after the first chunk the lookup of [self.hop_duration] raises, the
    handler logs the error and clears [is_running]. *)
Lemma wav_worker_first_wait_raises (self : AudioStream sample)
    (audio : list sample) (sr : Z) (fuel : nat) :
  is_running self = true ->
  audio <> [] ->
  0 < hop_size self <= Py.len (buffer self) ->
  let out := _wav_worker zero (S fuel) (Ok (Array1 audio, sr)) self in
  out.1.1 = Ok Finished
  /\ is_running out.1.2 = false
  /\ length (frames_of out.2) = 1%nat
  /\ (forall ms, Sleep ms ∉ out.2)
  /\ (Log INFO "WAV playback finished" ∉ out.2)
  /\ (LogExn ERROR "WAV playback error"
        (mk_exn AttributeError
           "'AudioStream' object has no attribute 'hop_duration'") ∈ out.2).
Proof.
  intros Hrun Ha Hh.
  destruct (wav_chunk_length audio 0 (hop_size self)) as (chunk & Hc & Hl);
    [lia..|].
  assert (Hlt : (0 <? Py.len audio) = true).
  { apply Z.ltb_lt. unfold Py.len. destruct audio; [done|simpl; lia]. }
  unfold _wav_worker. run_monad.
  destruct (negb _); run_monad; rewrite Hrun, Hlt; run_monad;
    unfold wav_iteration, wav_append; run_monad;
    rewrite Hc; (rewrite update_buffer_run by (done || by left));
    destruct (Queue.put_nowait _ _) as [[u|e] q]; run_monad;
    (split; [done|]); (split; [done|]); (split; [done|]);
    (split; [intros ms Hin|split; [intros Hin|]]);
    rewrite ?elem_of_cons, ?elem_of_nil in *;
    intuition congruence.
Qed.

(** *** The capture worker *)

Lemma opens_of_app (t1 t2 : list (effect sample)) :
  opens_of (t1 ++ t2) = opens_of t1 ++ opens_of t2.
Proof. apply omap_app. Qed.

Lemma opens_of_cons (e : effect sample) t :
  opens_of (e :: t) = opens_of [e] ++ opens_of t.
Proof. by destruct e. Qed.

Lemma update_buffer_opens self c : opens_of (_update_buffer c self).2 = [].
Proof.
  rewrite update_buffer_eq. simpl.
  destruct (Py.setitem_from _ _ _); [|done].
  by destruct (Queue.put_nowait _ _) as [[u|e] q].
Qed.

Lemma deliver_run cbs : forall self,
  exists s' t, deliver cbs self = (Ok tt, s', t) /\ opens_of t = [].
Proof.
  induction cbs as [|[indata status] cbs IH]; intros self;
    [by eexists _, _|].
  simpl. unfold bind at 1.
  assert (Hcb : exists s1 t1,
            try_except (callback indata status) (fun _ => true)
              (fun _ => ret tt) self = (Ok tt, s1, t1)
            /\ opens_of t1 = []).
  { unfold callback, try_except, bind at 1.
    assert (Hst : exists t0 : list (effect sample),
              (if status then emit (Log WARNING "Audio callback status")
               else ret tt) self = (Ok tt, self, t0) /\ opens_of t0 = []).
    { destruct status; eexists; split; reflexivity. }
    destruct Hst as (t0 & -> & Ht0).
    unfold bind, lift. destruct (first_column indata) as [audio|e].
    - pose proof (update_buffer_opens self audio) as Hop.
      destruct (_update_buffer audio self) as [[[[]|e] s1] t1];
        simpl in *; eexists _, _; (split; [reflexivity|]);
        by rewrite ?opens_of_app, ?Ht0, ?Hop.
    - simpl. eexists _, _. split; [reflexivity|].
      by rewrite ?opens_of_app, ?Ht0. }
  destruct Hcb as (s1 & t1 & -> & Ht1).
  destruct (IH s1) as (s2 & t2 & -> & Ho).
  eexists _, _. split; [reflexivity|].
  by rewrite opens_of_app, Ht1, Ho.
Qed.

Lemma mic_loop_opens polls : forall self,
  opens_of (mic_loop polls self).2 = [].
Proof.
  induction polls as [|p polls IH]; intros self; [done|].
  simpl. unfold bind at 1, get_state.
  destruct (is_running self); [|done].
  unfold bind at 1, emit. unfold bind at 1.
  destruct (deliver_run (poll_callbacks p) self) as (s1 & t1 & -> & Ho).
  unfold bind at 1.
  assert (Hstop : exists s2,
            (if poll_stop p then modify (set_is_running false) else ret tt)
              s1 = (Ok tt, s2, @nil (effect sample))).
  { destruct (poll_stop p); eexists; reflexivity. }
  destruct Hstop as (s2 & ->).
  unfold bind, lift. destruct (poll_sleep p) as [[]|e].
  - specialize (IH s2). destruct (mic_loop polls s2) as [[r3 s3] t3].
    cbn [fst snd] in *. rewrite !opens_of_app, Ho, IH. done.
  - cbn [fst snd]. rewrite !opens_of_app, Ho. done.
Qed.

(** The worker opens the capture device once, whatever happens. *)
Lemma mic_worker_opens_once open polls close self :
  opens_of (_mic_worker open polls close self).2 = [hop_size self].
Proof.
  assert (Hcap : opens_of (mic_capture open polls close self).2
                 = [hop_size self]).
  { unfold mic_capture, bind at 1, get_state. unfold bind at 1, emit.
    unfold bind at 1, lift. destruct open as [[]|e]; [|done].
    unfold with_input_stream, bind, emit.
    pose proof (mic_loop_opens polls self) as Hl.
    destruct (mic_loop polls self) as [[[[]|e] s1] t1];
      cbn [fst snd] in *; destruct close; cbn [fst snd app];
      rewrite (opens_of_cons (OpenInput _)), (opens_of_cons (Log _ _)),
        ?opens_of_app, Hl; reflexivity. }
  unfold _mic_worker, try_except.
  destruct (mic_capture open polls close self) as [[[ex|e] s1] t1];
    cbn [fst snd] in *; [done|].
  destruct (isinstance_Exception e); [|done].
  cbn [fst snd bind emit modify ret]. rewrite opens_of_app, Hcap. done.
Qed.

(** An exception in the capture block ends the worker: it is logged,
    [is_running] is cleared and the worker returns. *)
Lemma mic_worker_error open polls close self e s1 t1 :
  mic_capture open polls close self = (Raise e, s1, t1) ->
  isinstance_Exception e = true ->
  _mic_worker open polls close self
  = (Ok Finished, set_is_running false s1,
     t1 ++ [LogExn ERROR "Microphone error" e]).
Proof.
  intros Hcap He. unfold _mic_worker, try_except. rewrite Hcap, He.
  reflexivity.
Qed.

(** Status flags that the capture subsystem passes to the callback are
    logged as a warning; the callback leaves [is_running] as it is. *)
Lemma callback_status_only_warns indata (status : bool) self :
  let out := callback indata status self in
  is_running out.1.2 = is_running self
  /\ (status = true ->
      exists t, out.2 = Log WARNING "Audio callback status" :: t).
Proof.
  intros out. subst out. unfold callback, bind, lift.
  destruct status; simpl.
  - destruct (first_column indata) as [audio|e]; simpl.
    + rewrite update_buffer_eq. simpl.
      destruct (Py.setitem_from _ _ _); simpl; [|by eauto].
      destruct (Queue.put_nowait _ _) as [[u|e] q]; simpl; eauto.
    + eauto.
  - destruct (first_column indata) as [audio|e]; simpl; [|done].
    rewrite update_buffer_eq. simpl.
    destruct (Py.setitem_from _ _ _); simpl; [|done].
    by destruct (Queue.put_nowait _ _) as [[u|e] q].
Qed.

(** The device cannot be opened. *)
Lemma mic_capture_open_fails polls close self e :
  mic_capture (Raise e) polls close self
  = (Raise e, self, [OpenInput (hop_size self)]).
Proof. reflexivity. Qed.
End StreamFacts.

(** ** Inference *)

Section InferFacts.
Context {value : Type} (zero : value).
Import Infer.
Implicit Types (m features : matrix value).

Lemma element_transpose m (t j : nat) :
  (t < shape1 m)%nat -> (j < length (rows m))%nat ->
  element zero (transpose zero m) t j = element zero m j t.
Proof.
  intros Ht Hj. unfold element, transpose. simpl.
  rewrite (nth_lookup_Some _ t []
             (map (fun r => nth t r zero) (rows m))).
  - destruct (lookup_lt_is_Some_2 (rows m) j Hj) as [r Hr].
    change (map ?f ?l) with (f <$> l).
    rewrite (nth_lookup_Some _ j zero (nth t r zero)).
    + by rewrite (nth_lookup_Some _ j [] r).
    + by rewrite list_lookup_fmap, Hr.
  - change (map ?f ?l) with (f <$> l).
    by rewrite list_lookup_fmap, lookup_seq_lt.
Qed.

Lemma wf_transpose m : wf_matrix m -> wf_matrix (transpose zero m).
Proof.
  intros [Hr Hc]. unfold wf_matrix, transpose. simpl. split.
  - by rewrite length_map, length_seq.
  - apply Forall_forall. intros r Hin.
    apply list_elem_of_In, in_map_iff in Hin as (j & <- & _).
    by rewrite length_map.
Qed.

(** C10. Whatever the number of columns of a feature matrix, [predict]
    hands the interpreter one tensor of 96 time frames by the matrix's
    number of Mel bands: frame [t], band [j] is the feature at band [j],
    column [t] when the matrix has that column, and zero otherwise
    (fewer than 96 columns are padded on the right, more are cut to the
    first 96). A Mel-band count other than 64 adds a warning and nothing
    else: [predict] raises only what the interpreter raises (or the
    indexing of its output). *)
Theorem predict_normalises_time_axis
    (interpreter : list (matrix value) -> result (list (list value)))
    (t_start t_end : Q) features (self : YAMNetInference) :
  wf_matrix features ->
  let input_data := input_data_of zero features in
  (exists m,
     input_data = [m] /\ wf_matrix m
     /\ shape0 m = 96%nat /\ shape1 m = shape0 features
     /\ forall t j, (t < 96)%nat -> (j < shape0 features)%nat ->
          element zero m t j
          = if (t <? shape1 features)%nat then element zero features j t
            else zero)
  /\ predict zero interpreter t_start t_end features self =
       (match interpreter input_data with
        | Ok output =>
            match getitem output 0 with
            | Ok predictions =>
                Ok (predictions, ((t_end - t_start) * 1000)%Q)
            | Raise e => Raise e
            end
        | Raise e => Raise e
        end,
        self,
        (if (shape0 features =? 64)%nat then []
         else [Logged WARNING "Expected 64 Mel bands"])
        ++ [Invoked input_data]).
Proof.
  intros [Hr Hc] input_data. split.
  - subst input_data. unfold input_data_of.
    set (T := shape1 features) in *.
    destruct (Nat.ltb_spec T 96) as [Hlt|Hge];
      [|destruct (Nat.ltb_spec 96 T) as [Hgt|Hle]].
    + (* padded *)
      set (F := pad_columns zero features (96 - T)).
      assert (HwF : wf_matrix F).
      { split; simpl; [by rewrite length_map|].
        apply Forall_forall. intros r Hin.
        apply list_elem_of_In, in_map_iff in Hin as (r0 & <- & Hin0).
        apply list_elem_of_In in Hin0.
        rewrite Forall_forall in Hc. rewrite length_app, (Hc _ Hin0).
        by rewrite length_replicate. }
      exists (transpose zero F). repeat split.
      * apply wf_transpose, HwF.
      * apply wf_transpose, HwF.
      * unfold T in *.
        cbn [shape0 shape1 transpose crop_columns pad_columns rows F]. lia.
      * intros t j Ht Hj. rewrite element_transpose;
          [|unfold T in *;
            cbn [shape0 shape1 transpose crop_columns pad_columns rows F];
            lia
           |simpl; rewrite length_map; lia].
        unfold element. simpl.
        destruct (lookup_lt_is_Some_2 (rows features) j) as [r Hrj];
          [lia|].
        assert (length r = T).
        { rewrite Forall_forall in Hc. apply Hc.
          by eapply list_elem_of_lookup_2. }
        change (map ?f ?l) with (f <$> l).
        rewrite (nth_lookup_Some _ j [] (r ++ replicate (96 - T) zero))
          by (by rewrite list_lookup_fmap, Hrj).
        rewrite (nth_lookup_Some _ j [] r) by done.
        destruct (Nat.ltb_spec t T).
        -- rewrite !nth_lookup, lookup_app_l by lia. done.
        -- rewrite nth_lookup, lookup_app_r by lia.
           rewrite lookup_replicate_2 by lia. done.
    + (* cropped *)
      set (F := crop_columns features 96).
      assert (HwF : wf_matrix F).
      { split; simpl; [by rewrite length_map|].
        apply Forall_forall. intros r Hin.
        apply list_elem_of_In, in_map_iff in Hin as (r0 & <- & Hin0).
        apply list_elem_of_In in Hin0.
        rewrite Forall_forall in Hc. rewrite length_take, (Hc _ Hin0).
        reflexivity. }
      exists (transpose zero F). repeat split.
      * apply wf_transpose, HwF.
      * apply wf_transpose, HwF.
      * unfold T in *.
        cbn [shape0 shape1 transpose crop_columns pad_columns rows F]. lia.
      * intros t j Ht Hj. rewrite element_transpose;
          [|unfold T in *;
            cbn [shape0 shape1 transpose crop_columns pad_columns rows F];
            lia
           |simpl; rewrite length_map; lia].
        unfold element. simpl.
        destruct (lookup_lt_is_Some_2 (rows features) j) as [r Hrj];
          [lia|].
        change (map ?f ?l) with (f <$> l).
        rewrite (nth_lookup_Some _ j [] (take 96 r))
          by (by rewrite list_lookup_fmap, Hrj).
        rewrite (nth_lookup_Some _ j [] r) by done.
        destruct (Nat.ltb_spec t T); [|lia].
        by rewrite !nth_lookup, lookup_take_lt.
    + (* already 96 columns *)
      exists (transpose zero features). repeat split.
      * apply wf_transpose. by split.
      * apply wf_transpose. by split.
      * unfold T in *. cbn [shape0 shape1 transpose rows]. lia.
      * intros t j Ht Hj.
        rewrite element_transpose by (unfold T in *; lia).
        destruct (Nat.ltb_spec t T); [done|lia].
  - unfold predict. run_monad.
    destruct (shape0 features =? 64)%nat; run_monad;
      fold input_data; destruct (interpreter input_data) as [out|e];
      run_monad; try done;
      destruct (getitem out 0); done.
Qed.

(** *** Top-K *)

Lemma ascending_lookup (ltb : value -> value -> bool) (v : list value)
    (idxs : list nat) :
  ascending zero ltb v idxs = true ->
  forall i j a b, (i < j)%nat -> idxs !! i = Some a -> idxs !! j = Some b ->
    ltb (nth b v zero) (nth a v zero) = false.
Proof.
  induction idxs as [|x idxs IH]; intros Hasc i j a b Hij Ha Hb;
    [by rewrite lookup_nil in Ha|].
  simpl in Hasc. apply andb_prop in Hasc as [Hx Hrest].
  destruct j as [|j]; [lia|]. simpl in Hb.
  destruct i as [|i]; simpl in Ha.
  - injection Ha as <-. rewrite forallb_forall in Hx.
    apply negb_true_iff, Hx, list_elem_of_In.
    by eapply list_elem_of_lookup_2.
  - eapply (IH Hrest i j); [lia|done..].
Qed.

Lemma pairs_lookup (names : list string) (v : list value)
    (idxs : list nat) :
  Forall (fun idx => (idx < length names)%nat /\ (idx < length v)%nat) idxs ->
  exists l, pairs names v idxs = Ok l
    /\ length l = length idxs
    /\ forall i a, l !! i = Some a ->
         exists idx, idxs !! i = Some idx
           /\ names !! idx = Some a.1 /\ v !! idx = Some a.2.
Proof.
  induction idxs as [|idx idxs IH]; intros Hall.
  { exists []. repeat split. intros i a Hi. by rewrite lookup_nil in Hi. }
  apply Forall_cons in Hall as [[Hn Hv] Hrest].
  destruct (IH Hrest) as (l & Hl & Hlen & Hprop).
  destruct (lookup_lt_is_Some_2 names idx Hn) as [name Hname].
  destruct (lookup_lt_is_Some_2 v idx Hv) as [p Hp].
  exists ((name, p) :: l). simpl. unfold getitem. rewrite Hname, Hp, Hl.
  repeat split; [by rewrite Hlen|].
  intros [|i] a Hi; simpl in Hi.
  - injection Hi as <-. by exists idx.
  - by apply Hprop.
Qed.

(** C7, as the code has it. For [0 < k <= len(predictions)], with a
    label for every index, and [np.argsort] giving an ascending
    rearrangement of the indices, [get_top_k] returns exactly [k] pairs,
    no pair with a score less than that of a later pair, the pair at
    position [i] being the label and the score of the index that the
    ascending order has at position [len - 1 - i]. Nothing is said of
    the order of pairs with equal scores. *)
Theorem get_top_k_descending (argsort : list value -> list nat)
    (ltb : value -> value -> bool) (self : YAMNetInference)
    (predictions : list value) (k : Z) :
  0 < k <= Py.len predictions ->
  (length predictions <= length (class_names self))%nat ->
  is_argsort zero ltb predictions (argsort predictions) = true ->
  exists l,
    get_top_k argsort predictions k self = (Ok l, self, [])
    /\ Py.len l = k
    /\ (forall i j a b, (i < j)%nat -> l !! i = Some a -> l !! j = Some b ->
         ltb a.2 b.2 = false)
    /\ (forall i a, l !! i = Some a ->
         exists idx,
           argsort predictions !! (length predictions - S i)%nat = Some idx
           /\ class_names self !! idx = Some a.1
           /\ predictions !! idx = Some a.2).
Proof.
  intros Hk Hnames Hsort. unfold is_argsort in Hsort.
  apply andb_prop in Hsort as [Hperm Hasc].
  apply bool_decide_eq_true in Hperm.
  set (idxs := argsort predictions) in *.
  set (n := length predictions) in *.
  assert (Hlen : length idxs = n).
  { by rewrite Hperm, length_seq. }
  assert (Hrange : forall i idx, idxs !! i = Some idx -> (idx < n)%nat).
  { intros i idx Hi. apply list_elem_of_lookup_2 in Hi.
    rewrite Hperm in Hi. apply elem_of_seq in Hi. lia. }
  unfold Py.len in Hk. fold n in Hk.
  set (top := rev (Py.slice_from idxs (- k))).
  assert (Htop : top = reverse (drop (n - Z.to_nat k) idxs)).
  { subst top. unfold Py.slice_from. rewrite slice_bound_neg by lia.
    rewrite Hlen. rewrite rev_alt. reflexivity. }
  assert (Htlen : length top = Z.to_nat k).
  { rewrite Htop, length_reverse, length_drop. lia. }
  assert (Htl : forall i idx, top !! i = Some idx ->
            idxs !! (n - S i)%nat = Some idx).
  { intros i idx Hi. pose proof (lookup_lt_Some _ _ _ Hi) as Hlt.
    rewrite Htop in Hi. rewrite reverse_lookup in Hi
      by (rewrite length_drop; lia).
    rewrite lookup_drop, length_drop in Hi. rewrite <- Hi. f_equal. lia. }
  destruct (pairs_lookup (class_names self) predictions top)
    as (l & Hl & Hll & Hprop).
  { apply Forall_lookup. intros i idx Hi. apply Htl, Hrange in Hi.
    fold n. lia. }
  exists l. repeat split.
  - unfold get_top_k. run_monad. fold idxs top. by rewrite Hl.
  - unfold Py.len. lia.
  - intros i j a b Hij Ha Hb.
    pose proof (lookup_lt_Some _ _ _ Hb) as Hjlt.
    destruct (Hprop i a Ha) as (ia & Hia & _ & Hva).
    destruct (Hprop j b Hb) as (ib & Hib & _ & Hvb).
    apply Htl in Hia, Hib.
    rewrite <- (nth_lookup_Some _ _ zero _ Hva).
    rewrite <- (nth_lookup_Some _ _ zero _ Hvb).
    eapply (ascending_lookup ltb predictions idxs Hasc
              (n - S j) (n - S i)); [lia|done..].
  - intros i a Ha. destruct (Hprop i a Ha) as (idx & Hidx & ? & ?).
    exists idx. repeat split; try done. by apply Htl.
Qed.
End InferFacts.

(** ** The processing loop *)

Section ServerFacts.
Context {sample value : Type} (vzero : value).
Variable argsort : list value -> list nat.
Import Server.
Implicit Types (st : State sample) (tk : tick sample value).

Lemma in_stream_get_frame st :
  in_stream (value:=value) Stream.get_frame st =
    match Queue.items (Stream.frame_queue (audio_stream st)) with
    | [] => (Ok None, st, [StreamCall (Get None)])
    | x :: rest =>
        (Ok (Some x),
         set_audio_stream
           (Stream.set_frame_queue
              (Queue.mk (Queue.maxsize (Stream.frame_queue (audio_stream st)))
                 rest)
              (audio_stream st)) st,
         [StreamCall (Get (Some x))])
    end.
Proof.
  unfold in_stream. rewrite get_frame_run.
  destruct st as [r a e n]. simpl.
  by destruct (Queue.items (Stream.frame_queue a)).
Qed.


Lemma iteration_run tk st :
  iteration vzero argsort tk st =
    match iteration_body vzero argsort tk st with
    | (Ok u, s1, t1) => (Ok u, s1, t1)
    | (Raise e, s1, t1) =>
        if isinstance_Exception e then
          (Ok tt, s1,
           t1 ++ [LoggedExn ERROR "Processing error" e; Slept 100])
        else (Raise e, s1, t1)
    end.
Proof.
  unfold iteration, try_except.
  destruct (iteration_body vzero argsort tk st) as [[[u|e] s1] t1];
    [done|].
  by destruct (isinstance_Exception e).
Qed.






(** With nothing queued and no producer, an iteration is one empty
    [get_frame]. *)
Lemma iteration_idle tk st :
  Queue.items (Stream.frame_queue (audio_stream st)) = [] ->
  iteration vzero argsort tk st = (Ok tt, st, [StreamCall (Get None)]).
Proof.
  intros Hq. rewrite iteration_run. unfold iteration_body, bind.
  by rewrite in_stream_get_frame, Hq.
Qed.

Lemma loop_idle ticks : forall st,
  is_running st = true ->
  Queue.items (Stream.frame_queue (audio_stream st)) = [] ->
  Forall (fun tk => tick_stop tk = false /\ tick_arrivals tk = []) ticks ->
  loop vzero argsort ticks st
  = (Ok Stream.StillLooping, st,
     replicate (length ticks) (StreamCall (Get None))).
Proof.
  induction ticks as [|tk ticks IH]; intros st Hrun Hq Hall; [done|].
  apply Forall_cons in Hall as [[Hstop Harr] Hrest].
  simpl. rewrite Hstop, Harr. unfold bind at 1. simpl.
  unfold bind at 1, in_stream. simpl.
  assert (Heta : set_audio_stream (audio_stream st) st = st)
    by (by destruct st).
  rewrite Heta. unfold bind at 1, get_state. rewrite Hrun.
  unfold bind. rewrite iteration_idle by done.
  by rewrite IH.
Qed.















(** C9. An exception of class [Exception] anywhere in the capture
    block of [_mic_worker] (the device cannot be opened, or fails while
    open) ends the worker: it logs the error, sets the stream's
    [is_running] to false and returns, having opened the device once
    and never again. The server's own [is_running] is untouched, and the
    processing loop, once the queue is empty and with no producer left,
    goes on: every iteration is a [get_frame] that returns [None]. *)
Theorem mic_failure_stops_only_worker st
    (open : result unit) (polls : list (Stream.poll sample))
    (close : result unit) (e : exn) (s1 : Stream.AudioStream sample)
    (t1 : list (effect sample)) (ticks : list (tick sample value)) :
  isinstance_Exception e = true ->
  Stream.mic_capture open polls close (audio_stream st) = (Raise e, s1, t1) ->
  let out :=
    in_stream (value:=value) (Stream._mic_worker open polls close) st in
  out = (Ok Stream.Finished,
         set_audio_stream (Stream.set_is_running false s1) st,
         map StreamCall (t1 ++ [LogExn ERROR "Microphone error" e]))
  /\ Stream.is_running (audio_stream out.1.2) = false
  /\ is_running out.1.2 = is_running st
  /\ Stream.opens_of (t1 ++ [LogExn ERROR "Microphone error" e])
     = [Stream.hop_size (audio_stream st)]
  /\ (is_running st = true ->
      Queue.items (Stream.frame_queue s1) = [] ->
      Forall (fun tk => tick_stop tk = false /\ tick_arrivals tk = [])
        ticks ->
      loop vzero argsort ticks out.1.2
      = (Ok Stream.StillLooping, out.1.2,
         replicate (length ticks) (StreamCall (Get None)))).
Proof.
  intros He Hcap out.
  pose proof (mic_worker_error open polls close _ e s1 t1 Hcap He) as Hw.
  pose proof (mic_worker_opens_once open polls close (audio_stream st))
    as Hopens.
  rewrite Hw in Hopens. simpl in Hopens.
  assert (Hout : out = (Ok Stream.Finished,
            set_audio_stream (Stream.set_is_running false s1) st,
            map StreamCall (t1 ++ [LogExn ERROR "Microphone error" e]))).
  { subst out. unfold in_stream. by rewrite Hw. }
  rewrite Hout. simpl. repeat split; try done.
  intros Hrun Hq Hall. by apply loop_idle.
Qed.
End ServerFacts.

(** ** The claims at concrete inputs *)

Section Concrete.
Import Example.

Lemma update_buffer_window_witness :
  2 <= 4
  /\ Forall (fun c => Py.len c = 2) chunks
  /\ Stream.init 0 16000 1 4 2 None (Some "clip.wav"%string) = Ok stream
  /\ (let out := Stream.append_all chunks stream in
      let frames := Stream.frames_of out.2 in
      (forall i f, frames !! i = Some f ->
         Py.len f = 4
         /\ exists c prev,
             chunks !! i = Some c
             /\ (replicate (Z.to_nat 4) 0 :: frames) !! i = Some prev
             /\ drop (Z.to_nat (4 - 2)) f = c
             /\ take (Z.to_nat (4 - 2)) f = drop (Z.to_nat 2) prev)
      /\ (0 < 2 -> out.1.1 = Ok tt /\ length frames = length chunks)).
Proof.
  assert (H1 : 2 <= 4) by lia.
  assert (H2 : Forall (fun c => Py.len c = 2) chunks)
    by (repeat constructor).
  assert (H3 : Stream.init 0 16000 1 4 2 None (Some "clip.wav"%string)
               = Ok stream) by reflexivity.
  split; [exact H1|split; [exact H2|split; [exact H3|]]].
  exact (update_buffer_window 0 16000 1 4 2 None (Some "clip.wav"%string)
           stream chunks H1 H2 H3).
Defined.

Lemma full_queue_drops_newest_witness :
  0 < Stream.hop_size full_stream <= Py.len (Stream.buffer full_stream)
  /\ Forall (fun c => Py.len c = Stream.hop_size full_stream) chunks
  /\ 0 < Queue.maxsize (Stream.frame_queue full_stream)
  /\ Queue.qsize (Stream.frame_queue full_stream)
     = Queue.maxsize (Stream.frame_queue full_stream)
  /\ (let out := Stream.append_all chunks full_stream in
      out.1.1 = Ok tt
      /\ Stream.frame_queue out.1.2 = Stream.frame_queue full_stream
      /\ out.2 = flat_map (fun f => [Put f false;
                     Log WARNING "Frame queue full, dropping frame"])
                  (Stream.frames_of out.2)
      /\ length (Stream.frames_of out.2) = length chunks
      /\ forall n,
           Stream.delivered_of
             (Stream.interleave (replicate n Stream.Consume) out.1.2).2
           = take n (Queue.items (Stream.frame_queue full_stream))).
Proof.
  assert (H1 : 0 < Stream.hop_size full_stream
               <= Py.len (Stream.buffer full_stream)) by (vm_compute; done).
  assert (H2 : Forall (fun c => Py.len c = Stream.hop_size full_stream) chunks)
    by (repeat constructor).
  assert (H3 : 0 < Queue.maxsize (Stream.frame_queue full_stream))
    by reflexivity.
  assert (H4 : Queue.qsize (Stream.frame_queue full_stream)
               = Queue.maxsize (Stream.frame_queue full_stream))
    by reflexivity.
  split; [exact H1|split; [exact H2|split; [exact H3|split; [exact H4|]]]].
  exact (full_queue_drops_newest full_stream chunks H1 H2 H3 H4).
Defined.

Lemma final_chunk_zero_padded_witness :
  0 < 1
  /\ 0 <= 4 < Py.len asset
  /\ Py.len asset - 4 = Stream.hop_size stream - 1
  /\ Stream.hop_size stream <= Py.len (Stream.buffer stream)
  /\ (let padded := drop (Z.to_nat 4) asset ++ replicate (Z.to_nat 1) 0 in
      let frame :=
        drop (Z.to_nat (Stream.hop_size stream)) (Stream.buffer stream)
        ++ padded in
      Stream.wav_chunk 0 asset 4 (Stream.hop_size stream) = Ok padded
      /\ Py.len padded = Stream.hop_size stream
      /\ Stream.wav_append 0 asset 4 stream =
           match Queue.put_nowait (Stream.frame_queue stream) frame with
           | (Ok _, q) =>
               (Ok tt, Stream.set_frame_queue q (Stream.set_buffer frame stream),
                [Put frame true])
           | (Raise _, q) =>
               (Ok tt, Stream.set_frame_queue q (Stream.set_buffer frame stream),
                [Put frame false;
                 Log WARNING "Frame queue full, dropping frame"])
           end
      /\ (Stream.is_running stream = true ->
          forall fuel,
            Stream.frames_of (Stream.wav_loop 0 (S fuel) asset 4 stream).2
            = [frame])).
Proof.
  assert (H1 : 0 < 1) by lia.
  assert (H2 : 0 <= 4 < Py.len asset) by (vm_compute; done).
  assert (H3 : Py.len asset - 4 = Stream.hop_size stream - 1) by reflexivity.
  assert (H4 : Stream.hop_size stream <= Py.len (Stream.buffer stream))
    by (vm_compute; done).
  split; [exact H1|split; [exact H2|split; [exact H3|split; [exact H4|]]]].
  exact (final_chunk_zero_padded 0 stream asset 4 1 H1 H2 H3 H4).
Defined.

(** C5, on the code. A started replay worker on an asset of five
    samples with a hop of 2, three chunks: the worker appends the first
    chunk only, never waits, logs the [AttributeError] of
    [self.hop_duration] as a playback error and sets [is_running] to
    false; "WAV playback finished" is not logged. *)
Theorem wav_worker_dies_at_first_wait :
  let out := Stream._wav_worker 0 10 (Ok (Stream.Array1 asset, 16000)) started in
  out.1.1 = Ok Stream.Finished
  /\ Stream.is_running out.1.2 = false
  /\ Stream.frames_of out.2 = [[0; 0; 1; 2]]
  /\ out.2 = [Log INFO "WAV file loaded";
              Put [0; 0; 1; 2] true;
              LogExn ERROR "WAV playback error"
                (mk_exn AttributeError
                   "'AudioStream' object has no attribute 'hop_duration'")].
Proof. vm_compute. done. Qed.

(** C7 as stated fails. Two equal scores come out with the larger
    index first: the ascending order of [np.argsort] is reversed. And
    [k = 0] returns every pair, not none, since [[-0:]] is the whole
    array. *)
Lemma get_top_k_ties_larger_index_first :
  (Infer.get_top_k argsort tied_scores 2 engine).1.1
  = Ok [("class_1"%string, (1 # 2)%Q); ("class_0"%string, (1 # 2)%Q)]
  /\ (Infer.get_top_k argsort tied_scores 0 engine).1.1
     = Ok [("class_1"%string, (1 # 2)%Q); ("class_0"%string, (1 # 2)%Q)].
Proof. vm_compute. done. Qed.

Lemma get_top_k_descending_witness :
  0 < 2 <= Py.len scores
  /\ (length scores <= length (Infer.class_names engine))%nat
  /\ Infer.is_argsort 0%Q Qltb scores (argsort scores) = true
  /\ exists l,
       Infer.get_top_k argsort scores 2 engine = (Ok l, engine, [])
       /\ Py.len l = 2
       /\ (forall i j a b, (i < j)%nat -> l !! i = Some a -> l !! j = Some b ->
            Qltb a.2 b.2 = false)
       /\ (forall i a, l !! i = Some a ->
            exists idx,
              argsort scores !! (length scores - S i)%nat = Some idx
              /\ Infer.class_names engine !! idx = Some a.1
              /\ scores !! idx = Some a.2).
Proof.
  assert (H1 : 0 < 2 <= Py.len scores) by (vm_compute; done).
  assert (H2 : (length scores <= length (Infer.class_names engine))%nat)
    by (apply Nat.leb_le; vm_compute; reflexivity).
  assert (H3 : Infer.is_argsort 0%Q Qltb scores (argsort scores) = true)
    by (vm_compute; reflexivity).
  split; [exact H1|split; [exact H2|split; [exact H3|]]].
  exact (get_top_k_descending 0%Q argsort Qltb engine scores 2 H1 H2 H3).
Defined.

Lemma predict_normalises_time_axis_witness :
  Infer.wf_matrix features
  /\ (let input_data := Infer.input_data_of 0%Q features in
      (exists m,
         input_data = [m] /\ Infer.wf_matrix m
         /\ Infer.shape0 m = 96%nat
         /\ Infer.shape1 m = Infer.shape0 features
         /\ forall t j, (t < 96)%nat -> (j < Infer.shape0 features)%nat ->
              Infer.element 0%Q m t j
              = if (t <? Infer.shape1 features)%nat
                then Infer.element 0%Q features j t
                else 0%Q)
      /\ Infer.predict 0%Q interpreter 0 1 features engine =
           (match interpreter input_data with
            | Ok output =>
                match Infer.getitem output 0 with
                | Ok predictions => Ok (predictions, ((1 - 0) * 1000)%Q)
                | Raise e => Raise e
                end
            | Raise e => Raise e
            end,
            engine,
            (if (Infer.shape0 features =? 64)%nat then []
             else [Infer.Logged WARNING "Expected 64 Mel bands"])
            ++ [Infer.Invoked input_data])).
Proof.
  assert (H1 : Infer.wf_matrix features)
    by (split; [reflexivity|repeat constructor]).
  split; [exact H1|].
  exact (predict_normalises_time_axis 0%Q interpreter 0 1 features engine H1).
Defined.

(** The loop with an extractor that raises on every third call: four
    records, numbered 0 to 3, and the loop is still going. *)
Example processing_loop_flaky_extractor :
  let out := Server.processing_loop 0%Q argsort flaky_schedule server in
  out.1.1 = Ok Stream.StillLooping
  /\ Server.is_running out.1.2 = true
  /\ Server.frame_count out.1.2 = 4
  /\ Server.sent_frame_ids out.2 = [0; 1; 2; 3].
Proof. vm_compute. done. Qed.


Lemma mic_failure_stops_only_worker_witness :
  isinstance_Exception device_error = true
  /\ Stream.mic_capture (Raise device_error) [] (Ok tt)
       (Server.audio_stream server)
     = (Raise device_error, live, [OpenInput 2])
  /\ (let out :=
        Server.in_stream (value:=Q)
          (Stream._mic_worker (Raise device_error) [] (Ok tt)) server in
      out = (Ok Stream.Finished,
             Server.set_audio_stream (Stream.set_is_running false live) server,
             map Server.StreamCall
               ([OpenInput 2]
                ++ [LogExn ERROR "Microphone error" device_error]))
      /\ Stream.is_running (Server.audio_stream out.1.2) = false
      /\ Server.is_running out.1.2 = Server.is_running server
      /\ Stream.opens_of (sample:=Z)
           ([OpenInput 2] ++ [LogExn ERROR "Microphone error" device_error])
         = [Stream.hop_size (Server.audio_stream server)]
      /\ (Server.is_running server = true ->
          Queue.items (Stream.frame_queue live) = [] ->
          Forall (fun tk => Server.tick_stop tk = false
                            /\ Server.tick_arrivals tk = [])
            [idle_tick; idle_tick] ->
          Server.loop 0%Q argsort [idle_tick; idle_tick] out.1.2
          = (Ok Stream.StillLooping, out.1.2,
             replicate (length [idle_tick; idle_tick])
               (Server.StreamCall (Get None))))).
Proof.
  assert (H1 : isinstance_Exception device_error = true) by reflexivity.
  assert (H2 : Stream.mic_capture (Raise device_error) [] (Ok tt)
                 (Server.audio_stream server)
               = (Raise device_error, live, [OpenInput 2])) by reflexivity.
  split; [exact H1|split; [exact H2|]].
  exact (mic_failure_stops_only_worker 0%Q argsort server
           (Raise device_error) [] (Ok tt) device_error live [OpenInput 2]
           [idle_tick; idle_tick] H1 H2).
Defined.
End Concrete.


(** * Further properties of the code *)

(** ** [_update_buffer] on chunks of any length *)

Section StreamExtras.
Context {sample : Type} (zero : sample).
Import Stream.
Implicit Types (self : AudioStream sample) (c : list sample).

Lemma length_np_roll (a : list sample) (shift : Z) :
  length (Py.np_roll a shift) = length a.
Proof.
  unfold Py.np_roll. destruct a as [|x a']; [done|].
  set (l := x :: a'). rewrite length_app, length_drop, length_take.
  assert (0 <= shift mod Z.of_nat (length l) < Z.of_nat (length l))
    by (apply Z.mod_pos_bound; subst l; simpl; lia).
  lia.
Qed.

Lemma slice_bound_le (n : nat) (i : Z) : (Py.slice_bound n i <= n)%nat.
Proof. unfold Py.slice_bound. destruct (Z.ltb_spec i 0); lia. Qed.

Lemma length_setitem_from (a vals r : list sample) (start : Z) :
  Py.setitem_from a start vals = Ok r -> length r = length a.
Proof.
  unfold Py.setitem_from. pose proof (slice_bound_le (length a) start).
  destruct (Nat.eqb_spec (length vals)
              (length a - Py.slice_bound (length a) start)).
  - intros [= <-]. rewrite length_app, length_take. lia.
  - destruct vals as [|v [|]]; [done| |done].
    intros [= <-]. rewrite length_app, length_take, length_replicate. lia.
Qed.

Lemma update_buffer_keeps_length self c :
  let out := _update_buffer c self in
  length (buffer out.1.2) = length (buffer self)
  /\ Forall (fun f => length f = length (buffer self)) (frames_of out.2)
  /\ hop_size out.1.2 = hop_size self.
Proof.
  intros out. subst out. rewrite update_buffer_eq. simpl.
  destruct (Py.setitem_from _ _ _) as [buf|e] eqn:E; simpl.
  - apply length_setitem_from in E. rewrite length_np_roll in E.
    destruct (Queue.put_nowait _ _) as [[u|e] q]; simpl;
      repeat split; try done; by repeat constructor.
  - by rewrite length_np_roll.
Qed.

(** X1. Whatever the lengths of the chunks a producer passes and the
    calls a consumer makes in between, the rolling buffer keeps its
    length and every frame offered to the queue has that length: a
    malformed chunk can raise, it cannot change the frame size. *)
Theorem frames_keep_buffer_length (ops : list (op sample)) self :
  let out := interleave ops self in
  length (buffer out.1.2) = length (buffer self)
  /\ Forall (fun f => length f = length (buffer self)) (frames_of out.2).
Proof.
  revert self. induction ops as [|[c|] ops IH]; intros self out; subst out.
  - by split.
  - simpl. unfold bind at 1 2.
    pose proof (update_buffer_keeps_length self c) as (Hl & Hf & _).
    unfold produce_one, try_except.
    destruct (_update_buffer c self) as [[[[]|e] s1] t1]; simpl in *.
    + specialize (IH s1). destruct (interleave ops s1) as [[r2 s2] t2].
      simpl in *. destruct IH as [IH1 IH2]. rewrite Hl in IH1, IH2.
      split; [done|]. rewrite frames_of_app. by apply Forall_app.
    + specialize (IH s1). destruct (interleave ops s1) as [[r2 s2] t2].
      simpl in *. destruct IH as [IH1 IH2]. rewrite Hl in IH1, IH2.
      split; [done|]. rewrite app_nil_r, frames_of_app.
      by apply Forall_app.
  - simpl. unfold bind at 1 2. rewrite get_frame_run.
    destruct (Queue.items (frame_queue self)) as [|x rest].
    + specialize (IH self). destruct (interleave ops self) as [[r2 s2] t2].
      simpl in *. done.
    + set (s1 := set_frame_queue _ self). specialize (IH s1).
      destruct (interleave ops s1) as [[r2 s2] t2]. simpl in *. done.
Qed.

Lemma slice_to_take c (h : Z) :
  0 <= h -> Py.slice_to c h = take (Z.to_nat h) c.
Proof.
  intros Hh. unfold Py.slice_to. rewrite slice_bound_nonneg by done.
  destruct (Nat.le_ge_cases (Z.to_nat h) (length c)).
  - by rewrite Nat.min_l.
  - rewrite Nat.min_r by done. by rewrite firstn_all, take_ge.
Qed.

(** X2. [_update_buffer] reads only the first [hop_size] samples of the
    chunk it is given: two chunks that agree on them have the same
    effect, so the excess of an over-long chunk is silently ignored. *)
Theorem update_buffer_ignores_excess self c c' :
  0 <= hop_size self ->
  take (Z.to_nat (hop_size self)) c = take (Z.to_nat (hop_size self)) c' ->
  _update_buffer c self = _update_buffer c' self.
Proof.
  intros Hh Heq. rewrite !update_buffer_eq.
  by rewrite !slice_to_take, Heq.
Qed.

(** X3. A chunk shorter than [hop_size] that is not a single sample
    makes [_update_buffer] raise numpy's [ValueError], after the buffer
    has been rotated: no frame is offered and the queue is untouched,
    but the buffer is left with its oldest [hop_size] samples moved to
    its end. *)
Theorem update_buffer_short_chunk_raises self c :
  0 < hop_size self <= Py.len (buffer self) ->
  Py.len c < hop_size self ->
  Py.len c <> 1 ->
  _update_buffer c self
  = (Raise (mk_exn ValueError "could not broadcast input array"),
     set_buffer (drop (Z.to_nat (hop_size self)) (buffer self)
                 ++ take (Z.to_nat (hop_size self)) (buffer self)) self,
     []).
Proof.
  unfold Py.len. intros Hh Hc Hone. rewrite update_buffer_eq. simpl.
  rewrite np_roll_left by (unfold Py.len; lia).
  rewrite slice_to_take, (take_ge c) by lia.
  unfold Py.setitem_from.
  rewrite length_app, length_drop, length_take.
  rewrite slice_bound_neg by lia.
  destruct (Nat.eqb_spec (length c)
    (length (buffer self) - Z.to_nat (hop_size self)
     + Z.to_nat (hop_size self) `min` length (buffer self)
     - (length (buffer self) - Z.to_nat (hop_size self)
        + Z.to_nat (hop_size self) `min` length (buffer self)
        - Z.to_nat (hop_size self)))); [lia|].
  destruct c as [|x [|y c]]; [done|simpl in Hone; lia|done].
Qed.

(** X4. A chunk of a single sample is broadcast: [_update_buffer] treats
    it as [hop_size] copies of that sample. *)
Theorem update_buffer_broadcasts_single_sample self (x : sample) :
  0 < hop_size self <= Py.len (buffer self) ->
  _update_buffer [x] self
  = _update_buffer (replicate (Z.to_nat (hop_size self)) x) self.
Proof.
  unfold Py.len. intros Hh. rewrite !update_buffer_eq. simpl.
  rewrite np_roll_left by (unfold Py.len; lia).
  rewrite !slice_to_take by lia.
  rewrite (take_ge (replicate _ _)) by (rewrite length_replicate; lia).
  rewrite (take_ge [x]) by (simpl; lia).
  set (rolled := drop _ _ ++ take _ _).
  assert (Hlen : length rolled = length (buffer self)).
  { subst rolled. rewrite length_app, length_drop, length_take. lia. }
  assert (Hset : Py.setitem_from rolled (- hop_size self) [x]
                 = Py.setitem_from rolled (- hop_size self)
                     (replicate (Z.to_nat (hop_size self)) x)).
  { unfold Py.setitem_from. rewrite Hlen, slice_bound_neg by lia.
    rewrite length_replicate.
    replace (length (buffer self)
             - (length (buffer self) - Z.to_nat (hop_size self)))%nat
      with (Z.to_nat (hop_size self)) by lia.
    rewrite Nat.eqb_refl. simpl (length [x]).
    destruct (Nat.eqb_spec 1 (Z.to_nat (hop_size self))) as [<-|]; done. }
  by rewrite Hset.
Qed.

(** *** The bound of the queue *)

Lemma produce_one_bound self c :
  0 < Queue.maxsize (frame_queue self) ->
  Queue.qsize (frame_queue self) <= Queue.maxsize (frame_queue self) ->
  let s1 := (produce_one c self).1.2 in
  Queue.maxsize (frame_queue s1) = Queue.maxsize (frame_queue self)
  /\ Queue.qsize (frame_queue s1) <= Queue.maxsize (frame_queue self).
Proof.
  intros Hpos Hle. unfold produce_one, try_except.
  rewrite update_buffer_eq. simpl.
  destruct (Py.setitem_from _ _ _) as [buf|e]; simpl; [|done].
  unfold Queue.put_nowait.
  destruct (Z.ltb_spec 0 (Queue.maxsize (frame_queue self))); [|lia].
  destruct (Z.leb_spec (Queue.maxsize (frame_queue self))
              (Queue.qsize (frame_queue self))); simpl; [done|].
  unfold Queue.qsize in *. simpl. rewrite length_app. simpl. lia.
Qed.

(** X5. Under every interleaving of producer and consumer calls the
    queue keeps its [maxsize] and never holds more than [maxsize]
    frames. *)
Theorem queue_never_exceeds_maxsize (ops : list (op sample)) self :
  0 < Queue.maxsize (frame_queue self) ->
  Queue.qsize (frame_queue self) <= Queue.maxsize (frame_queue self) ->
  let s' := (interleave ops self).1.2 in
  Queue.maxsize (frame_queue s') = Queue.maxsize (frame_queue self)
  /\ Queue.qsize (frame_queue s') <= Queue.maxsize (frame_queue self).
Proof.
  revert self. induction ops as [|[c|] ops IH]; intros self Hpos Hle.
  - done.
  - simpl. unfold bind.
    pose proof (produce_one_bound self c Hpos Hle) as [Hm Hq].
    pose proof (produce_one_queue self c) as [Hr _].
    destruct (produce_one c self) as [[r s1] t1]. simpl in *. subst r.
    specialize (IH s1). rewrite Hm in IH.
    destruct (interleave ops s1) as [[r2 s2] t2]. simpl in *.
    by apply IH.
  - simpl. unfold bind. rewrite get_frame_run.
    destruct (Queue.items (frame_queue self)) as [|x rest] eqn:E.
    + specialize (IH self Hpos Hle).
      by destruct (interleave ops self) as [[r2 s2] t2].
    + set (s1 := set_frame_queue _ self).
      assert (Hq1 : Queue.qsize (frame_queue s1)
                    <= Queue.maxsize (frame_queue self)).
      { unfold Queue.qsize in *. rewrite E in Hle. simpl in *. lia. }
      specialize (IH s1 Hpos Hq1).
      by destruct (interleave ops s1) as [[r2 s2] t2].
Qed.

(** *** Restarting *)

(** X6. On a stopped stream, [start()] then [stop()] then [start()]
    starts the worker twice: [stop] joins the first thread for at most
    2 s and keeps its handle, and the second [start] spawns a new
    thread without asking whether the first has ended. The stream ends
    up running, as after a single [start]. *)
Theorem restart_spawns_again self :
  is_running self = false ->
  let target :=
    match wav_file self with Some _ => WavWorker | None => MicWorker end in
  (run start; run stop; start) self
  = (Ok tt, set_thread (Some target) (set_is_running true self),
     [Spawn target; Log INFO "Audio stream started";
      Join target 2000; Log INFO "Audio stream stopped";
      Spawn target; Log INFO "Audio stream started"]).
Proof.
  intros Hrun target. subst target.
  unfold start, stop. run_monad. rewrite Hrun. simpl.
  by destruct (wav_file self).
Qed.

(** *** The replay worker at its edges *)

(** X7. When [sf.read] raises an [Exception] the replay worker logs it
    as a playback error, sets [is_running] to false and returns: the
    buffer and the queue are as they were and nothing is offered. An
    exception that is not an [Exception] leaves the worker instead. *)
Theorem wav_worker_read_failure (fuel : nat) (e : exn) self :
  _wav_worker zero fuel (Raise e) self
  = if isinstance_Exception e then
      (Ok Finished, set_is_running false self,
       [LogExn ERROR "WAV playback error" e])
    else (Raise e, self, []).
Proof.
  unfold _wav_worker, try_except, bind, lift.
  by destruct (isinstance_Exception e).
Qed.

(** X8. A file whose sample rate differs from the stream's is replayed
    exactly as a file with the stream's rate: the only difference is one
    warning at the head of the trace. The samples are not resampled. *)
Theorem wav_worker_rate_mismatch_only_warns (fuel : nat)
    (a : ndarray sample) (sr : Z) self :
  sr <> sample_rate self ->
  _wav_worker zero fuel (Ok (a, sr)) self
  = match _wav_worker zero fuel (Ok (a, sample_rate self)) self with
    | (r, s', t) => (r, s', Log WARNING "WAV sample rate differs" :: t)
    end.
Proof.
  intros Hsr. unfold _wav_worker, try_except. run_monad.
  rewrite Z.eqb_refl. destruct (Z.eqb_spec sr (sample_rate self)); [done|].
  run_monad. destruct (to_mono a) as [audio|e]; run_monad.
  - destruct (wav_loop zero fuel audio 0 self) as [[[[]|e] s1] t1];
      run_monad; try done; by destruct (isinstance_Exception e).
  - by destruct (isinstance_Exception e).
Qed.

(** X9. With an empty asset, or with [is_running] already false when
    the worker gets to its loop, the replay worker offers nothing, logs
    that playback finished and returns, leaving the stream as it was:
    in particular a worker that ends this way does not clear
    [is_running]. *)
Theorem wav_worker_clean_finish_keeps_flag (fuel : nat)
    (audio : list sample) self :
  audio = [] \/ is_running self = false ->
  _wav_worker zero (S fuel) (Ok (Array1 audio, sample_rate self)) self
  = (Ok Finished, self,
     [Log INFO "WAV file loaded"; Log INFO "WAV playback finished"]).
Proof.
  intros Hcase. unfold _wav_worker, try_except. run_monad.
  rewrite Z.eqb_refl. run_monad.
  destruct Hcase as [-> | ->]; [|done].
  by rewrite andb_false_r.
Qed.

(** *** The capture worker while it runs and when it is stopped *)

Lemma quiet_app (t1 t2 : list (effect sample)) :
  Trace.quiet t1 -> Trace.quiet t2 -> Trace.quiet (t1 ++ t2).
Proof. apply Forall_app_2. Qed.

Lemma quiet_silent (t : list (effect sample)) :
  Trace.quiet t ->
  Trace.sleeps_of t = [] /\ Trace.logged_exns_of t = []
  /\ Trace.closes_of t = [].
Proof.
  induction 1 as [|e t He _ IH]; [done|].
  destruct e; try done; exact IH.
Qed.

Lemma update_buffer_quiet self c :
  let out := _update_buffer c self in
  Trace.quiet out.2 /\ is_running out.1.2 = is_running self.
Proof.
  intros out. subst out. rewrite update_buffer_eq. simpl.
  destruct (Py.setitem_from _ _ _); simpl; [|by split; [constructor|]].
  destruct (Queue.put_nowait _ _) as [[u|e] q]; simpl;
    (split; [by repeat constructor|done]).
Qed.

Lemma deliver_quiet cbs : forall self,
  exists s' t, deliver cbs self = (Ok tt, s', t)
    /\ Trace.quiet t /\ is_running s' = is_running self.
Proof.
  induction cbs as [|[indata status] cbs IH]; intros self.
  { eexists _, _. repeat split. constructor. }
  simpl. unfold bind at 1.
  assert (Hcb : exists s1 t1,
            try_except (callback indata status) (fun _ => true)
              (fun _ => ret tt) self = (Ok tt, s1, t1)
            /\ Trace.quiet t1 /\ is_running s1 = is_running self).
  { unfold callback, try_except, bind at 1.
    assert (Hst : exists t0 : list (effect sample),
              (if status then emit (Log WARNING "Audio callback status")
               else ret tt) self = (Ok tt, self, t0) /\ Trace.quiet t0).
    { destruct status; eexists; (split; [reflexivity|]);
        by repeat constructor. }
    destruct Hst as (t0 & -> & Ht0).
    unfold bind, lift. destruct (first_column indata) as [audio|e].
    - pose proof (update_buffer_quiet self audio) as [Hq Hr].
      destruct (_update_buffer audio self) as [[[[]|e] s1] t1];
        simpl in *; eexists _, _; (split; [reflexivity|]);
        (split; [|done]); rewrite ?app_nil_r; by apply quiet_app.
    - simpl. eexists _, _. split; [reflexivity|].
      split; [|done]. by rewrite !app_nil_r. }
  destruct Hcb as (s1 & t1 & -> & Ht1 & Hr1).
  destruct (IH s1) as (s2 & t2 & -> & Ht2 & Hr2).
  eexists _, _. split; [reflexivity|].
  split; [by apply quiet_app|congruence].
Qed.

Lemma sleeps_of_app (t1 t2 : list (effect sample)) :
  Trace.sleeps_of (t1 ++ t2) = Trace.sleeps_of t1 ++ Trace.sleeps_of t2.
Proof. apply omap_app. Qed.

Lemma logged_exns_of_app (t1 t2 : list (effect sample)) :
  Trace.logged_exns_of (t1 ++ t2)
  = Trace.logged_exns_of t1 ++ Trace.logged_exns_of t2.
Proof. apply omap_app. Qed.

Lemma closes_of_app (t1 t2 : list (effect sample)) :
  Trace.closes_of (t1 ++ t2) = Trace.closes_of t1 ++ Trace.closes_of t2.
Proof. apply omap_app. Qed.

(** The polling loop over polls in which no stop arrives and no sleep
    raises: it is still looping at the end, with one sleep per poll. *)
Lemma mic_loop_polls (polls : list (poll sample)) : forall self,
  is_running self = true ->
  Forall (fun p => poll_stop p = false /\ poll_sleep p = Ok tt) polls ->
  forall rest, exists s' t,
    is_running s' = true
    /\ Trace.sleeps_of t = replicate (length polls) 100
    /\ Trace.logged_exns_of t = [] /\ Trace.closes_of t = []
    /\ mic_loop (polls ++ rest) self
       = match mic_loop rest s' with
         | (r, s2, t2) => (r, s2, t ++ t2)
         end.
Proof.
  induction polls as [|p polls IH]; intros self Hrun Hall rest.
  { exists self, []. repeat split; try done. simpl.
    by destruct (mic_loop rest self) as [[r s2] t2]. }
  apply Forall_cons in Hall as [[Hstop Hsleep] Hrest].
  destruct (deliver_quiet (poll_callbacks p) self)
    as (s1 & t1 & Hdel & Hq & Hr1).
  destruct (quiet_silent t1 Hq) as (Hs1 & He1 & Hc1).
  destruct (IH s1) with (rest := rest)
    as (s' & t & Hr' & Hs' & He' & Hc' & Hloop); [congruence|done|].
  exists s', (Sleep 100 :: t1 ++ t). repeat split; try done.
  - change (Sleep 100 :: t1 ++ t) with ([Sleep 100] ++ t1 ++ t).
    rewrite !sleeps_of_app, Hs1, Hs'. done.
  - change (Sleep 100 :: t1 ++ t) with ([Sleep 100] ++ t1 ++ t).
    rewrite !logged_exns_of_app, He1, He'. done.
  - change (Sleep 100 :: t1 ++ t) with ([Sleep 100] ++ t1 ++ t).
    rewrite !closes_of_app, Hc1, Hc'. done.
  - simpl. unfold bind at 1, get_state. rewrite Hrun.
    unfold bind at 1, emit. unfold bind at 1. rewrite Hdel.
    rewrite Hstop, Hsleep. unfold bind at 1, ret. unfold bind at 1, lift.
    rewrite Hloop. destruct (mic_loop rest s') as [[r s2] t2].
    simpl. by rewrite <- !app_assoc.
Qed.

(** X10. While [is_running] stays true and neither the device nor the
    sleep raises, the capture worker never returns by itself: after any
    number of polls it is still in its loop, having slept 100 ms once
    per poll, with the device open, nothing logged as an error and
    [is_running] still true. *)
Theorem mic_worker_polls_while_running (polls : list (poll sample))
    (close : result unit) self :
  is_running self = true ->
  Forall (fun p => poll_stop p = false /\ poll_sleep p = Ok tt) polls ->
  let out := _mic_worker (Ok tt) polls close self in
  out.1.1 = Ok StillLooping
  /\ is_running out.1.2 = true
  /\ Trace.sleeps_of out.2 = replicate (length polls) 100
  /\ Trace.closes_of out.2 = []
  /\ Trace.logged_exns_of out.2 = [].
Proof.
  intros Hrun Hall out. subst out.
  destruct (mic_loop_polls polls self Hrun Hall [])
    as (s' & t & Hr' & Hs' & He' & Hc' & Hloop).
  rewrite app_nil_r in Hloop. simpl in Hloop. rewrite app_nil_r in Hloop.
  assert (Hw : _mic_worker (Ok tt) polls close self
            = (Ok StillLooping, s',
               [OpenInput (hop_size self); Log INFO "Microphone opened"]
               ++ t)).
  { unfold _mic_worker, try_except, mic_capture.
    unfold bind at 1, get_state. unfold bind at 1, emit.
    unfold bind at 1, lift. unfold with_input_stream.
    unfold bind at 1, emit. by rewrite Hloop. }
  rewrite Hw. cbn [fst snd].
  rewrite sleeps_of_app, closes_of_app, logged_exns_of_app, Hs', He', Hc'.
  done.
Qed.

(** X11. A [stop()] that arrives during a poll ends the capture worker
    at its next test of [is_running]: it sleeps once for each poll up
    to and including that one and never again, closes the device once,
    logs no error and returns with [is_running] false. What the later
    polls would have brought plays no part. *)
Theorem mic_worker_stops_within_one_poll
    (before later : list (poll sample)) (p next : poll sample) self :
  is_running self = true ->
  Forall (fun q => poll_stop q = false /\ poll_sleep q = Ok tt) before ->
  poll_stop p = true ->
  poll_sleep p = Ok tt ->
  let out :=
    _mic_worker (Ok tt) (before ++ p :: next :: later) (Ok tt) self in
  out.1.1 = Ok Finished
  /\ is_running out.1.2 = false
  /\ Trace.sleeps_of out.2 = replicate (S (length before)) 100
  /\ Trace.closes_of out.2 = [tt]
  /\ Trace.logged_exns_of out.2 = [].
Proof.
  intros Hrun Hall Hstop Hsleep out. subst out.
  destruct (mic_loop_polls before self Hrun Hall (p :: next :: later))
    as (s' & t & Hr' & Hs' & He' & Hc' & Hloop).
  destruct (deliver_quiet (poll_callbacks p) s')
    as (s1 & t1 & Hdel & Hq & Hr1).
  destruct (quiet_silent t1 Hq) as (Hs1 & He1 & Hc1).
  assert (Hlast : mic_loop (p :: next :: later) s'
            = (Ok Finished, set_is_running false s1, [Sleep 100] ++ t1)).
  { simpl. unfold bind at 1, get_state. rewrite Hr'.
    unfold bind at 1, emit. unfold bind at 1. rewrite Hdel.
    rewrite Hstop, Hsleep. unfold bind at 1, modify.
    unfold bind at 1, lift. unfold bind, get_state. simpl.
    by rewrite !app_nil_r. }
  rewrite Hlast in Hloop.
  assert (Hw : _mic_worker (Ok tt) (before ++ p :: next :: later) (Ok tt)
                 self
            = (Ok Finished, set_is_running false s1,
               [OpenInput (hop_size self); Log INFO "Microphone opened"]
               ++ (t ++ [Sleep 100] ++ t1) ++ [CloseInput])).
  { unfold _mic_worker, try_except, mic_capture.
    unfold bind at 1, get_state. unfold bind at 1, emit.
    unfold bind at 1, lift. unfold with_input_stream.
    unfold bind at 1, emit. by rewrite Hloop. }
  rewrite Hw. cbn [fst snd].
  rewrite !sleeps_of_app, !closes_of_app, !logged_exns_of_app.
  rewrite Hs', He', Hc', Hs1, He1, Hc1.
  repeat split; try done.
  change (Trace.sleeps_of [Sleep 100]) with (replicate 1 100).
  change (Trace.sleeps_of
            [OpenInput (hop_size self); Log INFO "Microphone opened"])
    with (@nil Z).
  change (Trace.sleeps_of [CloseInput]) with (@nil Z).
  rewrite !app_nil_r, app_nil_l, <- replicate_add. f_equal. lia.
Qed.
End StreamExtras.

(** ** [get_top_k] and the class names *)

Section InferExtras.
Context {value : Type} (zero : value).
Import Infer.

Lemma pairs_in_range (names : list string) (v : list value)
    (idxs : list nat) :
  Forall (fun idx => (idx < length names)%nat /\ (idx < length v)%nat) idxs ->
  exists l, pairs names v idxs = Ok l /\ length l = length idxs.
Proof.
  intros Hall. destruct (pairs_lookup names v idxs Hall) as (l & ? & ? & _).
  by exists l.
Qed.

Lemma pairs_out_of_range (names : list string) (v : list value)
    (idxs : list nat) :
  Exists (fun idx => (length names <= idx)%nat \/ (length v <= idx)%nat) idxs ->
  exists e, pairs names v idxs = Raise e /\ exn_cls e = IndexError.
Proof.
  induction idxs as [|idx idxs IH]; intros Hex; [by apply Exists_nil in Hex|].
  simpl. unfold getitem.
  destruct (names !! idx) as [name|] eqn:Hn; [|by eexists].
  destruct (v !! idx) as [p|] eqn:Hv; [|by eexists].
  apply Exists_cons in Hex as [[Hex|Hex]|Hex].
  - apply lookup_lt_Some in Hn. lia.
  - apply lookup_lt_Some in Hv. lia.
  - destruct (IH Hex) as (e & -> & He). by exists e.
Qed.

Lemma top_indices_range (argsort : list value -> list nat)
    (predictions : list value) (k : Z) :
  argsort predictions ≡ₚ seq 0 (length predictions) ->
  Forall (fun idx => (idx < length predictions)%nat)
    (rev (Py.slice_from (argsort predictions) (- k))).
Proof.
  intros Hperm. apply Forall_forall. intros idx Hin.
  apply list_elem_of_In, in_rev, list_elem_of_In in Hin.
  unfold Py.slice_from in Hin.
  eapply elem_of_sublist in Hin; [|apply sublist_drop].
  rewrite Hperm in Hin. apply elem_of_seq in Hin. lia.
Qed.

(** X12. For every integer [k], on a score vector whose indices all have
    a class name, [get_top_k] returns: [min(k, n)] pairs when [k] is
    positive ([k] larger than the vector gives every class), all [n]
    pairs when [k] is zero, and the [n - min(-k, n)] best when [k] is
    negative. *)
Theorem get_top_k_length_any_k (argsort : list value -> list nat)
    (self : YAMNetInference) (predictions : list value) (k : Z) :
  argsort predictions ≡ₚ seq 0 (length predictions) ->
  (length predictions <= length (class_names self))%nat ->
  exists l,
    get_top_k argsort predictions k self = (Ok l, self, [])
    /\ Py.len l
       = if 0 <? k then Z.min k (Py.len predictions)
         else Py.len predictions - Z.min (- k) (Py.len predictions).
Proof.
  intros Hperm Hnames.
  pose proof (top_indices_range argsort predictions k Hperm) as Hrange.
  destruct (pairs_in_range (class_names self) predictions
              (rev (Py.slice_from (argsort predictions) (- k))))
    as (l & Hl & Hlen).
  { eapply Forall_impl; [exact Hrange|]. simpl. lia. }
  exists l. split.
  - unfold get_top_k. run_monad. by rewrite Hl.
  - unfold Py.len. rewrite Hlen, length_rev. unfold Py.slice_from.
    rewrite length_drop, Hperm, length_seq. unfold Py.slice_bound.
    destruct (Z.ltb_spec 0 k); destruct (Z.ltb_spec (- k) 0); lia.
Qed.

(** X13. When one of the indices that [get_top_k] selects has no class
    name, the call raises [IndexError]: no shorter list is returned. *)
Theorem get_top_k_missing_label_raises (argsort : list value -> list nat)
    (self : YAMNetInference) (predictions : list value) (k : Z) (idx : nat) :
  idx ∈ rev (Py.slice_from (argsort predictions) (- k)) ->
  (length (class_names self) <= idx)%nat ->
  exists e,
    get_top_k argsort predictions k self = (Raise e, self, [])
    /\ exn_cls e = IndexError.
Proof.
  intros Hin Hidx.
  destruct (pairs_out_of_range (class_names self) predictions
              (rev (Py.slice_from (argsort predictions) (- k))))
    as (e & He & Hcls).
  { apply Exists_exists. exists idx. split; [done|by left]. }
  exists e. split; [|done]. unfold get_top_k. run_monad. by rewrite He.
Qed.

(** X14. The pairs [get_top_k] returns are the best ones: for
    [0 < k <= n] and an ascending [np.argsort], no score that was left
    out is greater than a score that was returned. The indices left out
    are those at the first [n - k] positions of the ascending order. *)
Theorem get_top_k_returns_largest (argsort : list value -> list nat)
    (ltb : value -> value -> bool) (self : YAMNetInference)
    (predictions : list value) (k : Z) (l : list (string * value)) :
  0 < k <= Py.len predictions ->
  is_argsort zero ltb predictions (argsort predictions) = true ->
  get_top_k argsort predictions k self = (Ok l, self, []) ->
  forall a m idx,
    a ∈ l ->
    (m < length predictions - Z.to_nat k)%nat ->
    argsort predictions !! m = Some idx ->
    ltb a.2 (nth idx predictions zero) = false.
Proof.
  intros Hk Hsort Hrun a m idx Ha Hm Hidx. unfold is_argsort in Hsort.
  apply andb_prop in Hsort as [Hperm Hasc].
  apply bool_decide_eq_true in Hperm.
  pose proof (top_indices_range argsort predictions k Hperm) as Hrange.
  set (idxs := argsort predictions) in *.
  set (n := length predictions) in *.
  assert (Hlen : length idxs = n) by (by rewrite Hperm, length_seq).
  unfold Py.len in Hk. fold n in Hk.
  set (top := rev (Py.slice_from idxs (- k))) in *.
  assert (Htop : top = reverse (drop (n - Z.to_nat k) idxs)).
  { subst top. unfold Py.slice_from. rewrite slice_bound_neg by lia.
    rewrite Hlen, rev_alt. reflexivity. }
  unfold get_top_k in Hrun. run_monad_in Hrun. fold idxs top in Hrun.
  destruct (pairs (class_names self) predictions top) as [l'|e] eqn:Hp;
    [|done].
  injection Hrun as ->.
  assert (Hget : forall tp (l0 : list (string * value)),
            pairs (class_names self) predictions tp = Ok l0 ->
            forall b, b ∈ l0 ->
              exists j, j ∈ tp /\ predictions !! j = Some b.2).
  { induction tp as [|j tp IH]; intros l0 Hl0 b Hb.
    - injection Hl0 as <-. by apply elem_of_nil in Hb.
    - simpl in Hl0. unfold getitem in Hl0.
      destruct (class_names self !! j) as [name|]; [|done].
      destruct (predictions !! j) as [pj|] eqn:Hpj; [|done].
      destruct (pairs (class_names self) predictions tp) as [l1|] eqn:Hl1;
        [|done].
      injection Hl0 as <-. apply elem_of_cons in Hb as [->|Hb].
      + exists j. split; [by left|done].
      + destruct (IH l1 eq_refl b Hb) as (j' & ? & ?).
        exists j'. split; [by right|done]. }
  destruct (Hget top l Hp a Ha) as (j & Hj & Hvj).
  rewrite Htop, elem_of_reverse in Hj.
  apply list_elem_of_lookup in Hj as [i Hi].
  rewrite lookup_drop in Hi.
  rewrite <- (nth_lookup_Some _ _ zero _ Hvj).
  eapply (ascending_lookup zero ltb predictions idxs Hasc m
            (n - Z.to_nat k + i)); [lia|done..].
Qed.

#[local] Instance string_eq_decision : EqDecision string := string_dec.

(** X15. An engine built without class names, or with an empty list of
    them, uses the 521 default names: index [i] is named ["class_"]
    followed by [i] in decimal, the names are pairwise distinct, and there
    is none from index 521 on. A non-empty list is used as it is. *)
Theorem init_class_names_default (model_path : string) (num_threads : Z)
    (use_npu : bool) :
  class_names (init model_path num_threads use_npu (Some []))
  = class_names (init model_path num_threads use_npu None)
  /\ (forall i : nat,
       class_names (init model_path num_threads use_npu None) !! i
       = if (i <? 521)%nat
         then Some ("class_" ++ NilZero.string_of_uint (Nat.to_uint i))%string
         else None)
  /\ NoDup (class_names (init model_path num_threads use_npu None))
  /\ (forall name names,
       class_names (init model_path num_threads use_npu
                      (Some (name :: names)))
       = name :: names).
Proof.
  repeat split.
  - intros i. simpl. unfold default_class_names.
    change (map ?f ?l) with (f <$> l). rewrite list_lookup_fmap.
    destruct (Nat.ltb_spec i 521).
    + by rewrite lookup_seq_lt.
    + by rewrite lookup_seq_ge.
  - change (NoDup default_class_names).
    apply (bool_decide_unpack (NoDup default_class_names)).
    vm_compute. exact I.
Qed.
End InferExtras.

(** ** The processing loop at its edges *)

Section ServerExtras.
Context {sample value : Type} (vzero : value).
Variable argsort : list value -> list nat.
Import Server.
Implicit Types (st : State sample) (tk : tick sample value).

(** Splits the run of an iteration body, recorded in [H], into its
    cases, innermost test first. *)
Ltac body_cases H :=
  unfold iteration_body in H; unfold bind at 1 in H;
  rewrite in_stream_get_frame in H;
  match type of H with
  | context [Queue.items ?q] => destruct (Queue.items q) eqn:?
  end;
  [run_monad_in H
  |unfold in_engine, socketio_emit, Infer.predict, Infer.get_top_k in H;
    run_monad_in H;
    repeat match type of H with
           | context [match ?x with _ => _ end] =>
               lazymatch x with
               | context [match _ with _ => _ end] => fail
               | _ => destruct x eqn:?; run_monad_in H
               end
           end].

(** X16. An iteration that finds a frame takes it out of the queue
    whether or not its processing succeeds. When the iteration logs a
    processing error, no record was sent for the frame and the frame
    counter is as before: the frame is not retried and its number goes
    to the next record. *)
Theorem iteration_consumes_frame tk st (f : list sample)
    (rest : list (list sample)) :
  Queue.items (Stream.frame_queue (audio_stream st)) = f :: rest ->
  let out := iteration vzero argsort tk st in
  Queue.items (Stream.frame_queue (audio_stream out.1.2)) = rest
  /\ (exists t, out.2 = StreamCall (Get (Some f)) :: t)
  /\ (forall e, LoggedExn ERROR "Processing error" e ∈ out.2 ->
      out.1.1 = Ok tt
      /\ frame_count out.1.2 = frame_count st
      /\ sent_frame_ids out.2 = []).
Proof.
  intros Hq out. subst out. rewrite iteration_run.
  destruct (iteration_body vzero argsort tk st) as [[r s1] t1] eqn:Hbody.
  body_cases Hbody.
  all: simplify_eq; simpl.
  all: repeat match goal with
              | |- context [if isinstance_Exception ?e then _ else _] =>
                  destruct (isinstance_Exception e); simpl
              end.
  all: split; [done|split; [by eexists|]].
  all: intros e0 Hin; rewrite ?elem_of_app, ?elem_of_cons, ?elem_of_nil in Hin.
  all: try (exfalso; intuition congruence).
  all: done.
Qed.

(** X17. When the engine returns an empty score vector, [get_top_k]
    gives an empty list and building the record fails on [top_k[0]]:
    the iteration logs an [IndexError], sleeps 0.1 s and sends nothing. *)
Theorem empty_scores_send_nothing tk st (f : list sample)
    (rest : list (list sample)) (features : Infer.matrix value)
    (more : list (list value)) (cpu : Q) :
  Queue.items (Stream.frame_queue (audio_stream st)) = f :: rest ->
  tick_extract tk f = Ok features ->
  tick_interpreter tk (Infer.input_data_of vzero features) = Ok ([] :: more) ->
  argsort [] = [] ->
  tick_cpu_percent tk = Ok cpu ->
  let out := iteration vzero argsort tk st in
  out.1.1 = Ok tt
  /\ (exists t,
        out.2 = t ++ [LoggedExn ERROR "Processing error"
                        (mk_exn IndexError "index out of range");
                      Slept 100])
  /\ sent_frame_ids out.2 = []
  /\ frame_count out.1.2 = frame_count st.
Proof.
  intros Hq Hext Hint Hsort Hcpu out. subst out.
  rewrite iteration_run.
  destruct (iteration_body vzero argsort tk st) as [[r s1] t1] eqn:Hbody.
  unfold iteration_body in Hbody. unfold bind at 1 in Hbody.
  rewrite in_stream_get_frame, Hq in Hbody.
  unfold in_engine, Infer.predict, Infer.get_top_k in Hbody.
  run_monad_in Hbody. rewrite Hext in Hbody. run_monad_in Hbody.
  destruct (negb _); run_monad_in Hbody; rewrite Hint in Hbody;
    run_monad_in Hbody; rewrite Hsort in Hbody; run_monad_in Hbody;
    rewrite Hcpu in Hbody; run_monad_in Hbody;
    injection Hbody as <- <- <-; simpl;
    (split; [done|split; [|done]]);
    first [by eexists [_; _; _] | by eexists [_; _]].
Qed.

Lemma produce_queue chunks : forall s : Stream.AudioStream sample,
  exists s' t,
    Stream.produce chunks s = (Ok tt, s', t)
    /\ Stream.delivered_of t = []
    /\ Queue.items (Stream.frame_queue s')
       = Queue.items (Stream.frame_queue s) ++ Stream.accepted_of t.
Proof.
  induction chunks as [|c chunks IH]; intros s.
  { eexists _, _. repeat split. simpl. by rewrite app_nil_r. }
  simpl. unfold bind.
  destruct (produce_one_queue s c) as (Hr & Hq & Hd).
  destruct (Stream.produce_one c s) as [[r s1] t1]. simpl in *. subst r.
  destruct (IH s1) as (s2 & t2 & -> & Hd2 & Hq2).
  eexists _, _. split; [reflexivity|].
  rewrite delivered_of_app, accepted_of_app, Hd, Hd2, Hq2, Hq.
  by rewrite app_assoc.
Qed.

(** X18. Once [is_running] is false the loop ends at its next test
    without calling [get_frame]: what the trace holds is what the
    producer did meanwhile, nothing is delivered or sent, and the frames
    that were queued stay in the queue, followed by those the producer
    still got accepted. *)
Theorem loop_ends_when_flag_false tk (ticks : list (tick sample value)) st :
  is_running st = false ->
  exists a t,
    Stream.produce (tick_arrivals tk) (audio_stream st) = (Ok tt, a, t)
    /\ loop vzero argsort (tk :: ticks) st
       = (Ok Stream.Finished, set_audio_stream a st, map StreamCall t)
    /\ Stream.delivered_of t = []
    /\ Queue.items (Stream.frame_queue a)
       = Queue.items (Stream.frame_queue (audio_stream st))
         ++ Stream.accepted_of t.
Proof.
  intros Hrun.
  destruct (produce_queue (tick_arrivals tk) (audio_stream st))
    as (a & t & Hprod & Hd & Hq).
  exists a, t. repeat split; try done.
  assert (Hst : (if tick_stop tk then modify (set_is_running false)
                 else ret tt) st
                = (Ok tt, st, @nil (event sample value))).
  { destruct st as [r a0 e n]. simpl in Hrun. subst r.
    by destruct (tick_stop tk). }
  simpl. unfold bind at 1. rewrite Hst.
  unfold bind at 1, in_stream. rewrite Hprod.
  unfold bind, get_state. simpl. rewrite Hrun. simpl.
  by rewrite app_nil_r.
Qed.

(** X19. An iteration logs the progress line exactly when it has sent a
    record and the number of records sent so far has become a multiple
    of 50. *)
Theorem progress_logged_every_50 tk st :
  let out := iteration vzero argsort tk st in
  Logged INFO "Processed frames" ∈ out.2
  <-> sent_frame_ids out.2 = [frame_count st]
      /\ (frame_count st + 1) mod 50 = 0.
Proof.
  intros out. subst out. rewrite iteration_run.
  destruct (iteration_body vzero argsort tk st) as [[r s1] t1] eqn:Hbody.
  body_cases Hbody.
  all: simplify_eq; simpl.
  all: repeat match goal with
              | |- context [if isinstance_Exception ?e then _ else _] =>
                  destruct (isinstance_Exception e); simpl
              end.
  all: rewrite ?elem_of_app, ?elem_of_cons, ?elem_of_nil.
  all: repeat match goal with
              | H : (_ =? _) = true |- _ => apply Z.eqb_eq in H
              | H : (_ =? _) = false |- _ => apply Z.eqb_neq in H
              end.
  all: split; [intros Hin|intros [Hs Hm]].
  all: try (exfalso; intuition congruence).
  all: try done.
  all: try (repeat split; try done; intuition congruence).
  all: try solve [intuition].
Qed.
End ServerExtras.

(** ** The server lifecycle *)

Section LifecycleExtras.
Context {sample : Type} (zero : sample).
Import ServerGlobals.
Implicit Types (g : Globals sample).

(** X20. [start_server] before [init_system]: the call on the missing
    stream raises [AttributeError] after [is_running] has been set, so
    the flag is left true although no thread was started and the server
    does not run. *)
Theorem start_server_before_init (serve : result unit) (host : string)
    (port : Z) g :
  audio_stream g = None ->
  start_server serve host port g
  = (Raise (none_has_no_attribute "start"), set_is_running true g, []).
Proof.
  intros Hnone. unfold start_server, on_audio_stream. run_monad.
  by rewrite Hnone.
Qed.

(** X21. [stop_server] returns whatever has been initialised: it clears
    the server's [is_running] and the stream's, changes nothing else,
    and a second call leaves the globals as the first did. It waits for
    the stream's worker, then closes the extractor's pool, then waits
    for the processing thread, in that order. [signal_handler] does the
    same and then always raises [SystemExit]. *)
Theorem stop_server_idempotent g :
  let out := stop_server g in
  out.1.1 = Ok tt
  /\ out.1.2
     = set_audio_stream
         (Stream.set_is_running false <$> audio_stream g)
         (set_is_running false g)
  /\ (stop_server out.1.2).1.2 = out.1.2
  /\ out.2
     = [Logged INFO "Stopping Kunpeng-AED server..."]
       ++ match audio_stream g with
          | Some a => map StreamCall (Stream.stop a).2
          | None => []
          end
       ++ match feature_extractor g with
          | Some f => map ExtractorCall (Feature.close f).2
          | None => []
          end
       ++ match processing_thread g with
          | Some t => [ThreadJoin t 3000]
          | None => []
          end
       ++ [Logged INFO "Server stopped"]
  /\ signal_handler g
     = (Raise (mk_exn SystemExit "0"), out.1.2,
        Logged INFO "Received signal, shutting down..." :: out.2).
Proof.
  destruct g as [[[? ? ? ? ? ? ? ? ? [w|]]|] [[sr nf hl nm nw [|]]|] e [t|] r];
    repeat split; reflexivity.
Qed.

(** X22. When the model cannot be loaded, [init_system] raises with the
    stream and the extractor already in place and no engine; a client
    that connects then is told that the system is stopped, with model
    "N/A" and 0 threads. *)
Theorem init_system_load_failure (e : exn) (model_path : string)
    (num_threads : Z) (device : option Z) (wav_file : option string) :
  let out :=
    init_system zero (Raise e) model_path num_threads device wav_file
      initial in
  out.1.1 = Raise e
  /\ (exists a, audio_stream out.1.2 = Some a
        /\ Stream.init zero 16000 1 15360 7680 device wav_file = Ok a)
  /\ feature_extractor out.1.2 = Some (Feature.init 16000 2048 160 64 2)
  /\ inference_engine out.1.2 = None
  /\ is_running out.1.2 = false
  /\ last_status (handle_connect out.1.2).2
     = Some (mkStatus "stopped" "N/A" 0).
Proof. repeat split. eexists. split; reflexivity. Qed.

(** X23. From the imported module, [init_system] builds a stopped
    stream on a buffer of 15360 zeros with a hop of 7680 and an empty
    queue of capacity 10. [start_server] then sets the stream running
    with the worker that its [wav_file] selects, records the processing
    thread and returns what [socketio.run] returns; a client that
    connects before is told "stopped", one that connects after is told
    "running", both with the model path and thread count given. After
    [stop_server] the client is told "stopped" and the stream's
    [is_running] is false; the thread handles are kept. The statement
    is about what these calls do themselves, before the threads they
    start have run. *)
Theorem lifecycle_status (serve : result unit) (host : string) (port : Z)
    (model_path : string) (num_threads : Z) (device : option Z)
    (wav_file : option string) :
  let g1 :=
    (init_system zero (Ok tt) model_path num_threads device wav_file
       initial).1.2 in
  let g2 := (start_server serve host port g1).1.2 in
  let g3 := (stop_server g2).1.2 in
  let target :=
    match wav_file with Some _ => WavWorker | None => MicWorker end in
  audio_stream g1
  = Some (Stream.mkAudioStream 16000 1 15360 7680 device wav_file
            (replicate (Z.to_nat 15360) zero) (Queue.create 10) false None)
  /\ (start_server serve host port g1).1.1 = serve
  /\ Stream.is_running <$> audio_stream g2 = Some true
  /\ Stream._thread <$> audio_stream g2 = Some (Some target)
  /\ processing_thread g2 = Some ProcessingLoop
  /\ last_status (handle_connect g1).2
     = Some (mkStatus "stopped" model_path num_threads)
  /\ last_status (handle_connect g2).2
     = Some (mkStatus "running" model_path num_threads)
  /\ last_status (handle_connect g3).2
     = Some (mkStatus "stopped" model_path num_threads)
  /\ Stream.is_running <$> audio_stream g3 = Some false
  /\ Stream._thread <$> audio_stream g3 = Some (Some target)
  /\ processing_thread g3 = Some ProcessingLoop.
Proof.
  assert (Hinit : Stream.init zero 16000 1 15360 7680 device wav_file
            = Ok (Stream.mkAudioStream 16000 1 15360 7680 device wav_file
                    (replicate (Z.to_nat 15360) zero) (Queue.create 10)
                    false None)).
  { reflexivity. }
  unfold init_system, start_server, stop_server, handle_connect,
    on_audio_stream, close_feature_extractor, last_status,
    Stream.start, Stream.stop, Feature.close.
  unfold bind at 1. cbn [emit]. unfold bind at 1, lift. rewrite Hinit.
  destruct wav_file; destruct serve; repeat split; reflexivity.
Qed.
End LifecycleExtras.


(** ** The benchmark *)

Section BenchExtras.
Context {value stats : Type} (zero : value).
Variable statistics : list Q -> list Q -> Z -> Q -> result stats.
Import Bench.

Lemma invoked_of_app (t1 t2 : list (event value stats)) :
  invoked_of (t1 ++ t2) = invoked_of t1 ++ invoked_of t2.
Proof. apply omap_app. Qed.

Lemma rows_of_app (t1 t2 : list (event value stats)) :
  rows_of (t1 ++ t2) = rows_of t1 ++ rows_of t2.
Proof. apply omap_app. Qed.

Lemma progress_of_app (t1 t2 : list (event value stats)) :
  progress_of (t1 ++ t2) = progress_of t1 ++ progress_of t2.
Proof. apply omap_app. Qed.

Lemma log_all_run (texts : list string) (results : gmap Z stats) :
  log_all (value:=value) texts results = (Ok tt, results, map (Logged INFO) texts).
Proof.
  induction texts as [|text texts IH]; [done|].
  simpl. unfold bind, emit. rewrite IH. done.
Qed.

Lemma log_rows_run (items : list (Z * stats)) (results : gmap Z stats) :
  log_rows (value:=value) items results
  = (Ok tt, results, map (fun p => Row p.1 p.2) items).
Proof.
  induction items as [|[k s] items IH]; [done|].
  simpl. unfold bind, emit. rewrite IH. done.
Qed.

Lemma plain_app (t1 t2 : list (event value stats)) :
  plain t1 -> plain t2 -> plain (t1 ++ t2).
Proof.
  unfold plain. intros (H1 & H2 & H3) (H4 & H5 & H6).
  rewrite invoked_of_app, rows_of_app, progress_of_app.
  rewrite H1, H2, H3, H4, H5, H6. done.
Qed.

(** One call of [predict] leaves the results alone and invokes the
    interpreter once, on the normalised dummy input. *)
Lemma engine_predict_run engine (c : call value)
    (features : Infer.matrix value) (results : gmap Z stats) :
  exists r t,
    engine_predict zero engine c features results = (r, results, t)
    /\ invoked_of t
       = [(Infer.num_threads engine, Infer.input_data_of zero features)]
    /\ rows_of t = []
    /\ progress_of t = [].
Proof.
  unfold engine_predict, Infer.predict.
  destruct (negb (Infer.shape0 features =? 64)%nat);
    destruct (call_interpreter c (Infer.input_data_of zero features))
      as [[|o output]|e];
    run_monad; eexists _, _; (split; [reflexivity|]); done.
Qed.

Lemma warmup_run engine (rd : round value) self (range : list nat)
    (results : gmap Z stats) :
  exists r t,
    warmup zero engine rd self range results = (r, results, t)
    /\ rows_of t = []
    /\ progress_of t = []
    /\ (r = Ok tt ->
        invoked_of t
        = replicate (length range)
            (Infer.num_threads engine,
             Infer.input_data_of zero (dummy_input self))).
Proof.
  induction range as [|i range IH]; simpl.
  { eexists _, _. split; [reflexivity|]. done. }
  destruct (engine_predict_run engine (round_warmup rd i) (dummy_input self)
              results) as (r1 & t1 & H1 & Hi1 & Hr1 & Hp1).
  destruct IH as (r2 & t2 & H2 & Hr2 & Hp2 & Hi2).
  unfold bind. rewrite H1. destruct r1 as [pl|e].
  - rewrite H2. eexists _, _. split; [reflexivity|].
    rewrite rows_of_app, progress_of_app, invoked_of_app, Hr1, Hr2, Hp1,
      Hp2, Hi1.
    repeat split; try done. intros Hr. by rewrite Hi2.
  - eexists _, _. split; [reflexivity|]. done.
Qed.

Lemma measure_run engine (rd : round value) self (range : list nat) :
  forall (latencies cpu_usage : list Q) (results : gmap Z stats),
  exists r t,
    measure zero engine rd self range latencies cpu_usage results
    = (r, results, t)
    /\ rows_of t = []
    /\ (is_Ok r = true ->
        invoked_of t
        = replicate (length range)
            (Infer.num_threads engine,
             Infer.input_data_of zero (dummy_input self))
        /\ length (progress_of t) = progress_count range).
Proof.
  induction range as [|i range IH]; intros latencies cpu_usage results;
    simpl.
  { eexists _, _. split; [reflexivity|]. done. }
  unfold bind at 1, lift. destruct (round_cpu_percent rd i) as [cpu|e].
  2: { eexists _, _. split; [reflexivity|]. done. }
  destruct (engine_predict_run engine (round_timed rd i) (dummy_input self)
              results) as (r1 & t1 & H1 & Hi1 & Hr1 & Hp1).
  unfold bind at 1. rewrite H1. destruct r1 as [pl|e].
  2: { eexists _, _. split; [reflexivity|]. simpl.
       rewrite ?app_nil_r. done. }
  destruct (IH (latencies ++ [pl.2]) (cpu_usage ++ [cpu]) results)
    as (r2 & t2 & H2 & Hr2 & Hok).
  unfold progress_count. rewrite filter_cons.
  unfold bind.
  destruct (Z.eqb_spec ((Z.of_nat i + 1) mod 20) 0) as [Hm|Hm].
  - unfold emit. rewrite H2. eexists _, _. split; [reflexivity|].
    cbn [fst snd app].
    replace (Logged (value:=value) (stats:=stats) INFO "Progress" :: t2)
      with ([Logged (value:=value) (stats:=stats) INFO "Progress"] ++ t2)
      by done.
    rewrite !rows_of_app, !invoked_of_app, !progress_of_app, Hr1, Hr2, Hi1,
      Hp1.
    rewrite decide_True by done. split; [done|].
    intros Hr. destruct (Hok Hr) as [Hi2 Hp2]. rewrite Hi2. simpl.
    by rewrite Hp2.
  - unfold ret. rewrite H2. eexists _, _. split; [reflexivity|].
    cbn [fst snd app].
    rewrite !rows_of_app, !invoked_of_app, !progress_of_app, Hr1, Hr2, Hi1,
      Hp1.
    rewrite decide_False by done. split; [done|].
    intros Hr. destruct (Hok Hr) as [Hi2 Hp2]. rewrite Hi2. simpl.
    by rewrite Hp2.
Qed.

Lemma progress_count_seq (n : nat) :
  progress_count (seq 0 n) = (n / 20)%nat.
Proof.
  unfold progress_count. induction n as [|n IH]; [done|].
  rewrite seq_S, filter_app, length_app, IH. cbn [Nat.add].
  rewrite filter_cons, filter_nil.
  destruct (decide ((Z.of_nat n + 1) mod 20 = 0)) as [Hm|Hm]; cbn [length].
  - assert (Z.of_nat (S n / 20) = Z.of_nat (n / 20) + 1); [|lia].
    rewrite !Nat2Z.inj_div. change (Z.of_nat 20) with 20.
    rewrite Nat2Z.inj_succ. Z.div_mod_to_equations. lia.
  - assert (Z.of_nat (S n / 20) = Z.of_nat (n / 20)); [|lia].
    rewrite !Nat2Z.inj_div. change (Z.of_nat 20) with 20.
    rewrite Nat2Z.inj_succ. Z.div_mod_to_equations. lia.
Qed.

(** A sequence that returns has run both of its parts. *)
Lemma bind_ok {E St A B : Type} (m : M E St A) (k : A -> M E St B)
    (s s' : St) (b : B) (t : list E) :
  bind m k s = (Ok b, s', t) ->
  exists a s1 t1 t2,
    m s = (Ok a, s1, t1) /\ k a s1 = (Ok b, s', t2) /\ t = t1 ++ t2.
Proof.
  unfold bind. destruct (m s) as [[[a|e] s1] t1]; [|done].
  destruct (k a s1) as [[r s2] t2] eqn:Hk. intros [= -> -> <-].
  by eexists _, _, _, _.
Qed.

(** One round that returns: the engine was loaded, the results have
    gained or replaced the entry of this thread count, and the
    interpreter ran once per warm-up and per measured iteration. *)
Lemma one_round_ok self (rd : round value) (k : Z)
    (results results' : gmap Z stats) (t : list (event value stats)) :
  one_round zero statistics self rd k results = (Ok tt, results', t) ->
  (exists s, results' = <[k:=s]> results)
  /\ round_load rd = Ok tt
  /\ invoked_of t
     = replicate (Z.to_nat (warmup_iterations self)
                  + Z.to_nat (num_iterations self))
         (k, Infer.input_data_of zero (dummy_input self))
  /\ rows_of t = []
  /\ length (progress_of t) = (Z.to_nat (num_iterations self) / 20)%nat.
Proof.
  unfold one_round. intros H.
  apply bind_ok in H as ([] & s1 & t1 & t1' & H1 & H & ->).
  rewrite log_all_run in H1. injection H1 as <- <-.
  apply bind_ok in H as ([] & s2 & t2 & t2' & H2 & H & ->).
  unfold lift in H2. injection H2 as Hload <- <-.
  apply bind_ok in H as ([] & s3 & t3 & t3' & H3 & H & ->).
  unfold emit in H3. injection H3 as <- <-.
  apply bind_ok in H as ([] & s4 & t4 & t4' & H4 & H & ->).
  set (engine := Infer.init (model_path self) k false None) in *.
  destruct (warmup_run engine rd self
              (seq 0 (Z.to_nat (warmup_iterations self))) results)
    as (rw & tw & Hw & Hwr & Hwp & Hwi).
  rewrite Hw in H4. injection H4 as -> <- <-.
  specialize (Hwi eq_refl).
  apply bind_ok in H as ([] & s5 & t5 & t5' & H5 & H & ->).
  unfold emit in H5. injection H5 as <- <-.
  apply bind_ok in H as (lc & s6 & t6 & t6' & H6 & H & ->).
  destruct (measure_run engine rd self
              (seq 0 (Z.to_nat (num_iterations self))) [] [] results)
    as (rm & tm & Hm & Hmr & Hmi).
  rewrite Hm in H6. injection H6 as -> <- <-.
  destruct (Hmi eq_refl) as [Hmi' Hmp].
  apply bind_ok in H as (s & s7 & t7 & t7' & H7 & H & ->).
  unfold lift in H7. injection H7 as Hstat <- <-.
  apply bind_ok in H as ([] & s8 & t8 & t8' & H8 & H & ->).
  unfold modify in H8. injection H8 as <- <-.
  unfold _print_results in H. rewrite log_all_run in H.
  injection H as <- <-.
  rewrite length_seq in Hwi, Hmi'. rewrite progress_count_seq in Hmp.
  split; [by exists s|]. split; [done|].
  rewrite !invoked_of_app, !rows_of_app, !progress_of_app, !length_app.
  rewrite Hwr, Hwp, Hmr, Hwi, Hmi', Hmp.
  cbn -[Nat.div Nat.add replicate]. rewrite !app_nil_r.
  split; [by rewrite replicate_add|]. done.
Qed.

(** A round in which the model cannot be loaded raises before anything
    is measured. *)
Lemma one_round_load_fails self (rd : round value) (k : Z) (e : exn)
    (results : gmap Z stats) :
  round_load rd = Raise e ->
  one_round zero statistics self rd k results
  = (Raise e, results,
     map (Logged INFO)
       ["================"; "Benchmarking with thread(s)";
        "================"]%string).
Proof.
  intros Hload. unfold one_round. unfold bind at 1. rewrite log_all_run.
  unfold bind at 1, lift. rewrite Hload. done.
Qed.

Lemma rounds_app self (env : nat -> round value) (l1 l2 : list Z) :
  forall (j : nat) (results : gmap Z stats),
  rounds zero statistics self env j (l1 ++ l2) results
  = (run rounds zero statistics self env j l1;
     rounds zero statistics self env (j + length l1) l2) results.
Proof.
  induction l1 as [|k l1 IH]; intros j results; simpl.
  { unfold bind, ret. rewrite Nat.add_0_r.
    by destruct (rounds zero statistics self env j l2 results)
      as [[[]]]. }
  replace (j + S (length l1))%nat with (S j + length l1)%nat by lia.
  unfold bind.
  destruct (one_round zero statistics self (env j) k results)
    as [[[[]|e] s1] t1]; [|done].
  specialize (IH (S j) s1). unfold bind in IH. rewrite IH.
  destruct (rounds zero statistics self env (S j) l1 s1)
    as [[[[]|e] s2] t2]; [|done].
  destruct (rounds zero statistics self env (S j + length l1) l2 s2)
    as [[r s3] t3].
  by rewrite app_assoc.
Qed.

(** The rounds that all return. *)
Lemma rounds_ok self (env : nat -> round value) (thread_counts : list Z) :
  forall (j : nat) (results results' : gmap Z stats)
         (t : list (event value stats)),
  rounds zero statistics self env j thread_counts results
  = (Ok tt, results', t) ->
  (forall k, is_Some (results' !! k)
             <-> is_Some (results !! k) \/ k ∈ thread_counts)
  /\ invoked_of t
     = flat_map
         (fun k => replicate (Z.to_nat (warmup_iterations self)
                              + Z.to_nat (num_iterations self))
                     (k, Infer.input_data_of zero (dummy_input self)))
         thread_counts
  /\ rows_of t = []
  /\ length (progress_of t)
     = (length thread_counts * (Z.to_nat (num_iterations self) / 20))%nat.
Proof.
  induction thread_counts as [|k rest IH]; intros j results results' t H;
    simpl in H.
  { injection H as <- <-. repeat split; try done.
    - by left.
    - intros [?|Hin]; [done|]. by apply elem_of_nil in Hin. }
  apply bind_ok in H as ([] & s1 & t1 & t2 & H1 & H2 & ->).
  apply one_round_ok in H1 as ((s & ->) & _ & Hi1 & Hr1 & Hp1).
  apply IH in H2 as (Hk & Hi2 & Hr2 & Hp2).
  rewrite invoked_of_app, rows_of_app, progress_of_app, length_app.
  rewrite Hi1, Hi2, Hr1, Hr2, Hp1, Hp2.
  split; [|split; [done|split; [done|simpl; lia]]].
  intros k0. split.
  - intros Hs. apply Hk in Hs as [Hs|Hin].
    + destruct (decide (k0 = k)) as [->|Hne].
      * right. apply elem_of_cons. by left.
      * left. by rewrite lookup_insert_ne in Hs.
    + right. apply elem_of_cons. by right.
  - intros [Hs|Hin]; apply Hk.
    + left. destruct (decide (k0 = k)) as [->|Hne].
      * by rewrite lookup_insert_eq.
      * by rewrite lookup_insert_ne.
    + apply elem_of_cons in Hin as [->|Hin]; [|by right].
      left. by rewrite lookup_insert_eq.
Qed.

Lemma rounds_loads self (env : nat -> round value) (thread_counts : list Z) :
  forall (j : nat) (results results' : gmap Z stats)
         (t : list (event value stats)),
  rounds zero statistics self env j thread_counts results
  = (Ok tt, results', t) ->
  forall i, (i < length thread_counts)%nat ->
            round_load (env (j + i)%nat) = Ok tt.
Proof.
  induction thread_counts as [|k rest IH]; intros j results results' t H i Hi;
    simpl in H, Hi; [lia|].
  apply bind_ok in H as ([] & s1 & t1 & t2 & H1 & H2 & ->).
  apply one_round_ok in H1 as (_ & Hload & _).
  destruct i as [|i]; [by rewrite Nat.add_0_r|].
  replace (j + S i)%nat with (S j + i)%nat by lia.
  apply (IH _ _ _ _ H2). lia.
Qed.

#[local] Instance key_le_total : Total (key_le (stats:=stats)).
Proof. intros a b. unfold key_le. lia. Qed.

#[local] Instance key_le_trans : Transitive (key_le (stats:=stats)).
Proof. intros a b c. unfold key_le. lia. Qed.

(** The summary: one row per entry of the results, by ascending
    thread count. *)
Lemma print_summary_run (results : gmap Z stats) :
  exists t,
    _print_summary (value:=value) results results = (Ok tt, results, t)
    /\ invoked_of t = []
    /\ progress_of t = []
    /\ rows_of t = (merge_sort key_le (map_to_list results)).*1.
Proof.
  unfold _print_summary. unfold bind at 1. rewrite log_all_run.
  unfold bind, emit. rewrite log_rows_run.
  eexists. split; [reflexivity|].
  rewrite !invoked_of_app, !progress_of_app, !rows_of_app.
  generalize (merge_sort key_le (map_to_list results)). intros items.
  assert (Hrows : forall items : list (Z * stats),
            invoked_of (map (fun p => Row (value:=value) p.1 p.2) items) = []
            /\ progress_of (map (fun p => Row (value:=value) p.1 p.2) items)
               = []
            /\ rows_of (map (fun p => Row (value:=value) p.1 p.2) items)
               = items.*1).
  { clear. induction items as [|[k s] items (IH1 & IH2 & IH3)]; [done|].
    split; [exact IH1|split; [exact IH2|]].
    exact (f_equal (cons k) IH3). }
  destruct (Hrows items) as (-> & -> & ->).
  repeat split; try done. simpl. by rewrite app_nil_r.
Qed.

(** X24. A run of the benchmark that returns gives a dictionary with
    exactly one entry for each distinct thread count it was asked for:
    a thread count listed twice is measured twice and keeps one entry.
    The summary table has one row per entry, by ascending thread count,
    whatever the order of the request. *)
Theorem benchmark_results_keys self (env : nat -> round value)
    (thread_counts : list Z) (results : gmap Z stats)
    (t : list (event value stats)) :
  CPUBenchmark_run zero statistics self env thread_counts
  = (Ok results, t) ->
  (forall k, is_Some (results !! k) <-> k ∈ thread_counts)
  /\ StronglySorted Z.le (rows_of t)
  /\ NoDup (rows_of t)
  /\ (forall k, k ∈ rows_of t <-> k ∈ thread_counts).
Proof.
  unfold CPUBenchmark_run. intros H.
  destruct ((run rounds zero statistics self env 0 thread_counts;
             do results <- get_state;
             run _print_summary results;
             ret results) (∅ : gmap Z stats)) as [[r s] t0] eqn:Hrun.
  cbn [fst snd] in H. injection H as -> ->.
  apply bind_ok in Hrun as ([] & s1 & t1 & t2 & H1 & H2 & ->).
  apply bind_ok in H2 as (res & s2 & t3 & t4 & H3 & H4 & ->).
  unfold get_state in H3. injection H3 as <- <- <-.
  apply bind_ok in H4 as ([] & s3 & t5 & t6 & H5 & H6 & ->).
  destruct (print_summary_run s1) as (t' & Hs & _ & _ & Hrows).
  rewrite Hs in H5. injection H5 as <- <-.
  unfold ret in H6. injection H6 as <- <- <-.
  apply rounds_ok in H1 as (Hk & _ & Hr1 & _).
  assert (Hkeys : forall k, is_Some (s1 !! k) <-> k ∈ thread_counts).
  { intros k. rewrite Hk. rewrite lookup_empty. split.
    - intros [[? ?]|?]; done.
    - by right. }
  rewrite !rows_of_app, Hr1, Hrows. simpl. rewrite app_nil_r.
  split; [done|]. split; [|split].
  - apply (StronglySorted_fmap fst key_le Z.le); [by intros [] []|].
    apply (StronglySorted_merge_sort key_le).
  - rewrite merge_sort_Permutation. apply NoDup_fst_map_to_list.
  - intros k. rewrite merge_sort_Permutation, <- Hkeys.
    rewrite list_elem_of_fmap. split.
    + intros ([k' s'] & -> & Hin). apply elem_of_map_to_list in Hin.
      by exists s'.
    + intros [s' Hs']. exists (k, s'). split; [done|].
      by apply elem_of_map_to_list.
Qed.

(** X25. In a run that returns, the interpreter is invoked
    [warmup_iterations + num_iterations] times for each thread count of
    the request, in the order of the request, negative counts standing
    for zero, and every time on the same tensor: the dummy input with
    its time axis brought to 96 frames. The progress line is logged
    once per 20 measured iterations. *)
Theorem benchmark_predict_calls self (env : nat -> round value)
    (thread_counts : list Z) (results : gmap Z stats)
    (t : list (event value stats)) :
  CPUBenchmark_run zero statistics self env thread_counts
  = (Ok results, t) ->
  invoked_of t
  = flat_map
      (fun k => replicate (Z.to_nat (warmup_iterations self)
                           + Z.to_nat (num_iterations self))
                  (k, Infer.input_data_of zero (dummy_input self)))
      thread_counts
  /\ length (progress_of t)
     = (length thread_counts * (Z.to_nat (num_iterations self) / 20))%nat
  /\ (forall j, (j < length thread_counts)%nat ->
                round_load (env j) = Ok tt).
Proof.
  unfold CPUBenchmark_run. intros H.
  destruct ((run rounds zero statistics self env 0 thread_counts;
             do results <- get_state;
             run _print_summary results;
             ret results) (∅ : gmap Z stats)) as [[r s] t0] eqn:Hrun.
  cbn [fst snd] in H. injection H as -> ->.
  apply bind_ok in Hrun as ([] & s1 & t1 & t2 & H1 & H2 & ->).
  apply bind_ok in H2 as (res & s2 & t3 & t4 & H3 & H4 & ->).
  unfold get_state in H3. injection H3 as <- <- <-.
  apply bind_ok in H4 as ([] & s3 & t5 & t6 & H5 & H6 & ->).
  destruct (print_summary_run s1) as (t' & Hs & Hi' & Hp' & _).
  rewrite Hs in H5. injection H5 as <- <-.
  unfold ret in H6. injection H6 as <- <- <-.
  pose proof (rounds_loads _ _ _ _ _ _ _ H1) as Hloads.
  apply rounds_ok in H1 as (_ & Hi1 & _ & Hp1).
  rewrite !invoked_of_app, !progress_of_app, !length_app, Hi1, Hp1, Hi', Hp'.
  simpl. rewrite !app_nil_r. split; [done|]. split; [lia|].
  intros j Hj. by apply (Hloads j).
Qed.

(** X26. When the model cannot be loaded for one thread count, [run]
    raises that exception there: the statistics of the thread counts
    already measured are not returned, no summary is logged and the
    thread counts that follow are not tried. *)
Theorem benchmark_load_failure_loses_results self (env : nat -> round value)
    (before after : list Z) (k : Z) (e : exn) (results : gmap Z stats)
    (t : list (event value stats)) :
  rounds zero statistics self env 0 before ∅ = (Ok tt, results, t) ->
  round_load (env (length before)) = Raise e ->
  CPUBenchmark_run zero statistics self env (before ++ k :: after)
  = (Raise e,
     t ++ map (Logged INFO)
            ["================"; "Benchmarking with thread(s)";
             "================"]%string).
Proof.
  intros Hbefore Hload. unfold CPUBenchmark_run.
  assert (Hrun :
    (run rounds zero statistics self env 0 (before ++ k :: after);
     do results <- get_state;
     run _print_summary results;
     ret results) (∅ : gmap Z stats)
    = (Raise e, results,
       t ++ map (Logged INFO)
              ["================"; "Benchmarking with thread(s)";
               "================"]%string)).
  { unfold bind at 1. rewrite rounds_app. unfold bind at 1.
    rewrite Hbefore. cbn [rounds Nat.add]. unfold bind at 1.
    by rewrite (one_round_load_fails _ _ _ e). }
  by rewrite Hrun.
Qed.
End BenchExtras.

(** ** The further properties at concrete inputs *)

Section ConcreteExtras.
Import Example.

Lemma update_buffer_ignores_excess_witness :
  0 <= Stream.hop_size stream
  /\ take (Z.to_nat (Stream.hop_size stream)) [1; 2; 9; 9]
     = take (Z.to_nat (Stream.hop_size stream)) [1; 2]
  /\ Stream._update_buffer [1; 2; 9; 9] stream
     = Stream._update_buffer [1; 2] stream.
Proof.
  assert (H1 : 0 <= Stream.hop_size stream) by (vm_compute; done).
  assert (H2 : take (Z.to_nat (Stream.hop_size stream)) [1; 2; 9; 9]
               = take (Z.to_nat (Stream.hop_size stream)) [1; 2])
    by reflexivity.
  split; [exact H1|split; [exact H2|]].
  exact (update_buffer_ignores_excess stream [1; 2; 9; 9] [1; 2] H1 H2).
Defined.

Lemma update_buffer_short_chunk_raises_witness :
  0 < Stream.hop_size full_stream <= Py.len (Stream.buffer full_stream)
  /\ Py.len (@nil Z) < Stream.hop_size full_stream
  /\ Py.len (@nil Z) <> 1
  /\ Stream._update_buffer [] full_stream
     = (Raise (mk_exn ValueError "could not broadcast input array"),
        Stream.set_buffer
          (drop (Z.to_nat (Stream.hop_size full_stream))
             (Stream.buffer full_stream)
           ++ take (Z.to_nat (Stream.hop_size full_stream))
                (Stream.buffer full_stream)) full_stream,
        []).
Proof.
  assert (H1 : 0 < Stream.hop_size full_stream
               <= Py.len (Stream.buffer full_stream)) by (vm_compute; done).
  assert (H2 : Py.len (@nil Z) < Stream.hop_size full_stream)
    by (vm_compute; done).
  assert (H3 : Py.len (@nil Z) <> 1) by (vm_compute; done).
  split; [exact H1|split; [exact H2|split; [exact H3|]]].
  exact (update_buffer_short_chunk_raises full_stream [] H1 H2 H3).
Defined.

Lemma update_buffer_broadcasts_single_sample_witness :
  0 < Stream.hop_size stream <= Py.len (Stream.buffer stream)
  /\ Stream._update_buffer [5] stream
     = Stream._update_buffer
         (replicate (Z.to_nat (Stream.hop_size stream)) 5) stream.
Proof.
  assert (H1 : 0 < Stream.hop_size stream <= Py.len (Stream.buffer stream))
    by (vm_compute; done).
  split; [exact H1|].
  exact (update_buffer_broadcasts_single_sample stream 5 H1).
Defined.

Lemma queue_never_exceeds_maxsize_witness :
  0 < Queue.maxsize (Stream.frame_queue full_stream)
  /\ Queue.qsize (Stream.frame_queue full_stream)
     <= Queue.maxsize (Stream.frame_queue full_stream)
  /\ (let s' :=
        (Stream.interleave
           [Stream.Produce [1; 2]; Stream.Consume; Stream.Produce [3; 4];
            Stream.Produce [5; 6]] full_stream).1.2 in
      Queue.maxsize (Stream.frame_queue s')
      = Queue.maxsize (Stream.frame_queue full_stream)
      /\ Queue.qsize (Stream.frame_queue s')
         <= Queue.maxsize (Stream.frame_queue full_stream)).
Proof.
  assert (H1 : 0 < Queue.maxsize (Stream.frame_queue full_stream))
    by reflexivity.
  assert (H2 : Queue.qsize (Stream.frame_queue full_stream)
               <= Queue.maxsize (Stream.frame_queue full_stream))
    by (vm_compute; done).
  split; [exact H1|split; [exact H2|]].
  exact (queue_never_exceeds_maxsize
           [Stream.Produce [1; 2]; Stream.Consume; Stream.Produce [3; 4];
            Stream.Produce [5; 6]] full_stream H1 H2).
Defined.

Lemma restart_spawns_again_witness :
  Stream.is_running stream = false
  /\ (let target :=
        match Stream.wav_file stream with
        | Some _ => WavWorker
        | None => MicWorker
        end in
      (run Stream.start; run Stream.stop; Stream.start) stream
      = (Ok tt,
         Stream.set_thread (Some target) (Stream.set_is_running true stream),
         [Spawn target; Log INFO "Audio stream started";
          Join target 2000; Log INFO "Audio stream stopped";
          Spawn target; Log INFO "Audio stream started"])).
Proof.
  assert (H1 : Stream.is_running stream = false) by reflexivity.
  split; [exact H1|].
  exact (restart_spawns_again stream H1).
Defined.

Lemma wav_worker_rate_mismatch_only_warns_witness :
  44100 <> Stream.sample_rate started
  /\ Stream._wav_worker 0 10 (Ok (Stream.Array1 asset, 44100)) started
     = match Stream._wav_worker 0 10
               (Ok (Stream.Array1 asset, Stream.sample_rate started))
               started with
       | (r, s', t) => (r, s', Log WARNING "WAV sample rate differs" :: t)
       end.
Proof.
  assert (H1 : 44100 <> Stream.sample_rate started) by (vm_compute; done).
  split; [exact H1|].
  exact (wav_worker_rate_mismatch_only_warns 0 10 (Stream.Array1 asset)
           44100 started H1).
Defined.

Lemma wav_worker_clean_finish_keeps_flag_witness :
  (@nil Z = [] \/ Stream.is_running started = false)
  /\ Stream._wav_worker 0 (S 9)
       (Ok (Stream.Array1 [], Stream.sample_rate started)) started
     = (Ok Stream.Finished, started,
        [Log INFO "WAV file loaded"; Log INFO "WAV playback finished"]).
Proof.
  assert (H1 : @nil Z = [] \/ Stream.is_running started = false)
    by (left; reflexivity).
  split; [exact H1|].
  exact (wav_worker_clean_finish_keeps_flag 0 9 [] started H1).
Defined.

Lemma mic_worker_polls_while_running_witness :
  Stream.is_running live = true
  /\ Forall (fun p => Stream.poll_stop p = false
                      /\ Stream.poll_sleep p = Ok tt)
       [quiet_poll; quiet_poll; quiet_poll]
  /\ (let out :=
        Stream._mic_worker (Ok tt) [quiet_poll; quiet_poll; quiet_poll]
          (Ok tt) live in
      out.1.1 = Ok Stream.StillLooping
      /\ Stream.is_running out.1.2 = true
      /\ Trace.sleeps_of out.2
         = replicate (length [quiet_poll; quiet_poll; quiet_poll]) 100
      /\ Trace.closes_of out.2 = []
      /\ Trace.logged_exns_of out.2 = []).
Proof.
  assert (H1 : Stream.is_running live = true) by reflexivity.
  assert (H2 : Forall (fun p => Stream.poll_stop p = false
                                /\ Stream.poll_sleep p = Ok tt)
                 [quiet_poll; quiet_poll; quiet_poll])
    by (repeat constructor).
  split; [exact H1|split; [exact H2|]].
  exact (mic_worker_polls_while_running
           [quiet_poll; quiet_poll; quiet_poll] (Ok tt) live H1 H2).
Defined.

Lemma mic_worker_stops_within_one_poll_witness :
  Stream.is_running live = true
  /\ Forall (fun q => Stream.poll_stop q = false
                      /\ Stream.poll_sleep q = Ok tt)
       [quiet_poll; quiet_poll]
  /\ Stream.poll_stop stop_poll = true
  /\ Stream.poll_sleep stop_poll = Ok tt
  /\ (let out :=
        Stream._mic_worker (Ok tt)
          ([quiet_poll; quiet_poll] ++ stop_poll :: quiet_poll :: [quiet_poll])
          (Ok tt) live in
      out.1.1 = Ok Stream.Finished
      /\ Stream.is_running out.1.2 = false
      /\ Trace.sleeps_of out.2
         = replicate (S (length [quiet_poll; quiet_poll])) 100
      /\ Trace.closes_of out.2 = [tt]
      /\ Trace.logged_exns_of out.2 = []).
Proof.
  assert (H1 : Stream.is_running live = true) by reflexivity.
  assert (H2 : Forall (fun q => Stream.poll_stop q = false
                                /\ Stream.poll_sleep q = Ok tt)
                 [quiet_poll; quiet_poll])
    by (repeat constructor).
  assert (H3 : Stream.poll_stop stop_poll = true) by reflexivity.
  assert (H4 : Stream.poll_sleep stop_poll = Ok tt) by reflexivity.
  split; [exact H1|split; [exact H2|split; [exact H3|split; [exact H4|]]]].
  exact (mic_worker_stops_within_one_poll [quiet_poll; quiet_poll]
           [quiet_poll] stop_poll quiet_poll live H1 H2 H3 H4).
Defined.

Lemma get_top_k_length_any_k_witness :
  argsort scores ≡ₚ seq 0 (length scores)
  /\ (length scores <= length (Infer.class_names engine))%nat
  /\ exists l,
       Infer.get_top_k argsort scores 5 engine = (Ok l, engine, [])
       /\ Py.len l
          = if 0 <? 5 then Z.min 5 (Py.len scores)
            else Py.len scores - Z.min (- (5)) (Py.len scores).
Proof.
  assert (H1 : argsort scores ≡ₚ seq 0 (length scores))
    by (apply (bool_decide_unpack
                 (argsort scores ≡ₚ seq 0 (length scores)));
        vm_compute; exact I).
  assert (H2 : (length scores <= length (Infer.class_names engine))%nat)
    by (apply Nat.leb_le; vm_compute; reflexivity).
  split; [exact H1|split; [exact H2|]].
  exact (get_top_k_length_any_k argsort engine scores 5 H1 H2).
Defined.

Lemma get_top_k_missing_label_raises_witness :
  1%nat ∈ rev (Py.slice_from (argsort scores) (- (2)))
  /\ (length (Infer.class_names one_class_engine) <= 1)%nat
  /\ exists e,
       Infer.get_top_k argsort scores 2 one_class_engine
       = (Raise e, one_class_engine, [])
       /\ exn_cls e = IndexError.
Proof.
  assert (H1 : 1%nat ∈ rev (Py.slice_from (argsort scores) (- (2))))
    by (vm_compute; repeat constructor).
  assert (H2 : (length (Infer.class_names one_class_engine) <= 1)%nat)
    by (vm_compute; lia).
  split; [exact H1|split; [exact H2|]].
  exact (get_top_k_missing_label_raises argsort one_class_engine scores 2
           1%nat H1 H2).
Defined.

Lemma get_top_k_returns_largest_witness :
  0 < 2 <= Py.len scores
  /\ Infer.is_argsort 0%Q Qltb scores (argsort scores) = true
  /\ Infer.get_top_k argsort scores 2 engine
     = (Ok [("class_1"%string, (7 # 10)%Q); ("class_2"%string, (2 # 10)%Q)],
        engine, [])
  /\ forall a m idx,
       a ∈ [("class_1"%string, (7 # 10)%Q); ("class_2"%string, (2 # 10)%Q)] ->
       (m < length scores - Z.to_nat 2)%nat ->
       argsort scores !! m = Some idx ->
       Qltb a.2 (nth idx scores 0%Q) = false.
Proof.
  assert (H1 : 0 < 2 <= Py.len scores) by (vm_compute; done).
  assert (H2 : Infer.is_argsort 0%Q Qltb scores (argsort scores) = true)
    by (vm_compute; reflexivity).
  assert (H3 : Infer.get_top_k argsort scores 2 engine
     = (Ok [("class_1"%string, (7 # 10)%Q); ("class_2"%string, (2 # 10)%Q)],
        engine, [])) by (vm_compute; reflexivity).
  split; [exact H1|split; [exact H2|split; [exact H3|]]].
  exact (get_top_k_returns_largest 0%Q argsort Qltb engine scores 2 _
           H1 H2 H3).
Defined.

Lemma iteration_consumes_frame_witness :
  Queue.items (Stream.frame_queue (Server.audio_stream queued_server))
  = [0; 0; 1; 2] :: []
  /\ (let out :=
        Server.iteration 0%Q argsort (flaky_tick true) queued_server in
      Queue.items (Stream.frame_queue (Server.audio_stream out.1.2)) = []
      /\ (exists t, out.2 = Server.StreamCall (Get (Some [0; 0; 1; 2])) :: t)
      /\ (forall e, Server.LoggedExn ERROR "Processing error" e ∈ out.2 ->
          out.1.1 = Ok tt
          /\ Server.frame_count out.1.2 = Server.frame_count queued_server
          /\ Server.sent_frame_ids out.2 = [])).
Proof.
  assert (H1 : Queue.items
                 (Stream.frame_queue (Server.audio_stream queued_server))
               = [0; 0; 1; 2] :: []) by reflexivity.
  split; [exact H1|].
  exact (iteration_consumes_frame 0%Q argsort (flaky_tick true) queued_server
           [0; 0; 1; 2] [] H1).
Defined.

Lemma empty_scores_send_nothing_witness :
  Queue.items (Stream.frame_queue (Server.audio_stream queued_server))
  = [0; 0; 1; 2] :: []
  /\ Server.tick_extract empty_scores_tick [0; 0; 1; 2] = Ok features
  /\ Server.tick_interpreter empty_scores_tick
       (Infer.input_data_of 0%Q features) = Ok ([] :: [])
  /\ argsort [] = []
  /\ Server.tick_cpu_percent empty_scores_tick = Ok 0%Q
  /\ (let out :=
        Server.iteration 0%Q argsort empty_scores_tick queued_server in
      out.1.1 = Ok tt
      /\ (exists t,
            out.2 = t ++ [Server.LoggedExn ERROR "Processing error"
                            (mk_exn IndexError "index out of range");
                          Server.Slept 100])
      /\ Server.sent_frame_ids out.2 = []
      /\ Server.frame_count out.1.2 = Server.frame_count queued_server).
Proof.
  assert (H1 : Queue.items
                 (Stream.frame_queue (Server.audio_stream queued_server))
               = [0; 0; 1; 2] :: []) by reflexivity.
  assert (H2 : Server.tick_extract empty_scores_tick [0; 0; 1; 2]
               = Ok features) by reflexivity.
  assert (H3 : Server.tick_interpreter empty_scores_tick
                 (Infer.input_data_of 0%Q features) = Ok ([] :: []))
    by reflexivity.
  assert (H4 : argsort [] = []) by reflexivity.
  assert (H5 : Server.tick_cpu_percent empty_scores_tick = Ok 0%Q)
    by reflexivity.
  split; [exact H1|split; [exact H2|split; [exact H3|split; [exact H4|
    split; [exact H5|]]]]].
  exact (empty_scores_send_nothing 0%Q argsort empty_scores_tick queued_server
           [0; 0; 1; 2] [] features [] 0%Q H1 H2 H3 H4 H5).
Defined.

Lemma loop_ends_when_flag_false_witness :
  Server.is_running stopped_server = false
  /\ exists a t,
       Stream.produce (Server.tick_arrivals (flaky_tick false))
         (Server.audio_stream stopped_server) = (Ok tt, a, t)
       /\ Server.loop 0%Q argsort (flaky_tick false :: [idle_tick])
            stopped_server
          = (Ok Stream.Finished, Server.set_audio_stream a stopped_server,
             map Server.StreamCall t)
       /\ Stream.delivered_of t = []
       /\ Queue.items (Stream.frame_queue a)
          = Queue.items
              (Stream.frame_queue (Server.audio_stream stopped_server))
            ++ Stream.accepted_of t.
Proof.
  assert (H1 : Server.is_running stopped_server = false) by reflexivity.
  split; [exact H1|].
  exact (loop_ends_when_flag_false 0%Q argsort (flaky_tick false) [idle_tick]
           stopped_server H1).
Defined.

Lemma start_server_before_init_witness :
  ServerGlobals.audio_stream (ServerGlobals.initial (sample:=Z)) = None
  /\ ServerGlobals.start_server (Ok tt) "0.0.0.0" 8080
       (ServerGlobals.initial (sample:=Z))
     = (Raise (ServerGlobals.none_has_no_attribute "start"),
        ServerGlobals.set_is_running true ServerGlobals.initial, []).
Proof.
  assert (H1 : ServerGlobals.audio_stream (ServerGlobals.initial (sample:=Z))
               = None) by reflexivity.
  split; [exact H1|].
  exact (start_server_before_init (Ok tt) "0.0.0.0" 8080
           ServerGlobals.initial H1).
Defined.

Lemma benchmark_results_keys_witness :
  Bench.CPUBenchmark_run 0%Q count_statistics benchmark bench_env [2; 1; 2]
  = (Ok (<[1:=20]> (<[2:=20]> ∅)),
     (Bench.CPUBenchmark_run 0%Q count_statistics benchmark bench_env
        [2; 1; 2]).2)
  /\ (forall k, is_Some ((<[1:=20]> (<[2:=20]> (∅ : gmap Z Z))) !! k)
                <-> k ∈ [2; 1; 2])
  /\ StronglySorted Z.le
       (Bench.rows_of
          (Bench.CPUBenchmark_run 0%Q count_statistics benchmark bench_env
             [2; 1; 2]).2)
  /\ NoDup
       (Bench.rows_of
          (Bench.CPUBenchmark_run 0%Q count_statistics benchmark bench_env
             [2; 1; 2]).2)
  /\ (forall k,
        k ∈ Bench.rows_of
              (Bench.CPUBenchmark_run 0%Q count_statistics benchmark
                 bench_env [2; 1; 2]).2
        <-> k ∈ [2; 1; 2]).
Proof.
  assert (H1 : Bench.CPUBenchmark_run 0%Q count_statistics benchmark
                 bench_env [2; 1; 2]
               = (Ok (<[1:=20]> (<[2:=20]> ∅)),
                  (Bench.CPUBenchmark_run 0%Q count_statistics benchmark
                     bench_env [2; 1; 2]).2))
    by (vm_compute; reflexivity).
  split; [exact H1|].
  exact (benchmark_results_keys 0%Q count_statistics benchmark bench_env
           [2; 1; 2] _ _ H1).
Defined.

Lemma benchmark_predict_calls_witness :
  Bench.CPUBenchmark_run 0%Q count_statistics benchmark bench_env [4; 1]
  = (Ok (<[1:=20]> (<[4:=20]> ∅)),
     (Bench.CPUBenchmark_run 0%Q count_statistics benchmark bench_env
        [4; 1]).2)
  /\ Bench.invoked_of
       (Bench.CPUBenchmark_run 0%Q count_statistics benchmark bench_env
          [4; 1]).2
     = flat_map
         (fun k =>
            replicate
              (Z.to_nat (Bench.warmup_iterations benchmark)
               + Z.to_nat (Bench.num_iterations benchmark))
              (k, Infer.input_data_of 0%Q (Bench.dummy_input benchmark)))
         [4; 1]
  /\ length
       (Bench.progress_of
          (Bench.CPUBenchmark_run 0%Q count_statistics benchmark bench_env
             [4; 1]).2)
     = (length [4; 1]
        * (Z.to_nat (Bench.num_iterations benchmark) / 20))%nat
  /\ (forall j, (j < length [4; 1])%nat ->
                Bench.round_load (bench_env j) = Ok tt).
Proof.
  assert (H1 : Bench.CPUBenchmark_run 0%Q count_statistics benchmark
                 bench_env [4; 1]
               = (Ok (<[1:=20]> (<[4:=20]> ∅)),
                  (Bench.CPUBenchmark_run 0%Q count_statistics benchmark
                     bench_env [4; 1]).2))
    by (vm_compute; reflexivity).
  split; [exact H1|].
  exact (benchmark_predict_calls 0%Q count_statistics benchmark bench_env
           [4; 1] _ _ H1).
Defined.

Lemma benchmark_load_failure_loses_results_witness :
  Bench.rounds 0%Q count_statistics benchmark failing_env 0 [1] ∅
  = (Ok tt, <[1:=20]> ∅,
     (Bench.rounds 0%Q count_statistics benchmark failing_env 0 [1] ∅).2)
  /\ Bench.round_load (failing_env (length [1])) = Raise load_error
  /\ Bench.CPUBenchmark_run 0%Q count_statistics benchmark failing_env
       ([1] ++ 2 :: [4])
     = (Raise load_error,
        (Bench.rounds 0%Q count_statistics benchmark failing_env 0 [1] ∅).2
        ++ map (Bench.Logged INFO)
             ["================"; "Benchmarking with thread(s)";
              "================"]%string).
Proof.
  assert (H1 : Bench.rounds 0%Q count_statistics benchmark failing_env 0
                 [1] ∅
               = (Ok tt, <[1:=20]> ∅,
                  (Bench.rounds 0%Q count_statistics benchmark failing_env
                     0 [1] ∅).2)) by (vm_compute; reflexivity).
  assert (H2 : Bench.round_load (failing_env (length [1]))
               = Raise load_error) by reflexivity.
  split; [exact H1|split; [exact H2|]].
  exact (benchmark_load_failure_loses_results 0%Q count_statistics benchmark
           failing_env [1] [4] 2 load_error _ _ H1 H2).
Defined.
End ConcreteExtras.
